(** * SunoAI-Unfollow: a shallow embedding of [suno-unfollow.py]

    The embedding follows the Python source function by function.

    - A Python [str] is a Rocq [string] whose characters are the code
      points U+0000..U+00FF; the character classes of [re] and of
      [str.strip] are written out for that range.
    - A Python [set] of handles is a [gset string].
    - Coroutines run one after the other on a single page, so [await] is
      sequencing.  Everything outside the process (the browser, the
      remote API, the clock) is an environment [Env] that answers each
      call from the log of the calls made so far; the bot's fields, the
      progress file and that log are the state threaded through the
      computation.
    - A Python exception is a value of [exn]; a computation returns
      [Ok v] or [Raise e] together with the state it left behind. *)

From stdpp Require Import gmap strings list pretty.
From Stdlib Require Import Ascii ZArith Lia.

Open Scope string_scope.
Open Scope Z_scope.

(** ** Python strings *)

Module PyStr.

Definition code (c : ascii) : N := N_of_ascii c.

Definition between (lo hi n : N) : bool := ((lo <=? n) && (n <=? hi))%N.

(** [str.isspace] on one character, which is the set [str.strip()]
    removes. *)
Definition isspace (c : ascii) : bool :=
  let n := code c in
  between 9 13 n || between 28 32 n || (n =? 133)%N || (n =? 160)%N.

(** [str.isalnum] on one character. *)
Definition isalnum (c : ascii) : bool :=
  let n := code c in
  between 48 57 n || between 65 90 n || between 97 122 n
  || (n =? 170)%N || between 178 179 n || (n =? 181)%N
  || between 185 186 n || between 188 190 n
  || between 192 214 n || between 216 246 n || between 248 255 n.

(** [s.replace(c, '')] for a one-character [c]. *)
Fixpoint remove_char (c : ascii) (s : string) : string :=
  match s with
  | EmptyString => EmptyString
  | String a s' =>
      if Ascii.eqb a c then remove_char c s' else String a (remove_char c s')
  end.

Fixpoint lstrip (s : string) : string :=
  match s with
  | EmptyString => EmptyString
  | String a s' => if isspace a then lstrip s' else s
  end.

Fixpoint rstrip (s : string) : string :=
  match s with
  | EmptyString => EmptyString
  | String a s' =>
      match rstrip s' with
      | EmptyString => if isspace a then EmptyString else String a EmptyString
      | r => String a r
      end
  end.

(** [s.strip()] *)
Definition strip (s : string) : string := rstrip (lstrip s).

(** [sub in s] *)
Fixpoint contains (sub s : string) : bool :=
  String.prefix sub s
  || match s with
     | EmptyString => false
     | String _ s' => contains sub s'
     end.

(** [sep.join(l)] *)
Fixpoint join (sep : string) (l : list string) : string :=
  match l with
  | [] => EmptyString
  | [x] => x
  | x :: l' => x ++ sep ++ join sep l'
  end.

Fixpoint chars (s : string) : list ascii :=
  match s with
  | EmptyString => []
  | String a s' => a :: chars s'
  end.

(** [s.split(sep)] for a one-character [sep]. *)
Fixpoint split (sep : ascii) (s : string) : list string :=
  match s with
  | EmptyString => [EmptyString]
  | String a s' =>
      if Ascii.eqb a sep then EmptyString :: split sep s'
      else match split sep s' with
           | [] => [String a EmptyString]
           | x :: l => String a x :: l
           end
  end.

Definition digit_value (c : ascii) : option Z :=
  let n := code c in
  if between 48 57 n then Some (Z.of_N n - 48) else None.

(** The digits of a decimal literal; one underscore may stand between
    two digits. *)
Fixpoint digits_value (acc : Z) (after_digit : bool) (s : string) : option Z :=
  match s with
  | EmptyString => if after_digit then Some acc else None
  | String c s' =>
      if Ascii.eqb c "_"
      then (if after_digit then digits_value acc false s' else None)
      else match digit_value c with
           | Some d => digits_value (10 * acc + d) true s'
           | None => None
           end
  end.

(** The characters that [int()] skips at the two ends of its argument:
    those of [str.strip()] without U+001C..U+001F. *)
Definition int_space (c : ascii) : bool :=
  let n := code c in
  between 9 13 n || (n =? 32)%N || (n =? 133)%N || (n =? 160)%N.

Fixpoint int_lstrip (s : string) : string :=
  match s with
  | EmptyString => EmptyString
  | String a s' => if int_space a then int_lstrip s' else s
  end.

Fixpoint int_rstrip (s : string) : string :=
  match s with
  | EmptyString => EmptyString
  | String a s' =>
      match int_rstrip s' with
      | EmptyString => if int_space a then EmptyString else String a EmptyString
      | r => String a r
      end
  end.

(** [int(s)]: [None] where Python raises [ValueError].  (The limit some
    interpreters put on the number of digits is left out.) *)
Definition int (s : string) : option Z :=
  match int_rstrip (int_lstrip s) with
  | String "+" r => digits_value 0 false r
  | String "-" r => Z.opp <$> digits_value 0 false r
  | r => digits_value 0 false r
  end.

(** [str.lower] on one character. *)
Definition lower_char (c : ascii) : ascii :=
  let n := code c in
  if between 65 90 n || between 192 214 n || between 216 222 n
  then ascii_of_N (n + 32) else c.

(** [s.lower()] *)
Fixpoint lower (s : string) : string :=
  match s with
  | EmptyString => EmptyString
  | String a s' => String (lower_char a) (lower s')
  end.

End PyStr.

(** ** The handle pattern *)

Module Re.

Import PyStr.

(** [\w] of a [str] pattern: alphanumeric or underscore. *)
Definition is_word (c : ascii) : bool := isalnum c || Ascii.eqb c "_".

(** The class [[\w\-]]. *)
Definition in_class (c : ascii) : bool := is_word c || Ascii.eqb c "-".

(** The longest prefix of class characters: its length and what follows. *)
Fixpoint span_class (s : string) : nat * string :=
  match s with
  | EmptyString => (O, EmptyString)
  | String a s' =>
      if in_class a
      then let '(n, rest) := span_class s' in (S n, rest)
      else (O, s)
  end.

Definition newline : ascii := Ascii.ascii_of_nat 10.

(** [$] without [re.MULTILINE]: at the end of the string, or just before
    a newline that ends the string. *)
Definition at_dollar (rest : string) : bool :=
  match rest with
  | EmptyString => true
  | String a EmptyString => Ascii.eqb a newline
  | _ => false
  end.

(** [bool(re.match(r'^[\w\-]{2,30}$', s))].  The repetition can only stop
    where the class characters stop: a shorter repetition is followed by
    a class character, where [$] does not hold. *)
Definition match_handle (s : string) : bool :=
  let '(n, rest) := span_class s in
  (2 <=? n)%nat && (n <=? 30)%nat && at_dollar rest.

End Re.

(** ** Python values that can reach [validate_username] *)

Inductive pyvalue :=
| PyNone
| PyBool (b : bool)
| PyInt (z : Z)
| PyStr (s : string).

(** Truth value of [v] in a condition. *)
Definition truthy (v : pyvalue) : bool :=
  match v with
  | PyNone => false
  | PyBool b => b
  | PyInt z => negb (z =? 0)
  | PyStr s => negb (String.eqb s EmptyString)
  end.

Definition isinstance_str (v : pyvalue) : bool :=
  match v with PyStr _ => true | _ => false end.

(** ** class User *)

Record User := { username : string }.

Module UserM.

(** [username.replace('@', '').strip()] *)
Definition cleaned (s : string) : string :=
  PyStr.strip (PyStr.remove_char "@" s).

(** [User.validate_username] *)
Definition validate_username (username : pyvalue) : bool :=
  if negb (truthy username) || negb (isinstance_str username) then false
  else
    match username with
    | PyStr s => Re.match_handle (cleaned s)
    | _ => false
    end.

(** The validator as the specification words it: one leading marker and
    the surrounding whitespace are stripped, then the pattern is
    checked. *)
Definition strip_leading_marker (s : string) : string :=
  match s with
  | String "@" s' => s'
  | _ => s
  end.

Definition spec_cleaned (s : string) : string :=
  PyStr.strip (strip_leading_marker (PyStr.strip s)).

Definition spec_validate (s : string) : bool :=
  Re.match_handle (spec_cleaned s).

End UserM.

(** ** Exceptions and outcomes *)

Inductive exn :=
| Exception (msg : string)
| SessionError (msg : string)
| RateLimitError (msg : string)
| ValueError (msg : string)
| KeyboardInterrupt.

(** [str(e)] *)
Definition str (e : exn) : string :=
  match e with
  | Exception m | SessionError m | RateLimitError m | ValueError m => m
  | KeyboardInterrupt => EmptyString
  end.

(** What [except Exception] catches: everything but the interrupt, which
    derives from [BaseException] only. *)
Definition is_Exception (e : exn) : bool :=
  match e with KeyboardInterrupt => false | _ => true end.

(** What [except SessionError] catches. *)
Definition is_SessionError (e : exn) : bool :=
  match e with SessionError _ => true | _ => false end.

(** [OutOfFuel] is not a behaviour of the program: it marks a run of the
    model that was given too few turns of the page loop. *)
Inductive outcome (A : Type) :=
| Ok (a : A)
| Raise (e : exn)
| OutOfFuel.

Arguments Ok {A} a.
Arguments Raise {A} e.
Arguments OutOfFuel {A}.

(** ** The outside world *)

Definition headers := gmap string string.

(** One profile of a listing: [handle p = None] when the object has no
    ['handle'] key. *)
Record profile := { handle : option string }.

(** The body of a listing response after [response.json()].  [NotADict]
    is any value that is not an object; of an object the model keeps the
    two keys the collector reads and whether there are other keys. *)
Inductive response_data :=
| NotADict
| Dict (num_total_profiles : option Z) (profiles : option (list profile))
       (other_keys : bool).

Inductive fetch_result :=
| FetchOk (d : response_data)
| FetchRaise (e : exn).

Record api_response := {
  status : Z;
  resp_headers : headers;
  text : string
}.

(** The browser library gives [response.headers] with the names of the
    headers in lower case, whatever the server sent. *)
Definition lower_cased (hs : headers) : Prop :=
  map_Forall (fun name _ => PyStr.lower name = name) hs.

Inductive post_result :=
| PostOk (r : api_response)
| PostRaise (e : exn).

(** What a navigation to a listing page followed by the wait for headers
    (at most 20 seconds of polling) gives: the bundle the response
    listener stored, if a qualifying response came, and the exception, if
    a call of the sequence raised. *)
Record observation := {
  captured : option headers;
  raised : option exn
}.

Inductive event :=
| EvListenerOn
| EvListenerOff
| EvNavigate (url : string)
| EvFetch (page_type : string) (n : Z)
| EvPost (handle : string)
| EvVerifySession
| EvSleep (secs : Z)
| EvSleepUniform (lo hi : Z)
| EvClosePage
| EvCloseContext
| EvStopPlaywright.

(** The environment answers from the log of what was done so far, the
    most recent event first. *)
Record Env := {
  env_observe : list event -> string -> observation;
  env_fetch : list event -> string -> Z -> fetch_result;
  env_post : list event -> string -> post_result;
  env_verify : list event -> option exn;
  env_close_page : list event -> option exn;
  env_close_context : list event -> option exn;
  env_stop_playwright : list event -> option exn
}.

(** The fields of the bot that the modelled methods use, the progress
    file [unfollow_progress.txt] and the log. *)
Record state := {
  page : option nat;
  context : option nat;
  browser : option nat;
  playwright : option nat;
  processed_users : gset string;
  progress_file : string;
  log : list event
}.

Definition set_page (v : option nat) (s : state) : state :=
  {| page := v; context := context s; browser := browser s;
     playwright := playwright s; processed_users := processed_users s;
     progress_file := progress_file s; log := log s |}.

Definition set_context (v : option nat) (s : state) : state :=
  {| page := page s; context := v; browser := browser s;
     playwright := playwright s; processed_users := processed_users s;
     progress_file := progress_file s; log := log s |}.

Definition set_browser (v : option nat) (s : state) : state :=
  {| page := page s; context := context s; browser := v;
     playwright := playwright s; processed_users := processed_users s;
     progress_file := progress_file s; log := log s |}.

Definition set_playwright (v : option nat) (s : state) : state :=
  {| page := page s; context := context s; browser := browser s;
     playwright := v; processed_users := processed_users s;
     progress_file := progress_file s; log := log s |}.

Definition set_processed_users (v : gset string) (s : state) : state :=
  {| page := page s; context := context s; browser := browser s;
     playwright := playwright s; processed_users := v;
     progress_file := progress_file s; log := log s |}.

Definition set_progress_file (v : string) (s : state) : state :=
  {| page := page s; context := context s; browser := browser s;
     playwright := playwright s; processed_users := processed_users s;
     progress_file := v; log := log s |}.

Definition set_log (v : list event) (s : state) : state :=
  {| page := page s; context := context s; browser := browser s;
     playwright := playwright s; processed_users := processed_users s;
     progress_file := progress_file s; log := v |}.

(** ** The monad of the embedding *)

Definition M (A : Type) : Type := state -> outcome A * state.

Definition ret {A} (a : A) : M A := fun s => (Ok a, s).

Definition bind {A B} (m : M A) (f : A -> M B) : M B :=
  fun s =>
    match m s with
    | (Ok a, s') => f a s'
    | (Raise e, s') => (Raise e, s')
    | (OutOfFuel, s') => (OutOfFuel, s')
    end.

Definition raise {A} (e : exn) : M A := fun s => (Raise e, s).

Definition out_of_fuel {A} : M A := fun s => (OutOfFuel, s).

(** [try: m  except ...: handler e] where [handler] chooses the clause
    (and raises [e] again when no clause matches). *)
Definition try_except {A} (m : M A) (handler : exn -> M A) : M A :=
  fun s =>
    match m s with
    | (Raise e, s') => handler e s'
    | r => r
    end.

(** [try: m  finally: f] *)
Definition try_finally {A} (m : M A) (f : M unit) : M A :=
  fun s =>
    let '(r, s') := m s in
    match f s' with
    | (Ok _, s'') => (r, s'')
    | (Raise e, s'') => (Raise e, s'')
    | (OutOfFuel, s'') => (OutOfFuel, s'')
    end.

Definition get {A} (f : state -> A) : M A := fun s => (Ok (f s), s).

Definition modify (f : state -> state) : M unit := fun s => (Ok tt, f s).

(** Appends [ev] to the log. *)
Definition emit (ev : event) : M unit :=
  modify (fun s => set_log (ev :: log s) s).

(** Asks the environment, then logs the call. *)
Definition ask {A} (q : list event -> A) (ev : event) : M A :=
  fun s => (Ok (q (log s)), set_log (ev :: log s) s).

Declare Scope monad_scope.
Delimit Scope monad_scope with monad.
Notation "x <- m ;; k" := (bind m (fun x => k))
  (at level 100, m at next level, right associativity) : monad_scope.
Notation "m ;;; k" := (bind m (fun _ => k))
  (at level 100, right associativity) : monad_scope.
Open Scope monad_scope.

(** How the body of a loop ends a turn. *)
Inductive flow (A : Type) :=
| Continue
| Return (a : A).

Arguments Continue {A}.
Arguments Return {A} a.

(** [for x in xs: body x], where the body may [continue] or [return]. *)
Fixpoint for_each {X A} (xs : list X) (body : X -> M (flow A)) : M (option A) :=
  match xs with
  | [] => ret None
  | x :: xs' =>
      r <- body x ;;
      match r with
      | Continue => for_each xs' body
      | Return a => ret (Some a)
      end
  end.

(** [range(n)] *)
Definition range (n : Z) : list Z := Z.of_nat <$> seq 0 (Z.to_nat n).

(** [asyncio.sleep(secs)] *)
Definition sleep (secs : Z) : M unit := emit (EvSleep secs).

(** [asyncio.sleep(random.uniform(lo, hi))] *)
Definition sleep_uniform (lo hi : Z) : M unit := emit (EvSleepUniform lo hi).

(** ** class SunoBot *)

Module SunoBot.

Definition base_url : string := "https://suno.com".

Definition MAX_RETRIES : Z := 3.

(** [__init__]: the fields of a new bot; [file] is what the progress file
    holds when the process starts.  The constructor does not touch it. *)
Definition init (file : string) : state :=
  {| page := None; context := None; browser := None; playwright := None;
     processed_users := ∅; progress_file := file; log := [] |}.

(** [verify_session]: the handler at its end turns every [Exception]
    that is not a [SessionError] into one. *)
Definition verify_session (env : Env) : M bool :=
  r <- ask (env_verify env) EvVerifySession ;;
  match r with
  | None => ret true
  | Some e =>
      if is_SessionError e then raise e
      else if is_Exception e
           then raise (SessionError "Failed to verify session status")
           else raise e
  end.

(** The navigation and the wait for headers that the three harvests
    share; [auth_headers] is the bundle before and after. *)
Definition observe (env : Env) (url : string) (auth_headers : option headers)
  : M (option headers) :=
  obs <- ask (fun l => env_observe env l url) (EvNavigate url) ;;
  let auth_headers :=
    match captured obs with
    | Some h => Some h
    | None => auth_headers
    end in
  match raised obs with
  | Some e => raise e
  | None => ret auth_headers
  end.

(** *** unfollow_user *)

(** The inner function [ensure_auth_headers]. *)
Definition ensure_auth_headers (env : Env) : M headers :=
  let auth_headers := None in
  emit EvListenerOn ;;;
  try_finally
    (auth_headers <- observe env (base_url ++ "/me/following") auth_headers ;;
     match auth_headers with
     | None => raise (SessionError "Failed to capture auth headers")
     | Some h => ret h
     end)
    (emit EvListenerOff).

(** [response.headers.get('Retry-After', '60')] *)
Definition retry_after_header (r : api_response) : string :=
  default "60" (resp_headers r !! "Retry-After").

(** One turn of [for attempt in range(self.MAX_RETRIES)]. *)
Definition unfollow_attempt (env : Env) (username : string) (attempt : Z)
  : M (flow bool) :=
  let on_error : M (flow bool) :=
    if attempt <? MAX_RETRIES - 1
    then sleep_uniform 15 30 ;;; ret Continue
    else ret (Return false) in
  try_except
    (_ <- ensure_auth_headers env ;;
     p <- ask (fun l => env_post env l username) (EvPost username) ;;
     match p with
     | PostRaise e => raise e
     | PostOk response =>
         if status response =? 204 then
           modify (fun s =>
             set_processed_users ({[username]} ∪ processed_users s) s) ;;;
           sleep_uniform 30 60 ;;;
           ret (Return true)
         else if status response =? 401 then
           _ <- verify_session env ;;
           ret Continue
         else if status response =? 429 then
           match PyStr.int (retry_after_header response) with
           | None => raise (ValueError "invalid literal for int() with base 10")
           | Some retry_after => sleep retry_after ;;; ret Continue
           end
         else
           if attempt <? MAX_RETRIES - 1
           then sleep_uniform 10 15 ;;; ret Continue
           else ret (Return false)
     end)
    (fun e =>
       if is_SessionError e then on_error
       else if is_Exception e then on_error
       else raise e).

Definition unfollow_user (env : Env) (username : string) : M bool :=
  processed <- get processed_users ;;
  if decide (username ∈ processed) then ret true
  else
    r <- for_each (range MAX_RETRIES) (unfollow_attempt env username) ;;
    match r with
    | Some b => ret b
    | None => ret false
    end.

(** *** handle_rate_limit (no caller in the file) *)

Definition handle_rate_limit (response : api_response) : M unit :=
  let retry_after :=
    match PyStr.int (retry_after_header response) with
    | Some n => n
    | None => 60
    end in
  sleep retry_after ;;;
  raise (RateLimitError
           ("Rate limited. Retry after " ++ pretty retry_after ++ " seconds")).

(** *** get_users *)

Definition MAX_API_RETRIES : nat := 3.

(** The inner function [refresh_auth_headers]: [for retry in range(3)].
    A retry goes to the home page and then to the listing page; the model
    has one observation for the two navigations and the wait. *)
Fixpoint refresh_retries (env : Env) (page_type : string) (retries : list Z)
    (auth_headers : option headers) : M (option headers) :=
  match retries with
  | [] =>
      raise (Exception
               "Failed to refresh authentication headers after 3 attempts")
  | _ :: rest =>
      obs <- ask (fun l => env_observe env l (base_url ++ "/me/" ++ page_type))
                 (EvNavigate (base_url ++ "/me/" ++ page_type)) ;;
      let auth_headers :=
        match captured obs with
        | Some h => Some h
        | None => auth_headers
        end in
      match raised obs with
      | Some e =>
          if is_Exception e
          then sleep 5 ;;; refresh_retries env page_type rest auth_headers
          else raise e
      | None =>
          match auth_headers with
          | Some h => ret (Some h)
          | None => refresh_retries env page_type rest auth_headers
          end
      end
  end.

Definition refresh_auth_headers (env : Env) (page_type : string)
  : M (option headers) :=
  refresh_retries env page_type (range 3) None.

(** [while api_retry_count < MAX_API_RETRIES]: every turn that does not
    leave the loop adds one to [api_retry_count], so the recursion is on
    [remaining = MAX_API_RETRIES - api_retry_count].  Returns the counter,
    the response when the loop was left by [break], and the bundle.  (The
    listener also fires on a successful fetch and stores the headers of
    that request again; the bundle stays set, which is all the control
    flow reads.) *)
Fixpoint fetch_attempts (env : Env) (page_type : string) (current_page : Z)
    (remaining : nat) (api_retry_count : nat) (auth_headers : option headers)
  : M (nat * option response_data * option headers) :=
  match remaining with
  | O => ret (api_retry_count, None, auth_headers)
  | S remaining =>
      r <- ask (fun l => env_fetch env l page_type current_page)
               (EvFetch page_type current_page) ;;
      match r with
      | FetchOk d => ret (api_retry_count, Some d, auth_headers)
      | FetchRaise api_error =>
          if is_Exception api_error then
            let api_retry_count := S api_retry_count in
            let error_msg := str api_error in
            if PyStr.contains "HTTP error! status: 502" error_msg then
              sleep 5 ;;;
              fetch_attempts env page_type current_page remaining
                api_retry_count auth_headers
            else if PyStr.contains "HTTP error! status: 401" error_msg then
              auth_headers <- refresh_auth_headers env page_type ;;
              fetch_attempts env page_type current_page remaining
                api_retry_count auth_headers
            else raise api_error
          else raise api_error
      end
  end.

(** The body of [for profile in response_data['profiles']]. *)
Definition add_profile (users : gset string) (p : profile) : gset string :=
  match handle p with
  | Some h =>
      let cleaned_username := UserM.cleaned h in
      if UserM.validate_username (PyStr cleaned_username)
      then {[cleaned_username]} ∪ users
      else users
  | None => users
  end.

(** [-(-total_profiles // 20)] *)
Definition ceil_pages (total_profiles : Z) : Z := - (- total_profiles / 20).

(** [total_pages or 1] *)
Definition or_1 (total_pages : option Z) : Z :=
  match total_pages with
  | None => 1
  | Some n => if n =? 0 then 1 else n
  end.

(** [while current_page <= (total_pages or 1)] *)
Fixpoint pages (env : Env) (page_type : string) (fuel : nat)
    (users : gset string) (current_page : Z) (total_pages : option Z)
    (auth_headers : option headers) : M (gset string) :=
  if current_page <=? or_1 total_pages then
    match fuel with
    | O => out_of_fuel
    | S fuel =>
        fetched <-
          fetch_attempts env page_type current_page MAX_API_RETRIES 0
            auth_headers ;;
        let '(api_retry_count, response_data, auth_headers) := fetched in
        if decide (api_retry_count = MAX_API_RETRIES) then
          raise (Exception ("Failed to fetch page " ++ pretty current_page
                            ++ " after " ++ pretty MAX_API_RETRIES
                            ++ " retries"))
        else
          match response_data with
          | None | Some NotADict | Some (Dict None None false) =>
              raise (Exception "Invalid API response format")
          | Some (Dict num_total_profiles profiles _) =>
              let total_pages :=
                match total_pages, num_total_profiles with
                | None, Some total_profiles => Some (ceil_pages total_profiles)
                | _, _ => total_pages
                end in
              match profiles with
              | None => raise (Exception "No profiles key in response")
              | Some profiles =>
                  let previous_count := size users in
                  let users := foldl add_profile users profiles in
                  let new_users :=
                    Z.of_nat (size users) - Z.of_nat previous_count in
                  if (new_users =? 0) && (current_page >? 1) then ret users
                  else
                    sleep 1 ;;;
                    pages env page_type fuel users (current_page + 1)
                      total_pages auth_headers
              end
          end
    end
  else ret users.

(** [[User(username=username) for username in users]] *)
Definition as_users (users : gset string) : list User :=
  Build_User <$> elements users.

Definition get_users (env : Env) (fuel : nat) (page_type : string)
  : M (list User) :=
  users <-
    try_finally
      (try_except
         (emit EvListenerOn ;;;
          auth_headers <- observe env (base_url ++ "/me/" ++ page_type) None ;;
          match auth_headers with
          | None =>
              raise (Exception
                       "Failed to capture initial authentication headers")
          | Some _ => pages env page_type fuel ∅ 1 None auth_headers
          end)
         (fun e => raise e))
      (emit EvListenerOff) ;;
  ret (as_users users).

(** *** find_and_unfollow_nonreciprocal *)

(** The three set expressions after the two listings are fetched. *)
Definition users_to_unfollow (following followers : list User) : gset string :=
  let following_usernames : gset string := list_to_set (username <$> following) in
  let follower_usernames : gset string := list_to_set (username <$> followers) in
  following_usernames ∖ follower_usernames.

Definition nl : string := String Re.newline EmptyString.

(** [with open(progress_file, 'w') as f: f.write(data)] *)
Definition write_progress (data : string) : M unit :=
  modify (set_progress_file data).

(** [with open(progress_file, 'a') as f: f.write(data)] *)
Definition append_progress (data : string) : M unit :=
  modify (fun s => set_progress_file (progress_file s ++ data) s).

(** [for username in chunk] *)
Fixpoint unfollow_chunk (env : Env) (chunk : list string) : M unit :=
  match chunk with
  | [] => ret tt
  | username :: rest =>
      ok <- unfollow_user env username ;;
      (if ok : bool then append_progress (nl ++ username) else ret tt) ;;;
      unfollow_chunk env rest
  end.

Definition chunk_size : nat := 5.

(** [range(0, n, step)] *)
Definition range_step (n step : nat) : list nat :=
  (fun k => k * step)%nat <$> seq 0 ((n + step - 1) / step)%nat.

(** [for i in range(0, len(users_to_unfollow), chunk_size)]; a set is
    listed in the order of [elements]. *)
Fixpoint unfollow_chunks (env : Env) (targets : gset string) (starts : list nat)
  : M unit :=
  match starts with
  | [] => ret tt
  | i :: rest =>
      let chunk := take chunk_size (drop i (elements targets)) in
      unfollow_chunk env chunk ;;;
      (if (i + chunk_size <? size targets)%nat
       then sleep_uniform 60 120 else ret tt) ;;;
      unfollow_chunks env targets rest
  end.

Definition find_and_unfollow_nonreciprocal (env : Env) (fuel : nat) : M unit :=
  try_except
    (following <- get_users env fuel "following" ;;
     followers <- get_users env fuel "followers" ;;
     let targets := users_to_unfollow following followers in
     processed <- get processed_users ;;
     write_progress (PyStr.join nl (elements processed)) ;;;
     unfollow_chunks env targets (range_step (size targets) chunk_size))
    (fun e => raise e).

(** *** cleanup *)

(** A call of the browser library that may raise. *)
Definition call (q : list event -> option exn) (ev : event) : M unit :=
  r <- ask q ev ;;
  match r with
  | None => ret tt
  | Some e => raise e
  end.

(** [try: m  except Exception: pass] *)
Definition pass_on_exception (m : M unit) : M unit :=
  try_except m (fun e => if is_Exception e then ret tt else raise e).

Definition cleanup (env : Env) : M unit :=
  try_except
    (p <- get page ;;
     match p with
     | Some _ =>
         pass_on_exception (call (env_close_page env) EvClosePage) ;;;
         modify (set_page None)
     | None => ret tt
     end ;;;
     c <- get context ;;
     match c with
     | Some _ =>
         pass_on_exception (call (env_close_context env) EvCloseContext) ;;;
         modify (set_context None)
     | None => ret tt
     end ;;;
     b <- get browser ;;
     match b with
     | Some _ => modify (set_browser None)
     | None => ret tt
     end ;;;
     w <- get playwright ;;
     match w with
     | Some _ =>
         call (env_stop_playwright env) EvStopPlaywright ;;;
         modify (set_playwright None)
     | None => ret tt
     end)
    (fun e => if is_Exception e then ret tt else raise e).

End SunoBot.

(** ** Vocabulary of the statements *)

(** The profiles of a page whose handles are [hs]. *)
Definition profiles_of (hs : list string) : list profile :=
  (fun h => {| handle := Some h |}) <$> hs.

(** [total_pages] after a response: set from the count of the response
    while it is still [None]. *)
Definition next_total (total_pages num_total_profiles : option Z) : option Z :=
  match total_pages, num_total_profiles with
  | None, Some total_profiles => Some (SunoBot.ceil_pages total_profiles)
  | _, _ => total_pages
  end.

(** The state after the events [evs], given the most recent first. *)
Definition logged (evs : list event) (st : state) : state :=
  set_log (evs ++ log st)%list st.

Definition outcome_map {A B} (f : A -> B) (r : outcome A) : outcome B :=
  match r with
  | Ok a => Ok (f a)
  | Raise e => Raise e
  | OutOfFuel => OutOfFuel
  end.

(** The string has no character [c]. *)
Definition free_of (c : ascii) (s : string) : Prop := c ∉ PyStr.chars s.

(** A computation that does not run out of fuel. *)
Definition fuelled {A} (m : M A) : Prop :=
  forall st, fst (m st) <> OutOfFuel.

(** A computation that touches nothing but the log. *)
Definition only_logs {A} (m : M A) : Prop :=
  forall st, exists l, snd (m st) = set_log l st.

(** What a run of successful unfollows appends to the progress file. *)
Fixpoint appended (hs : list string) : string :=
  match hs with
  | [] => EmptyString
  | h :: hs' => SunoBot.nl ++ h ++ appended hs'
  end.

(** The state one call of [cleanup] leaves when nothing escapes it. *)
Definition cleaned_up (st : state) : state :=
  let l1 :=
    match page st with Some _ => EvClosePage :: log st | None => log st end in
  let l2 :=
    match context st with Some _ => EvCloseContext :: l1 | None => l1 end in
  let l3 :=
    match playwright st with Some _ => EvStopPlaywright :: l2 | None => l2 end in
  {| page := None; context := None; browser := None; playwright := None;
     processed_users := processed_users st; progress_file := progress_file st;
     log := l3 |}.

(** ** Environments used to run the model *)

Module Mock.

Import SunoBot.

Definition bundle : headers :=
  <["authorization" := "Bearer token"]>
    (<["session-id" := "session"]>
       (<["device-id" := "device"]> (<["affiliate-id" := "undefined"]> ∅))).

(** A qualifying response was seen within the window. *)
Definition seen : observation := {| captured := Some bundle; raised := None |}.

(** The window passed without a qualifying response. *)
Definition unseen : observation := {| captured := None; raised := None |}.

Definition respond (code : Z) (hs : headers) : post_result :=
  PostOk {| status := code; resp_headers := hs; text := EmptyString |}.

Definition http_error (code : string) : fetch_result :=
  FetchRaise (Exception ("Error: HTTP error! status: " ++ code)).

(** Page [n] of a listing whose pages are [listing]. *)
Definition page_of (listing : list (list string)) (n : Z) : response_data :=
  Dict (Some (Z.of_nat (length (concat listing))))
       (Some (profiles_of (default [] (listing !! Z.to_nat (n - 1)))))
       true.

(** A platform on which every call succeeds. *)
Definition platform (following followers : list (list string)) : Env :=
  {| env_observe := fun _ _ => seen;
     env_fetch := fun _ page_type n =>
       FetchOk (page_of (if String.eqb page_type "following"
                         then following else followers) n);
     env_post := fun _ _ => respond 204 ∅;
     env_verify := fun _ => None;
     env_close_page := fun _ => None;
     env_close_context := fun _ => None;
     env_stop_playwright := fun _ => None |}.

Definition with_observe (f : list event -> string -> observation) (e : Env) : Env :=
  {| env_observe := f; env_fetch := env_fetch e; env_post := env_post e;
     env_verify := env_verify e; env_close_page := env_close_page e;
     env_close_context := env_close_context e;
     env_stop_playwright := env_stop_playwright e |}.

Definition with_fetch (f : list event -> string -> Z -> fetch_result) (e : Env)
  : Env :=
  {| env_observe := env_observe e; env_fetch := f; env_post := env_post e;
     env_verify := env_verify e; env_close_page := env_close_page e;
     env_close_context := env_close_context e;
     env_stop_playwright := env_stop_playwright e |}.

Definition with_post (f : list event -> string -> post_result) (e : Env) : Env :=
  {| env_observe := env_observe e; env_fetch := env_fetch e; env_post := f;
     env_verify := env_verify e; env_close_page := env_close_page e;
     env_close_context := env_close_context e;
     env_stop_playwright := env_stop_playwright e |}.

Definition with_stop_playwright (f : list event -> option exn) (e : Env) : Env :=
  {| env_observe := env_observe e; env_fetch := env_fetch e;
     env_post := env_post e; env_verify := env_verify e;
     env_close_page := env_close_page e;
     env_close_context := env_close_context e;
     env_stop_playwright := f |}.

Definition is_fetch (page_type : string) (n : Z) (ev : event) : bool :=
  match ev with
  | EvFetch t m => String.eqb t page_type && (m =? n)
  | _ => false
  end.

Definition is_post (ev : event) : bool :=
  match ev with
  | EvPost _ => true
  | _ => false
  end.

(** How many times page [n] was requested so far. *)
Definition fetched (page_type : string) (n : Z) (l : list event) : nat :=
  length (filter (fun ev => is_fetch page_type n ev = true) l).

(** The listing API answers 401 to the first [k] requests of every page
    and 200 after that. *)
Definition expiring (k : nat) (e : Env) : Env :=
  with_fetch
    (fun l page_type n =>
       if (fetched page_type n l <? k)%nat then http_error "401"
       else env_fetch e l page_type n)
    e.

(** The handles [u<from>], ..., [u<from+count-1>]. *)
Definition names (from count : nat) : list string :=
  (fun i => "u" ++ pretty (Z.of_nat i)) <$> seq from count.

(** 45 profiles on three pages. *)
Definition forty_five : Env :=
  platform [names 1 20; names 21 20; names 41 5] [].

(** 100 profiles announced, but page 2 lists the handles of page 1. *)
Definition repeating : Env :=
  platform [names 1 20; names 1 20; names 41 20; names 61 20; names 81 20] [].

(** No qualifying response is ever seen. *)
Definition blind : Env := with_observe (fun _ _ => unseen) (platform [] []).

(** How many unfollow requests were made so far. *)
Definition posts (l : list event) : nat :=
  length (filter (fun ev => is_post ev = true) l).

(** A 429 response with the header [Retry-After: retry_after], as the
    library delivers it: the name of the header is in lower case. *)
Definition rate_limit_response (retry_after : string) : api_response :=
  {| status := 429; resp_headers := {["retry-after" := retry_after]};
     text := EmptyString |}.

(** The first unfollow request is answered 429 with the given
    [Retry-After]; the next ones succeed. *)
Definition rate_limited (retry_after : string) : Env :=
  with_post
    (fun l _ =>
       if (posts l =? 0)%nat then PostOk (rate_limit_response retry_after)
       else respond 204 ∅)
    (platform [] []).

(** [playwright.stop()] raises. *)
Definition stuck_playwright : Env :=
  with_stop_playwright (fun _ => Some (Exception "Connection closed"))
    (platform [] []).

(** The end-to-end scenario: three followed accounts, one of which
    follows back.  The handles are valid ones (a handle of one letter is
    dropped by the validator). *)
Definition scenario : Env := platform [["alice"; "bob"; "carol"]] [["bob"]].

(** The scenario, interrupted at the first harvest that follows an
    unfollow request. *)
Definition interrupted : Env :=
  with_observe
    (fun l _ =>
       if (0 <? posts l)%nat
       then {| captured := None; raised := Some KeyboardInterrupt |}
       else seen)
    scenario.

(** The platform after the unfollow of the interrupted run took effect. *)
Definition resumed : Env := platform [["alice"; "bob"]] [["bob"]].

(** A bot that holds a page, a context, a browser and the driver. *)
Definition open_bot : state :=
  set_page (Some 1%nat)
    (set_context (Some 2%nat)
       (set_browser (Some 3%nat)
          (set_playwright (Some 4%nat) (SunoBot.init EmptyString)))).

End Mock.

(** The pages requested according to a log, the most recent first. *)
Definition requested_pages (l : list event) : list Z :=
  omap (fun ev => match ev with EvFetch _ n => Some n | _ => None end) l.

(** The number of navigations (each harvest or refresh makes one). *)
Definition is_navigate (ev : event) : bool :=
  match ev with
  | EvNavigate _ => true
  | _ => false
  end.

Definition navigations (l : list event) : nat :=
  length (filter (fun ev => is_navigate ev = true) l).

(** The lines of the progress file that hold a handle. *)
Definition ledger_lines (s : state) : list string :=
  filter (fun x => x <> EmptyString) (PyStr.split Re.newline (progress_file s)).

(** ** The session layer of the bot

    The methods that start the browser, verify the login and frame a run.
    [SunoBot.verify_session] above stands for the whole session check as
    one call of the environment; here the check is written out statement
    by statement.  The calls of the browser library that these methods
    make and the methods above do not are answered by a second record of
    oracles; those calls leave no event in the log. *)

Module Session.

Import SunoBot.

(** The result of a call that makes an object (a driver, a page). *)
Inductive made :=
| Made (h : nat)
| NotMade (e : exn).

(** [launch_persistent_context] followed by [add_init_script] and the
    read of [context.browser]: the launch raises, or gives a context, for
    which the script injection may raise and whose [browser] attribute
    may be [None]. *)
Inductive launch_result :=
| LaunchRaise (e : exn)
| Launched (ctx : nat) (init_script : option exn) (browser_of : option nat).

(** [page.wait_for_selector]: an element (which may be [None]), or an
    exception such as the timeout. *)
Inductive wait_result :=
| Element (found : bool)
| WaitRaise (e : exn).

(** [context.cookies()]: the names of the cookies, or an exception. *)
Inductive cookies_result :=
| Cookies (names : list string)
| CookiesRaise (e : exn).

Record Library := {
  lib_start : list event -> made;
  lib_launch : list event -> launch_result;
  lib_new_page : list event -> made;
  lib_route : list event -> option exn;
  lib_goto : list event -> string -> option exn;
  lib_wait_for_selector : list event -> string -> Z -> wait_result;
  lib_url : list event -> string;
  lib_cookies : list event -> cookies_result
}.

(** Asks the library without logging the call. *)
Definition consult {A} (q : list event -> A) : M A :=
  get (fun s => q (log s)).

(** A call of the library that may raise and is not logged. *)
Definition call_silent (q : list event -> option exn) : M unit :=
  r <- consult q ;;
  match r with
  | None => ret tt
  | Some e => raise e
  end.

(** [initialize_browser] *)
Definition initialize_browser (lib : Library) : M unit :=
  try_except
    (w <- get playwright ;;
     match w with
     | Some _ => ret tt
     | None =>
         r <- consult (lib_start lib) ;;
         match r with
         | Made h => modify (set_playwright (Some h))
         | NotMade e => raise e
         end
     end ;;;
     b <- get browser ;;
     c <- get context ;;
     match b, c with
     | Some _, Some _ => ret tt
     | _, _ =>
         r <- consult (lib_launch lib) ;;
         match r with
         | LaunchRaise e => raise e
         | Launched ctx init_script browser_of =>
             modify (set_context (Some ctx)) ;;;
             match init_script with
             | Some e => raise e
             | None => ret tt
             end ;;;
             modify (set_browser browser_of)
         end
     end)
    (fun e => raise e).

Definition dq : string := String (Ascii.ascii_of_nat 34) EmptyString.

Definition login_selectors : list string :=
  [ ".profile-section";
    "[data-testid=" ++ dq ++ "profile" ++ dq ++ "]";
    "div[role=" ++ dq ++ "navigation" ++ dq ++ "]";
    "button:has-text(" ++ dq ++ "Following" ++ dq ++ ")";
    "button:has-text(" ++ dq ++ "My Profile" ++ dq ++ ")";
    "a:has-text(" ++ dq ++ "My Profile" ++ dq ++ ")";
    "div:has-text(" ++ dq ++ "Following" ++ dq ++ ")";
    ".header-user-menu";
    ".user-profile" ].

(** [for selector in login_selectors] with its [try] and bare [except]:
    true when the method returns [True] from inside the loop. *)
Fixpoint poll_selectors (lib : Library) (selectors : list string) : M bool :=
  match selectors with
  | [] => ret false
  | selector :: rest =>
      r <- consult (fun l => lib_wait_for_selector lib l selector 10000) ;;
      match r with
      | Element true => ret true
      | Element false => poll_selectors lib rest
      | WaitRaise _ => poll_selectors lib rest
      end
  end.

(** [for _ in range(3)] *)
Fixpoint poll_rounds (lib : Library) (rounds : list Z) : M bool :=
  match rounds with
  | [] => ret false
  | _ :: rest =>
      found <- poll_selectors lib login_selectors ;;
      if found : bool then ret true
      else sleep 2 ;;; poll_rounds lib rest
  end.

(** [verify_session], statement by statement. *)
Definition verify_session (lib : Library) : M bool :=
  try_except
    (call (fun l => lib_goto lib l (base_url ++ "/me"))
          (EvNavigate (base_url ++ "/me")) ;;;
     sleep 2 ;;;
     found <- poll_rounds lib (range 3) ;;
     if found : bool then ret true
     else
       try_except
         (r <- consult (fun l => lib_wait_for_selector lib l
                                   (PyStr.join " ," login_selectors) 300000) ;;
          match r with
          | Element _ => ret true
          | WaitRaise e => raise e
          end)
         (fun e =>
            if is_Exception e then
              current_url <- consult (lib_url lib) ;;
              if PyStr.contains "/me" current_url
                 || PyStr.contains "/profile" current_url
              then ret true
              else raise (SessionError "Login timeout - please try again")
            else raise e))
    (fun e =>
       if is_Exception e then
         if is_SessionError e then raise e
         else raise (SessionError "Failed to verify session status")
       else raise e).

Definition essential_cookies : list string := ["session_id"; "auth_token"].

(** [refresh_cookies] (no caller in the file). *)
Definition refresh_cookies (lib : Library) : M bool :=
  try_except
    (c <- get context ;;
     match c with
     | None =>
         raise (Exception "'NoneType' object has no attribute 'cookies'")
     | Some _ =>
         r <- consult (lib_cookies lib) ;;
         match r with
         | CookiesRaise e => raise e
         | Cookies cookies =>
             match cookies with
             | [] => _ <- verify_session lib ;; ret true
             | _ :: _ =>
                 let missing_cookies :=
                   filter (fun cookie => cookie ∉ cookies) essential_cookies in
                 match missing_cookies with
                 | _ :: _ => _ <- verify_session lib ;; ret true
                 | [] => ret true
                 end
             end
         end
     end)
    (fun e => if is_Exception e then ret false else raise e).

(** [browser_context], applied to the body of the [async with] block. *)
Definition browser_context {A} (env : Env) (lib : Library)
    (body : nat -> M A) : M A :=
  try_except
    (c <- get context ;;
     match c with
     | None => initialize_browser lib
     | Some _ => ret tt
     end ;;;
     r <- consult (lib_new_page lib) ;;
     match r with
     | NotMade e => raise e
     | Made page =>
         try_finally
           (call_silent (lib_route lib) ;;;
            _ <- verify_session lib ;;
            body page)
           (pass_on_exception (call (env_close_page env) EvClosePage))
     end)
    (fun e => raise e).

(** What [except RateLimitError] catches. *)
Definition is_RateLimitError (e : exn) : bool :=
  match e with RateLimitError _ => true | _ => false end.

(** The [except] clauses of [run]. *)
Definition run_handler (e : exn) : M unit :=
  if is_SessionError e then
    if negb (PyStr.contains "timeout" (PyStr.lower (str e)))
    then sleep 5 else ret tt
  else if is_RateLimitError e then ret tt
  else if is_Exception e then ret tt
  else raise e.

(** [run] *)
Definition run (env : Env) (lib : Library) (fuel : nat) : M unit :=
  try_finally
    (try_except
       (initialize_browser lib ;;;
        browser_context env lib
          (fun _ => find_and_unfollow_nonreciprocal env fuel))
       run_handler)
    (cleanup env).

(** A library on which every call succeeds and the login is detected at
    once; the context is a persistent one, without a browser object. *)
Definition working : Library :=
  {| lib_start := fun _ => Made 4%nat;
     lib_launch := fun _ => Launched 2%nat None None;
     lib_new_page := fun _ => Made 1%nat;
     lib_route := fun _ => None;
     lib_goto := fun _ _ => None;
     lib_wait_for_selector := fun _ _ _ => Element true;
     lib_url := fun _ => "https://suno.com/me";
     lib_cookies := fun _ => Cookies ["session_id"; "auth_token"] |}.

(** A library on which no login indicator ever appears and the page
    stays at [url]. *)
Definition logged_out (url : string) : Library :=
  {| lib_start := fun _ => Made 4%nat;
     lib_launch := fun _ => Launched 2%nat None None;
     lib_new_page := fun _ => Made 1%nat;
     lib_route := fun _ => None;
     lib_goto := fun _ _ => None;
     lib_wait_for_selector := fun _ _ timeout =>
       if timeout =? 10000 then WaitRaise KeyboardInterrupt
       else WaitRaise (Exception "Timeout 300000ms exceeded");
     lib_url := fun _ => url;
     lib_cookies := fun _ => Cookies [] |}.

End Session.

(** ** Vocabulary of the further properties *)

(** Every handle of the set passes the validator and is its own cleaned
    form. *)
Definition tidy (users : gset string) : Prop :=
  forall x, x ∈ users ->
    UserM.validate_username (PyStr x) = true /\ UserM.cleaned x = x.

(** The events of the collector: navigations, fixed sleeps and fetches of
    the listing [page_type] at a page from [from] on. *)
Definition collector_event (page_type : string) (from : Z) (ev : event) : Prop :=
  match ev with
  | EvNavigate _ | EvSleep _ => True
  | EvFetch t n => t = page_type /\ from <= n
  | _ => False
  end.

(** A computation that only adds events of the kind [P] to the log and
    leaves the rest of the state as it is. *)
Definition adds {A} (P : event -> Prop) (m : M A) : Prop :=
  forall st, exists evs, snd (m st) = logged evs st /\ Forall P evs.

Definition is_fetch_event (ev : event) : bool :=
  match ev with
  | EvFetch _ _ => true
  | _ => false
  end.

(** The number of listing requests among the events. *)
Definition fetches (evs : list event) : nat :=
  length (filter (fun ev => is_fetch_event ev = true) evs).

(** A computation that adds events of total weight at most [k] to the log
    and leaves the rest of the state as it is. *)
Definition spends {A} (w : event -> nat) (k : nat) (m : M A) : Prop :=
  forall st, exists evs,
    snd (m st) = logged evs st /\ (sum_list_with w evs <= k)%nat.

Definition fetch_weight (ev : event) : nat :=
  if is_fetch_event ev then 1%nat else 0%nat.

Definition navigate_weight (ev : event) : nat :=
  if is_navigate ev then 1%nat else 0%nat.

Definition post_weight (ev : event) : nat :=
  if Mock.is_post ev then 1%nat else 0%nat.

(** The error the collector raises for a response body, if any. *)
Definition body_error (d : response_data) : option string :=
  match d with
  | NotADict | Dict None None false => Some "Invalid API response format"
  | Dict _ None _ => Some "No profiles key in response"
  | Dict _ (Some _) _ => None
  end.

Definition is_listener_event (ev : event) : bool :=
  match ev with
  | EvListenerOn | EvListenerOff => true
  | _ => false
  end.

(** An event by which the bot changes something on the platform or in
    the browser session. *)
Definition is_write_event (ev : event) : bool :=
  match ev with
  | EvPost _ | EvVerifySession | EvClosePage | EvCloseContext
  | EvStopPlaywright => true
  | _ => false
  end.

(** The events of the unfollow driver for the handle [username]. *)
Definition driver_event (username : string) (ev : event) : Prop :=
  match ev with
  | EvPost h => h = username
  | EvFetch _ _ | EvClosePage | EvCloseContext | EvStopPlaywright => False
  | _ => True
  end.

(** The outcome is a value or an exception that [except Exception] does
    not catch. *)
Definition contained {A} (r : outcome A) : Prop :=
  match r with
  | Ok _ => True
  | Raise e => is_Exception e = false
  | OutOfFuel => False
  end.

(** The number of unfollow requests among the events. *)
Definition post_count (evs : list event) : nat :=
  sum_list_with post_weight evs.

(** The events of a session check. *)
Definition session_event (ev : event) : Prop :=
  match ev with
  | EvNavigate url => url = SunoBot.base_url ++ "/me"
  | EvSleep secs => secs = 2
  | _ => False
  end.

(** A computation of the model that takes a number of turns [fuel]:
    from some number on it does not run out of turns and its result no
    longer depends on the number. *)
Definition settles {A} (m : nat -> M A) : Prop :=
  forall st, exists n, forall fuel, (n <= fuel)%nat ->
    fst (m fuel st) <> OutOfFuel /\ m fuel st = m n st.

(** The events of one harvest of the driver, the most recent first. *)
Definition harvest_events : list event :=
  [EvListenerOff; EvNavigate (SunoBot.base_url ++ "/me/following");
   EvListenerOn].

(** * Properties *)

Import SunoBot.

(** ** The validator *)

Section Validator.

Lemma rstrip_last_not_space s a :
  last (PyStr.chars (PyStr.rstrip s)) = Some a -> PyStr.isspace a = false.
Proof.
  induction s as [|c s IH]; simpl; [discriminate|].
  destruct (PyStr.rstrip s) as [|b r] eqn:E.
  - destruct (PyStr.isspace c) eqn:Hc; simpl; [discriminate|].
    intros [= <-]. exact Hc.
  - simpl in *. intros H. apply IH. destruct (PyStr.chars r); exact H.
Qed.

Lemma span_class_chars s n rest :
  Re.span_class s = (n, rest) ->
  exists pre : list ascii,
    PyStr.chars s = (pre ++ PyStr.chars rest)%list /\ length pre = n
    /\ forallb Re.in_class pre = true
    /\ match rest with
       | EmptyString => True
       | String a _ => Re.in_class a = false
       end.
Proof.
  revert n rest. induction s as [|c s IH]; simpl; intros n rest.
  - intros [= <- <-]. exists []. auto.
  - destruct (Re.in_class c) eqn:Hc.
    + destruct (Re.span_class s) as [m r] eqn:E. intros [= <- <-].
      destruct (IH m r eq_refl) as (pre & H1 & H2 & H3 & H4).
      exists (c :: pre). simpl. rewrite H1, H2, Hc, H3. auto.
    + intros [= <- <-]. exists []. simpl. auto.
Qed.

Lemma chars_length s : length (PyStr.chars s) = String.length s.
Proof. induction s; simpl; congruence. Qed.

(** On a string that does not end in whitespace the pattern holds exactly
    when the whole string is 2 to 30 class characters: the newline that
    [$] tolerates cannot be there. *)
Lemma match_handle_stripped c :
  (forall a, last (PyStr.chars c) = Some a -> PyStr.isspace a = false) ->
  Re.match_handle c = true <->
  (2 <= String.length c <= 30)%nat /\ forallb Re.in_class (PyStr.chars c) = true.
Proof.
  intros Hlast. unfold Re.match_handle.
  destruct (Re.span_class c) as [n rest] eqn:E.
  destruct (span_class_chars _ _ _ E) as (pre & H1 & H2 & H3 & H4).
  rewrite <- chars_length, H1, length_app, H2.
  destruct rest as [|a [|b r]]; cbn [Re.at_dollar PyStr.chars length] in *.
  - rewrite app_nil_r, H3, andb_true_r, andb_true_iff.
    rewrite !Nat.leb_le. lia.
  - destruct (Ascii.eqb_spec a Re.newline) as [->|Hne].
    + exfalso. specialize (Hlast Re.newline). rewrite H1, last_snoc in Hlast.
      specialize (Hlast eq_refl). discriminate.
    + rewrite andb_false_r. split; [discriminate|].
      intros [_ Hall]. rewrite forallb_app in Hall. simpl in Hall.
      rewrite H4 in Hall. rewrite andb_false_r in Hall. discriminate.
  - rewrite andb_false_r. split; [discriminate|].
    intros [_ Hall]. rewrite forallb_app in Hall. simpl in Hall.
    rewrite H4 in Hall. rewrite andb_false_r in Hall. discriminate.
Qed.

Lemma validate_username_str s :
  UserM.validate_username (PyStr s) = true <->
  (2 <= String.length (UserM.cleaned s) <= 30)%nat
  /\ forallb Re.in_class (PyStr.chars (UserM.cleaned s)) = true.
Proof.
  unfold UserM.validate_username. simpl.
  rewrite orb_false_r, negb_involutive.
  destruct (String.eqb_spec s EmptyString) as [->|Hne].
  - simpl. split; [discriminate|]. intros [H _]. lia.
  - apply match_handle_stripped. unfold UserM.cleaned, PyStr.strip.
    apply rstrip_last_not_space.
Qed.

(** C8, as the code has it: [validate_username] returns true exactly for
    a string whose cleaned form, obtained by removing every [@] of the
    string and then the surrounding whitespace, consists of 2 to 30 word
    characters or hyphens; it is a total function that returns false for
    the empty string and for a value that is not a string; and the
    examples of the claim hold: ["@bob"] and ["bob"] are accepted, [EmptyString],
    ["a"] and thirty-one ["x"] are rejected. *)
Theorem validate_username_cleaned (v : pyvalue) :
  (UserM.validate_username v = true <->
   exists s, v = PyStr s
     /\ UserM.cleaned s = PyStr.strip (PyStr.remove_char "@" s)
     /\ (2 <= String.length (UserM.cleaned s) <= 30)%nat
     /\ forallb Re.in_class (PyStr.chars (UserM.cleaned s)) = true)
  /\ UserM.validate_username (PyStr "@bob") = true
  /\ UserM.validate_username (PyStr "bob") = true
  /\ UserM.validate_username (PyStr EmptyString) = false
  /\ UserM.validate_username (PyStr "a") = false
  /\ UserM.validate_username
       (PyStr (String.concat EmptyString (replicate 31 "x"))) = false
  /\ UserM.validate_username PyNone = false
  /\ (forall z, UserM.validate_username (PyInt z) = false)
  /\ (forall b, UserM.validate_username (PyBool b) = false).
Proof.
  split.
  - destruct v as [|b|z|s].
    + split; [discriminate|]. intros (s & [=] & _).
    + split; [|intros (s & [=] & _)].
      unfold UserM.validate_username; simpl; destruct b; discriminate.
    + split; [|intros (s & [=] & _)].
      unfold UserM.validate_username; simpl; destruct (_ =? _)%Z; discriminate.
    + rewrite validate_username_str. split.
      * intros H. exists s. tauto.
      * intros (s' & [= <-] & _ & H). exact H.
  - repeat split; try reflexivity.
    + intros z. unfold UserM.validate_username; simpl.
      destruct (_ =? _)%Z; reflexivity.
    + intros []; reflexivity.
Qed.

(** C8, as the claim words it, fails: for ["b@ob"] the cleaned form of
    the claim (a leading marker and the surrounding whitespace stripped)
    is ["b@ob"], which does not match the pattern, yet the validator
    accepts the string, because it removes the [@] in the middle. *)
Lemma validate_username_inner_marker :
  UserM.spec_cleaned "b@ob" = "b@ob"
  /\ Re.match_handle (UserM.spec_cleaned "b@ob") = false
  /\ UserM.validate_username (PyStr "b@ob") = true
  /\ ~ (UserM.validate_username (PyStr "b@ob") = true
        <-> UserM.spec_validate "b@ob" = true).
Proof.
  repeat split; try reflexivity.
  intros [H _]. specialize (H eq_refl). discriminate H.
Qed.

End Validator.

(** ** Cleaning a handle twice *)

Section Cleaning.


Lemma remove_char_free c s : free_of c (PyStr.remove_char c s).
Proof.
  unfold free_of. induction s as [|a s IH]; simpl; [apply not_elem_of_nil|].
  destruct (Ascii.eqb_spec a c) as [->|Hne]; [exact IH|].
  simpl. rewrite not_elem_of_cons. split; [congruence|exact IH].
Qed.

Lemma remove_char_id c s : free_of c s -> PyStr.remove_char c s = s.
Proof.
  unfold free_of. induction s as [|a s IH]; simpl; [reflexivity|].
  rewrite not_elem_of_cons. intros [Hne Hs].
  destruct (Ascii.eqb_spec a c) as [->|_]; [contradiction|].
  f_equal. apply IH, Hs.
Qed.

Lemma lstrip_free c s : free_of c s -> free_of c (PyStr.lstrip s).
Proof.
  unfold free_of. induction s as [|a s IH]; simpl; [done|].
  rewrite not_elem_of_cons. intros [Hne Hs].
  destruct (PyStr.isspace a); [apply IH, Hs|].
  simpl. rewrite not_elem_of_cons. done.
Qed.

Lemma rstrip_free c s : free_of c s -> free_of c (PyStr.rstrip s).
Proof.
  unfold free_of. induction s as [|a s IH]; simpl; [done|].
  rewrite not_elem_of_cons. intros [Hne Hs]. specialize (IH Hs).
  destruct (PyStr.rstrip s) as [|b r].
  - destruct (PyStr.isspace a); simpl; [apply not_elem_of_nil|].
    rewrite not_elem_of_cons. split; [done|apply not_elem_of_nil].
  - simpl in *. rewrite not_elem_of_cons. done.
Qed.

Lemma rstrip_cons a s :
  PyStr.rstrip (String a s)
  = match PyStr.rstrip s with
    | EmptyString =>
        if PyStr.isspace a then EmptyString else String a EmptyString
    | r => String a r
    end.
Proof. reflexivity. Qed.

Lemma rstrip_idem s : PyStr.rstrip (PyStr.rstrip s) = PyStr.rstrip s.
Proof.
  induction s as [|a s IH]; [reflexivity|].
  rewrite rstrip_cons.
  destruct (PyStr.rstrip s) as [|b r] eqn:E.
  - destruct (PyStr.isspace a) eqn:Ha; [reflexivity|].
    rewrite rstrip_cons. simpl. by rewrite Ha.
  - rewrite rstrip_cons, IH. reflexivity.
Qed.

Lemma lstrip_head s :
  match PyStr.lstrip s with
  | EmptyString => True
  | String a _ => PyStr.isspace a = false
  end.
Proof.
  induction s as [|a s IH]; simpl; [exact I|].
  destruct (PyStr.isspace a) eqn:Ha; [exact IH|exact Ha].
Qed.

Lemma lstrip_rstrip_head a r :
  PyStr.isspace a = false ->
  PyStr.lstrip (PyStr.rstrip (String a r)) = PyStr.rstrip (String a r).
Proof.
  intros Ha. rewrite rstrip_cons.
  destruct (PyStr.rstrip r); rewrite ?Ha; simpl; rewrite Ha; reflexivity.
Qed.

Lemma strip_idem s : PyStr.strip (PyStr.strip s) = PyStr.strip s.
Proof.
  unfold PyStr.strip. pose proof (lstrip_head s) as H.
  destruct (PyStr.lstrip s) as [|a r]; [reflexivity|].
  rewrite lstrip_rstrip_head by exact H. apply rstrip_idem.
Qed.

Lemma cleaned_idem s : UserM.cleaned (UserM.cleaned s) = UserM.cleaned s.
Proof.
  unfold UserM.cleaned.
  rewrite (remove_char_id "@" (PyStr.strip _)), strip_idem; [reflexivity|].
  unfold PyStr.strip. apply rstrip_free, lstrip_free, remove_char_free.
Qed.

Lemma validate_username_cleaned_eq s :
  UserM.validate_username (PyStr (UserM.cleaned s))
  = UserM.validate_username (PyStr s).
Proof.
  unfold UserM.validate_username. cbn [truthy isinstance_str negb orb].
  rewrite !orb_false_r, !negb_involutive, cleaned_idem.
  destruct (String.eqb_spec (UserM.cleaned s) EmptyString) as [E|E].
  - rewrite E. destruct (String.eqb s EmptyString); reflexivity.
  - destruct (String.eqb_spec s EmptyString) as [->|_]; [|reflexivity].
    exfalso. apply E. reflexivity.
Qed.

End Cleaning.

(** ** The reconciler *)

Section Reconciler.

Lemma usernames_as_users (A : gset string) :
  list_to_set (username <$> as_users A) = A.
Proof.
  unfold as_users.
  assert (H : forall l : list string, username <$> (Build_User <$> l) = l).
  { induction l as [|x l IH]; simpl; [reflexivity|]. f_equal. exact IH. }
  rewrite H. apply list_to_set_elements_L.
Qed.

(** C9: on the lists the collector returns for the sets [A] and [B], the
    reconciler computes the set difference [A ∖ B]; so the same set twice
    gives the empty set, an empty set of followers gives [A] back, and an
    empty following list gives the empty set.  On any two lists a name is
    a target exactly when it is the name of a followed user and of no
    follower.  The computation is a total function of its two arguments:
    it has no state and no failure. *)
Theorem users_to_unfollow_difference (A B : gset string) :
  users_to_unfollow (as_users A) (as_users B) = A ∖ B
  /\ users_to_unfollow (as_users A) (as_users A) = ∅
  /\ users_to_unfollow (as_users A) (as_users ∅) = A
  /\ users_to_unfollow (as_users ∅) (as_users B) = ∅
  /\ (forall following followers x,
        x ∈ users_to_unfollow following followers <->
        x ∈ username <$> following /\ x ∉ username <$> followers).
Proof.
  unfold users_to_unfollow. rewrite !usernames_as_users.
  split; [reflexivity|]. split; [apply difference_diag_L|].
  split; [apply difference_empty_L|]. split; [apply difference_disjoint_L, disjoint_empty_l|].
  intros following followers x.
  rewrite elem_of_difference, !elem_of_list_to_set. reflexivity.
Qed.

End Reconciler.

(** ** The unfollow driver *)

Section Driver.

(** C5: for a handle that is in the processed set, [unfollow_user]
    returns true and leaves the state as it was: the log is the same, so
    no headers were harvested and no request was made.  Calling it a
    second time gives true again, still with the state unchanged. *)
Theorem unfollow_user_processed (env : Env) (username : string) (st : state) :
  username ∈ processed_users st ->
  unfollow_user env username st = (Ok true, st)
  /\ (unfollow_user env username ;;; unfollow_user env username) st
     = (Ok true, st).
Proof.
  intros Hin.
  assert (H : unfollow_user env username st = (Ok true, st)).
  { unfold unfollow_user, bind, get. simpl.
    destruct (decide (username ∈ processed_users st)); [reflexivity|contradiction]. }
  split; [exact H|]. unfold bind at 1. rewrite H. exact H.
Qed.

Lemma unfollow_user_processed_witness :
  let st := set_processed_users {["bob"]} (init EmptyString) in
  unfollow_user (Mock.platform [] []) "bob" st = (Ok true, st)
  /\ (unfollow_user (Mock.platform [] []) "bob" ;;;
      unfollow_user (Mock.platform [] []) "bob") st = (Ok true, st).
Proof.
  apply (unfollow_user_processed (Mock.platform [] []) "bob"
           (set_processed_users {["bob"]} (init EmptyString))).
  cbn [processed_users set_processed_users].
  apply elem_of_singleton. reflexivity.
Defined.

End Driver.

(** ** The collector *)

Section Collector.

Lemma foldl_add_profile_handles users hs :
  Forall (fun h => UserM.validate_username (PyStr h) = true) hs ->
  foldl add_profile users (profiles_of hs)
  = list_to_set (UserM.cleaned <$> hs) ∪ users.
Proof.
  revert users. induction hs as [|h hs IH]; intros users Hv.
  - simpl. symmetry. apply union_empty_l_L.
  - inversion Hv as [|? ? Hh Hhs]; subst. cbn [profiles_of fmap list_fmap foldl].
    fold (profiles_of hs). rewrite IH by exact Hhs.
    unfold add_profile. cbn [handle].
    rewrite validate_username_cleaned_eq, Hh.
    cbn [fmap list_fmap list_to_set].
    rewrite (assoc_L (∪)), (comm_L (∪) (list_to_set _) {[_]}). reflexivity.
Qed.

Lemma size_add_handles (users : gset string) (l : list string) :
  NoDup l -> (forall x, x ∈ l -> x ∉ users) ->
  size (list_to_set l ∪ users) = (length l + size users)%nat.
Proof.
  intros Hnd Hdisj. rewrite size_union.
  - rewrite size_list_to_set by exact Hnd. reflexivity.
  - intros x Hx Hu. apply elem_of_list_to_set in Hx. exact (Hdisj x Hx Hu).
Qed.

Lemma bind_ok {A B} (m : M A) (f : A -> M B) s a s' :
  m s = (Ok a, s') -> bind m f s = f a s'.
Proof. unfold bind. intros ->. reflexivity. Qed.

Lemma observe_seen env url auth st h :
  env_observe env (log st) url = {| captured := Some h; raised := None |} ->
  observe env url auth st = (Ok (Some h), logged [EvNavigate url] st).
Proof. intros H. unfold observe, bind, ask. rewrite H. reflexivity. Qed.

Lemma observe_unseen env url st :
  env_observe env (log st) url = {| captured := None; raised := None |} ->
  observe env url None st = (Ok None, logged [EvNavigate url] st).
Proof. intros H. unfold observe, bind, ask. rewrite H. reflexivity. Qed.

(** [get_users] is the page loop between the initial harvest and the
    removal of the listener. *)
Lemma get_users_pages env fuel page_type st h :
  env_observe env (EvListenerOn :: log st) (base_url ++ "/me/" ++ page_type)
    = {| captured := Some h; raised := None |} ->
  get_users env fuel page_type st
  = let '(r, st') :=
      pages env page_type fuel ∅ 1 None (Some h)
        (logged [EvNavigate (base_url ++ "/me/" ++ page_type); EvListenerOn] st)
    in (outcome_map as_users r, logged [EvListenerOff] st').
Proof.
  intros H. unfold get_users.
  unfold bind at 1. unfold try_finally, try_except.
  unfold bind at 1. cbn [emit modify].
  rewrite (bind_ok _ _ _ (Some h) (logged [EvNavigate (base_url ++ "/me/" ++ page_type); EvListenerOn] st)).
  2:{ apply (observe_seen env _ None (logged [EvListenerOn] st)). exact H. }
  destruct (pages _ _ _ _ _ _ _ _) as [[users|e|] st']; reflexivity.
Qed.

(** One turn of the page loop whose first request succeeds. *)
Lemma pages_turn env page_type fuel users current_page total_pages auth st
    num_total ps k :
  (current_page <=? or_1 total_pages) = true ->
  env_fetch env (log st) page_type current_page
    = FetchOk (Dict num_total (Some ps) k) ->
  pages env page_type (S fuel) users current_page total_pages auth st
  = let users' := foldl add_profile users ps in
    if (Z.of_nat (size users') - Z.of_nat (size users) =? 0)
       && (current_page >? 1)
    then (Ok users', logged [EvFetch page_type current_page] st)
    else pages env page_type fuel users' (current_page + 1)
           (next_total total_pages num_total) auth
           (logged [EvSleep 1; EvFetch page_type current_page] st).
Proof.
  intros Hc Hf. cbn [pages]. rewrite Hc.
  unfold bind at 1. cbn [MAX_API_RETRIES fetch_attempts].
  unfold bind at 1. unfold ask at 1. rewrite Hf. cbn [ret].
  destruct (decide (0%nat = 3%nat)) as [|_]; [discriminate|].
  cbv zeta.
  destruct (_ && _) eqn:E.
  - destruct num_total, total_pages; reflexivity.
  - destruct num_total, total_pages; reflexivity.
Qed.

Lemma pages_done env page_type fuel users current_page total_pages auth st :
  (current_page <=? or_1 total_pages) = false ->
  pages env page_type fuel users current_page total_pages auth st
  = (Ok users, st).
Proof. intros Hc. destruct fuel; cbn [pages]; rewrite Hc; reflexivity. Qed.

End Collector.

Section Pagination.

Lemma ceil_pages_45 : ceil_pages 45 = 3.
Proof. reflexivity. Qed.

(** C1: in a collection pass whose initial harvest captures headers,
    whose first page announces 45 profiles and whose pages 1, 2 and 3
    return 20, 20 and 5 handles that are valid and pairwise distinct once
    cleaned, the number of pages is the ceiling of 45/20, which is 3; the
    collector requests the pages 1, 2 and 3 and no other, and returns 45
    users with distinct names, the cleaned handles of the three pages.
    Three turns of the page loop are enough fuel. *)
Theorem get_users_three_pages (env : Env) (fuel : nat) (page_type : string)
    (st : state) (hs1 hs2 hs3 : list string) (n2 n3 : option Z)
    (k1 k2 k3 : bool) (h : headers) :
  (3 <= fuel)%nat ->
  env_observe env (EvListenerOn :: log st) (base_url ++ "/me/" ++ page_type)
    = {| captured := Some h; raised := None |} ->
  (forall l, env_fetch env l page_type 1
             = FetchOk (Dict (Some 45) (Some (profiles_of hs1)) k1)) ->
  (forall l, env_fetch env l page_type 2
             = FetchOk (Dict n2 (Some (profiles_of hs2)) k2)) ->
  (forall l, env_fetch env l page_type 3
             = FetchOk (Dict n3 (Some (profiles_of hs3)) k3)) ->
  length hs1 = 20%nat -> length hs2 = 20%nat -> length hs3 = 5%nat ->
  Forall (fun x => UserM.validate_username (PyStr x) = true)
         (hs1 ++ hs2 ++ hs3)%list ->
  NoDup (UserM.cleaned <$> (hs1 ++ hs2 ++ hs3)%list) ->
  exists users st',
    get_users env fuel page_type st = (Ok users, st')
    /\ ceil_pages 45 = 3
    /\ requested_pages (log st') = ([3; 2; 1] ++ requested_pages (log st))%list
    /\ length users = 45%nat
    /\ NoDup (username <$> users)
    /\ (forall x, x ∈ username <$> users
                  <-> x ∈ UserM.cleaned <$> (hs1 ++ hs2 ++ hs3)%list).
Proof.
  intros Hfuel Hobs H1 H2 H3 L1 L2 L3 Hvalid Hnd.
  destruct fuel as [|[|[|fuel]]]; try lia.
  apply Forall_app in Hvalid as [V1 Hvalid].
  apply Forall_app in Hvalid as [V2 V3].
  rewrite !fmap_app in Hnd.
  apply NoDup_app in Hnd as (N1 & D1 & Hnd).
  apply NoDup_app in Hnd as (N2 & D2 & N3).
  set (c1 := UserM.cleaned <$> hs1) in *.
  set (c2 := UserM.cleaned <$> hs2) in *.
  set (c3 := UserM.cleaned <$> hs3) in *.
  assert (S1 : size (list_to_set c1 ∪ (∅ : gset string)) = 20%nat).
  { rewrite size_add_handles; [|exact N1|intros; apply not_elem_of_empty].
    unfold c1. rewrite length_fmap, L1, size_empty. reflexivity. }
  assert (S2 : size (list_to_set c2 ∪ (list_to_set c1 ∪ (∅ : gset string)))
               = 40%nat).
  { rewrite size_add_handles; [|exact N2|].
    - unfold c2. rewrite length_fmap, L2, S1. reflexivity.
    - intros x Hx. rewrite not_elem_of_union, elem_of_list_to_set.
      split; [|apply not_elem_of_empty].
      intros Hx1. apply (D1 x Hx1). apply elem_of_app. by left. }
  assert (S3 : size (list_to_set c3 ∪ (list_to_set c2
                 ∪ (list_to_set c1 ∪ (∅ : gset string)))) = 45%nat).
  { rewrite size_add_handles; [|exact N3|].
    - unfold c3. rewrite length_fmap, L3, S2. reflexivity.
    - intros x Hx. rewrite !not_elem_of_union, !elem_of_list_to_set.
      split; [|split; [|apply not_elem_of_empty]].
      + intros Hx2. exact (D2 x Hx2 Hx).
      + intros Hx1. apply (D1 x Hx1). apply elem_of_app. by right. }
  rewrite (get_users_pages _ _ _ _ h) by exact Hobs.
  erewrite pages_turn; [|reflexivity|apply H1].
  rewrite foldl_add_profile_handles by exact V1. fold c1.
  cbv zeta. rewrite S1, size_empty. cbn [Z.of_nat Z.sub Z.eqb andb].
  change (Z.of_nat 20 - Z.of_nat 0 =? 0) with false. cbn [andb].
  change (1 + 1) with 2. cbn [next_total]. rewrite ceil_pages_45.
  erewrite pages_turn; [|reflexivity|apply H2].
  rewrite foldl_add_profile_handles by exact V2. fold c2.
  cbv zeta. rewrite S2, S1.
  change (Z.of_nat 40 - Z.of_nat 20 =? 0) with false. cbn [andb].
  change (2 + 1) with 3. cbn [next_total].
  erewrite pages_turn; [|reflexivity|apply H3].
  rewrite foldl_add_profile_handles by exact V3. fold c3.
  cbv zeta. rewrite S3, S2.
  change (Z.of_nat 45 - Z.of_nat 40 =? 0) with false. cbn [andb].
  change (3 + 1) with 4. cbn [next_total].
  rewrite pages_done by reflexivity.
  cbn [outcome_map]. eexists _, _. split; [reflexivity|].
  split; [reflexivity|]. split; [reflexivity|].
  unfold as_users. rewrite length_fmap.
  assert (Hid : forall l : list string, username <$> (Build_User <$> l) = l).
  { induction l as [|x l IH]; simpl; [reflexivity|]. f_equal. exact IH. }
  rewrite Hid.
  split; [|split].
  - change (length (elements ?X)) with (size X). exact S3.
  - apply NoDup_elements.
  - intros x. rewrite elem_of_elements, !elem_of_union, !elem_of_list_to_set.
    rewrite !fmap_app, !elem_of_app. fold c1 c2 c3. pose proof (not_elem_of_empty (C:=gset string) x).
    tauto.
Qed.

End Pagination.

Section Retries.

Lemma fetch_attempts_count env page_type current_page remaining count auth st
    c d auth' st' :
  fetch_attempts env page_type current_page remaining count auth st
    = (Ok (c, Some d, auth'), st') ->
  (c < count + remaining)%nat.
Proof.
  revert count auth st. induction remaining as [|r IH]; intros count auth st.
  - cbn [fetch_attempts ret]. intros [=].
  - cbn [fetch_attempts]. unfold bind at 1, ask at 1.
    destruct (env_fetch env (log st) page_type current_page) as [d0|e].
    + cbn [ret]. intros [=]. subst. lia.
    + destruct (is_Exception e); [|intros [=]].
      destruct (PyStr.contains "HTTP error! status: 502" (str e)).
      * unfold bind at 1. cbn [sleep emit modify].
        intros H. apply IH in H. lia.
      * destruct (PyStr.contains "HTTP error! status: 401" (str e));
          [|intros [=]].
        unfold bind at 1.
        destruct (refresh_auth_headers env page_type _) as [[a|e'|] s1];
          intros H; try discriminate H.
        apply IH in H. lia.
Qed.

(** One turn of the page loop, from what the retry loop of the page gave. *)
Lemma pages_turn_fetched env page_type fuel users current_page total_pages
    auth st c num_total ps k auth' st1 :
  (current_page <=? or_1 total_pages) = true ->
  fetch_attempts env page_type current_page MAX_API_RETRIES 0 auth st
    = (Ok (c, Some (Dict num_total (Some ps) k), auth'), st1) ->
  pages env page_type (S fuel) users current_page total_pages auth st
  = let users' := foldl add_profile users ps in
    if (Z.of_nat (size users') - Z.of_nat (size users) =? 0)
       && (current_page >? 1)
    then (Ok users', st1)
    else pages env page_type fuel users' (current_page + 1)
           (next_total total_pages num_total) auth' (logged [EvSleep 1] st1).
Proof.
  intros Hc Hf. pose proof (fetch_attempts_count _ _ _ _ _ _ _ _ _ _ _ Hf) as Hlt.
  cbn [pages]. rewrite Hc. rewrite (bind_ok _ _ _ _ _ Hf).
  destruct (decide (c = MAX_API_RETRIES)) as [->|_];
    [unfold MAX_API_RETRIES in Hlt; lia|].
  cbv zeta.
  destruct (_ && _) eqn:E; destruct num_total, total_pages; reflexivity.
Qed.

Lemma add_profile_subseteq users p : users ⊆ add_profile users p.
Proof.
  unfold add_profile. destruct (handle p) as [h|]; [|reflexivity].
  destruct (UserM.validate_username _); [|reflexivity].
  apply union_subseteq_r.
Qed.

Lemma foldl_add_profile_subseteq ps users :
  users ⊆ foldl add_profile users ps.
Proof.
  revert users. induction ps as [|p ps IH]; intros users; [reflexivity|].
  simpl. etransitivity; [apply add_profile_subseteq|apply IH].
Qed.

(** C6: at a page after the first that is still within the computed
    number of pages, if the response that the retry loop of the page
    obtained adds no handle to the accumulated set, the page loop returns
    at once: its result is the accumulated set and its final state is the
    state in which that response arrived, so no further page is
    requested, however many pages the total count implies. *)
Theorem pages_stop_without_new_users (env : Env) (page_type : string)
    (fuel : nat) (users : gset string) (current_page : Z)
    (total_pages : option Z) (auth : option headers) (st : state) (c : nat)
    (num_total : option Z) (ps : list profile) (k : bool)
    (auth' : option headers) (st1 : state) :
  1 < current_page ->
  current_page <= or_1 total_pages ->
  fetch_attempts env page_type current_page MAX_API_RETRIES 0 auth st
    = (Ok (c, Some (Dict num_total (Some ps) k), auth'), st1) ->
  size (foldl add_profile users ps) = size users ->
  pages env page_type (S fuel) users current_page total_pages auth st
    = (Ok users, st1).
Proof.
  intros Hp Hle Hf Hsize.
  rewrite (pages_turn_fetched _ _ _ _ _ _ _ _ _ _ _ _ _ _ (proj2 (Z.leb_le _ _) Hle) Hf).
  cbv zeta. rewrite Hsize, Z.sub_diag.
  replace (current_page >? 1) with true by (symmetry; apply Z.gtb_lt; lia).
  cbn [Z.eqb andb]. f_equal. f_equal.
  symmetry.
  apply set_subseteq_size_eq; [apply foldl_add_profile_subseteq|lia].
Qed.



End Retries.

(** ** What the collector leaves untouched *)

Section Frame.

Lemma only_logs_ret {A} (a : A) : only_logs (ret a).
Proof. intros st. exists (log st). destruct st; reflexivity. Qed.

Lemma only_logs_raise {A} e : only_logs (@raise A e).
Proof. intros st. exists (log st). destruct st; reflexivity. Qed.

Lemma only_logs_out_of_fuel {A} : only_logs (@out_of_fuel A).
Proof. intros st. exists (log st). destruct st; reflexivity. Qed.

Lemma only_logs_ask {A} (q : list event -> A) ev : only_logs (ask q ev).
Proof. intros st. eexists. reflexivity. Qed.

Lemma only_logs_emit ev : only_logs (emit ev).
Proof. intros st. eexists. reflexivity. Qed.

Lemma only_logs_bind {A B} (m : M A) (f : A -> M B) :
  only_logs m -> (forall a, only_logs (f a)) -> only_logs (bind m f).
Proof.
  intros Hm Hf st. unfold bind. destruct (Hm st) as [l Hl].
  destruct (m st) as [[a|e|] s1]; simpl in Hl; subst s1.
  - destruct (Hf a (set_log l st)) as [l' Hl']. exists l'. rewrite Hl'. reflexivity.
  - exists l. reflexivity.
  - exists l. reflexivity.
Qed.

Lemma only_logs_try_except {A} (m : M A) (h : exn -> M A) :
  only_logs m -> (forall e, only_logs (h e)) -> only_logs (try_except m h).
Proof.
  intros Hm Hh st. unfold try_except. destruct (Hm st) as [l Hl].
  destruct (m st) as [[a|e|] s1]; simpl in Hl; subst s1.
  - exists l. reflexivity.
  - destruct (Hh e (set_log l st)) as [l' Hl']. exists l'. rewrite Hl'. reflexivity.
  - exists l. reflexivity.
Qed.

Lemma only_logs_try_finally {A} (m : M A) (f : M unit) :
  only_logs m -> only_logs f -> only_logs (try_finally m f).
Proof.
  intros Hm Hf st. unfold try_finally. destruct (Hm st) as [l Hl].
  destruct (m st) as [r s1]; simpl in Hl; subst s1.
  destruct (Hf (set_log l st)) as [l' Hl'].
  destruct (f (set_log l st)) as [[[]|e|] s2]; simpl in Hl'; subst s2;
    exists l'; reflexivity.
Qed.

Ltac only_logs_step :=
  first
    [ assumption
    | progress cbv zeta
    | apply only_logs_ret
    | apply only_logs_raise
    | apply only_logs_out_of_fuel
    | apply only_logs_ask
    | apply only_logs_emit
    | apply only_logs_bind; [|intros ?]
    | apply only_logs_try_except; [|intros ?]
    | apply only_logs_try_finally
    | match goal with
      | |- only_logs (match ?x with _ => _ end) => destruct x
      end ].

Lemma refresh_retries_only_logs env page_type retries auth :
  only_logs (refresh_retries env page_type retries auth).
Proof.
  revert auth. induction retries as [|r rest IH]; intros auth;
    cbn [refresh_retries]; unfold sleep;
    repeat first [apply IH | only_logs_step].
Qed.

Lemma refresh_auth_headers_only_logs env page_type :
  only_logs (refresh_auth_headers env page_type).
Proof. apply refresh_retries_only_logs. Qed.

Lemma fetch_attempts_only_logs env page_type current_page remaining count auth :
  only_logs (fetch_attempts env page_type current_page remaining count auth).
Proof.
  revert count auth. induction remaining as [|r IH]; intros count auth;
    cbn [fetch_attempts]; unfold sleep;
    repeat first [apply refresh_auth_headers_only_logs | apply IH
                 | only_logs_step];
    first [apply IH | apply refresh_auth_headers_only_logs].
Qed.

Lemma pages_only_logs env page_type fuel users current_page total_pages auth :
  only_logs (pages env page_type fuel users current_page total_pages auth).
Proof.
  revert users current_page total_pages auth.
  induction fuel as [|fuel IH]; intros users current_page total_pages auth;
    cbn [pages]; unfold sleep.
  - repeat only_logs_step.
  - repeat first [apply fetch_attempts_only_logs | apply IH | only_logs_step].
Qed.

Lemma get_users_only_logs env fuel page_type :
  only_logs (get_users env fuel page_type).
Proof.
  unfold get_users, observe.
  repeat first [apply pages_only_logs | only_logs_step].
Qed.

End Frame.

(** ** The collector does not run out of fuel *)

Section Fuel.

Lemma fuelled_ret {A} (a : A) : fuelled (ret a).
Proof. intros st. discriminate. Qed.

Lemma fuelled_raise {A} e : fuelled (@raise A e).
Proof. intros st. discriminate. Qed.

Lemma fuelled_ask {A} (q : list event -> A) ev : fuelled (ask q ev).
Proof. intros st. discriminate. Qed.

Lemma fuelled_emit ev : fuelled (emit ev).
Proof. intros st. discriminate. Qed.

Lemma fuelled_bind {A B} (m : M A) (f : A -> M B) :
  fuelled m -> (forall a, fuelled (f a)) -> fuelled (bind m f).
Proof.
  intros Hm Hf st. unfold bind. specialize (Hm st).
  destruct (m st) as [[a|e|] s1]; simpl in *.
  - apply Hf.
  - discriminate.
  - contradiction.
Qed.

Ltac fuelled_step :=
  first
    [ assumption
    | progress cbv zeta
    | apply fuelled_ret
    | apply fuelled_raise
    | apply fuelled_ask
    | apply fuelled_emit
    | apply fuelled_bind; [|intros ?]
    | match goal with
      | |- fuelled (match ?x with _ => _ end) => destruct x
      end ].

Lemma refresh_retries_fuelled env page_type retries auth :
  fuelled (refresh_retries env page_type retries auth).
Proof.
  revert auth. induction retries as [|r rest IH]; intros auth;
    cbn [refresh_retries]; unfold sleep;
    repeat first [apply IH | fuelled_step].
Qed.

Lemma refresh_auth_headers_fuelled env page_type :
  fuelled (refresh_auth_headers env page_type).
Proof. apply refresh_retries_fuelled. Qed.

Lemma fetch_attempts_fuelled env page_type current_page remaining count auth :
  fuelled (fetch_attempts env page_type current_page remaining count auth).
Proof.
  revert count auth. induction remaining as [|r IH]; intros count auth;
    cbn [fetch_attempts]; unfold sleep;
    repeat first [apply refresh_auth_headers_fuelled | apply IH
                 | fuelled_step].
Qed.

Ltac settled :=
  cbv beta iota;
  first [ apply fuelled_raise | apply fuelled_ret | discriminate
        | simpl; discriminate ].

(** Once the number of pages is known, or from page 2 on, the page loop
    needs one turn per page that remains. *)
Lemma pages_enough_fuel env page_type fuel users current_page total_pages
    auth st :
  total_pages <> None \/ 1 < current_page ->
  (Z.to_nat (or_1 total_pages + 1 - current_page) <= fuel)%nat ->
  fst (pages env page_type fuel users current_page total_pages auth st)
  <> OutOfFuel.
Proof.
  revert users current_page total_pages auth st.
  induction fuel as [|fuel IH];
    intros users current_page total_pages auth st Hknown Hfuel;
    cbn [pages];
    destruct (current_page <=? or_1 total_pages) eqn:Hc;
    try (settled).
  - apply Z.leb_le in Hc. lia.
  - apply Z.leb_le in Hc. unfold bind at 1.
    pose proof (fetch_attempts_fuelled env page_type current_page
                  MAX_API_RETRIES 0 auth st) as Hf.
    destruct (fetch_attempts _ _ _ _ _ _ _) as [[[[c rd] auth']|e|] st1];
      simpl in Hf; [|discriminate|contradiction].
    destruct (decide (c = MAX_API_RETRIES)); [settled|].
    assert (Htp : total_pages <> None).
    { destruct Hknown as [H|H]; [exact H|].
      intros ->. simpl in Hc. lia. }
    destruct total_pages as [tp|]; [|contradiction].
    destruct rd as [[|num_total [ps|] k]|]; try (settled).
    + assert (Hnext :
        forall users', fst (pages env page_type fuel users' (current_page + 1)
                              (Some tp) auth' (logged [EvSleep 1] st1))
                       <> OutOfFuel).
      { intros users'. apply IH; [left; discriminate|lia]. }
      destruct num_total as [nt|];
        cbv zeta; (destruct (_ && _); [settled|]);
        unfold bind, sleep, emit, modify; apply Hnext.
    + destruct num_total, k; settled.
Qed.

(** The first turn fixes the number of pages; from it a sufficient number
    of turns is known. *)
Lemma pages_first_turn_enough env page_type users auth st :
  exists n, forall fuel, (n <= fuel)%nat ->
    fst (pages env page_type fuel users 1 None auth st) <> OutOfFuel.
Proof.
  pose proof (fetch_attempts_fuelled env page_type 1 MAX_API_RETRIES 0 auth st)
    as Hf.
  destruct (fetch_attempts env page_type 1 MAX_API_RETRIES 0 auth st)
    as [[[[c rd] auth']|e|] st1] eqn:E; simpl in Hf; [| |contradiction].
  - set (bound := match rd with
                  | Some (Dict num_total _ _) =>
                      Z.to_nat (or_1 (next_total None num_total))
                  | _ => O
                  end).
    exists (S bound). intros [|fuel] Hfuel; [lia|].
    cbn [pages]. change (1 <=? or_1 None) with true. cbv iota.
    rewrite (bind_ok _ _ _ _ _ E).
    destruct (decide (c = MAX_API_RETRIES)); [settled|].
    destruct rd as [[|num_total [ps|] k]|]; try (settled).
    + assert (Hnext :
        forall users', fst (pages env page_type fuel users' (1 + 1)
                              (next_total None num_total) auth'
                              (logged [EvSleep 1] st1))
                       <> OutOfFuel).
      { intros users'. apply pages_enough_fuel; [right; lia|].
        unfold bound in Hfuel. lia. }
      destruct num_total as [nt|];
        cbv zeta; (destruct (_ && _); [settled|]);
        unfold bind, sleep, emit, modify; apply Hnext.
    + destruct num_total, k; settled.
  - exists 1%nat. intros [|fuel] Hfuel; [lia|].
    cbn [pages]. change (1 <=? or_1 None) with true. cbv iota.
    unfold bind at 1. rewrite E. settled.
Qed.

(** [get_users] returns or raises: for every environment and state some
    number of turns is enough, and so is every larger one. *)
Theorem get_users_enough_fuel env page_type st :
  exists n, forall fuel, (n <= fuel)%nat ->
    fst (get_users env fuel page_type st) <> OutOfFuel.
Proof.
  unfold get_users.
  set (st0 := set_log (EvListenerOn :: log st) st).
  destruct (observe env (base_url ++ "/me/" ++ page_type) None st0)
    as [[[h|]|e|] st1] eqn:E.
  - destruct (pages_first_turn_enough env page_type ∅ (Some h) st1) as [n Hn].
    exists n. intros fuel Hfuel. specialize (Hn fuel Hfuel).
    unfold bind at 1. unfold try_finally, try_except.
    unfold bind at 1. cbn [emit modify]. fold st0.
    rewrite (bind_ok _ _ _ _ _ E).
    destruct (pages env page_type fuel ∅ 1 None (Some h) st1) as [[u|e|] s2];
      simpl in *; [settled|settled|contradiction].
  - exists O. intros fuel _.
    unfold bind at 1. unfold try_finally, try_except.
    unfold bind at 1. cbn [emit modify]. fold st0.
    rewrite (bind_ok _ _ _ _ _ E). settled.
  - exists O. intros fuel _.
    unfold bind at 1. unfold try_finally, try_except.
    unfold bind at 1. cbn [emit modify]. fold st0.
    unfold bind at 1. rewrite E. settled.
  - exfalso. unfold observe, bind, ask in E.
    destruct (raised _); settled.
Qed.

End Fuel.

(** ** The batch of unfollows and the progress file *)

Section Batch.

Variable env : Env.

Hypothesis observe_seen_always :
  forall l url, exists h,
    env_observe env l url = {| captured := Some h; raised := None |}.

Hypothesis post_no_content :
  forall l u, exists r, env_post env l u = PostOk r /\ status r = 204.

Lemma ensure_auth_headers_seen st :
  exists h,
    ensure_auth_headers env st
    = (Ok h, logged [EvListenerOff; EvNavigate (base_url ++ "/me/following");
                     EvListenerOn] st).
Proof.
  destruct (observe_seen_always (EvListenerOn :: log st)
              (base_url ++ "/me/following")) as [h Hh].
  exists h. unfold ensure_auth_headers.
  unfold bind at 1. cbn [emit modify]. unfold try_finally.
  rewrite (bind_ok _ _ _ _ _
             (observe_seen env _ None (set_log (EvListenerOn :: log st) st) h Hh)).
  reflexivity.
Qed.

Lemma unfollow_user_success username st :
  username ∉ processed_users st ->
  exists st',
    unfollow_user env username st = (Ok true, st')
    /\ processed_users st' = {[username]} ∪ processed_users st
    /\ progress_file st' = progress_file st.
Proof.
  intros Hnot. unfold unfollow_user. unfold bind at 1. cbn [get].
  destruct (decide (username ∈ processed_users st)) as [|_]; [contradiction|].
  change (range MAX_RETRIES) with [0; 1; 2]. cbn [for_each].
  destruct (ensure_auth_headers_seen st) as [h Hh].
  set (st1 := logged _ st) in Hh.
  destruct (post_no_content (log st1) username) as (r & Hr & Hs).
  eexists. split.
  - unfold bind at 1. unfold bind at 1. unfold unfollow_attempt, try_except.
    rewrite (bind_ok _ _ _ _ _ Hh).
    unfold bind at 1, ask at 1. rewrite Hr, Hs. cbn [Z.eqb Pos.eqb].
    reflexivity.
  - split; reflexivity.
Qed.

Lemma string_app_assoc (a b c : string) : (a ++ b) ++ c = a ++ (b ++ c).
Proof.
  induction a as [|x a IH]; [reflexivity|].
  change (String x ((a ++ b) ++ c) = String x (a ++ (b ++ c))).
  f_equal. exact IH.
Qed.

Lemma string_app_nil_r (a : string) : a ++ EmptyString = a.
Proof.
  induction a as [|x a IH]; [reflexivity|].
  change (String x (a ++ EmptyString) = String x a). f_equal. exact IH.
Qed.

Lemma appended_app l1 l2 : appended (l1 ++ l2)%list = appended l1 ++ appended l2.
Proof.
  induction l1 as [|h l1 IH]; [reflexivity|].
  cbn [app appended]. rewrite IH, !string_app_assoc. reflexivity.
Qed.

Lemma unfollow_chunk_success chunk st :
  NoDup chunk ->
  (forall x, x ∈ chunk -> x ∉ processed_users st) ->
  exists st',
    unfollow_chunk env chunk st = (Ok tt, st')
    /\ processed_users st' = list_to_set chunk ∪ processed_users st
    /\ progress_file st' = progress_file st ++ appended chunk.
Proof.
  revert st. induction chunk as [|u chunk IH]; intros st Hnd Hnew.
  - exists st. cbn [unfollow_chunk ret appended list_to_set].
    rewrite string_app_nil_r, union_empty_l_L. auto.
  - apply NoDup_cons in Hnd as [Hu Hnd].
    destruct (unfollow_user_success u st) as (st1 & H1 & P1 & F1).
    { apply Hnew. left. }
    set (st2 := set_progress_file (progress_file st1 ++ (nl ++ u)) st1).
    destruct (IH st2 Hnd) as (st' & H' & P' & F').
    { intros x Hx. cbn [st2 processed_users set_progress_file]. rewrite P1.
      rewrite not_elem_of_union, not_elem_of_singleton. split.
      - intros ->. contradiction.
      - apply Hnew. by right. }
    exists st'. split; [|split].
    + cbn [unfollow_chunk]. rewrite (bind_ok _ _ _ _ _ H1).
      unfold bind at 1. cbn [append_progress modify]. exact H'.
    + rewrite P'. cbn [st2 processed_users set_progress_file]. rewrite P1.
      cbn [list_to_set]. rewrite (assoc_L (∪)), (comm_L (∪) (list_to_set _) {[_]}).
      reflexivity.
    + rewrite F'. cbn [st2 progress_file set_progress_file appended].
      rewrite F1, !string_app_assoc. reflexivity.
Qed.

Lemma unfollow_chunks_success (targets : gset string) m a st :
  (forall x, x ∈ drop (a * chunk_size) (elements targets) ->
             x ∉ processed_users st) ->
  let handled := take (m * chunk_size) (drop (a * chunk_size) (elements targets)) in
  exists st',
    unfollow_chunks env targets ((fun k => k * chunk_size)%nat <$> seq a m) st
      = (Ok tt, st')
    /\ processed_users st' = list_to_set handled ∪ processed_users st
    /\ progress_file st' = progress_file st ++ appended handled.
Proof.
  revert a st. induction m as [|m IH]; intros a st Hnew handled.
  - exists st. unfold handled. cbn [seq fmap list_fmap unfollow_chunks ret].
    change (0 * chunk_size)%nat with 0%nat. rewrite take_0.
    cbn [appended list_to_set]. rewrite string_app_nil_r, union_empty_l_L. auto.
  - set (rest := drop (a * chunk_size) (elements targets)) in *.
    assert (Hnd : NoDup rest).
    { eapply sublist_NoDup; [apply (NoDup_elements targets)|apply sublist_drop]. }
    destruct (unfollow_chunk_success (take chunk_size rest) st)
      as (st1 & H1 & P1 & F1).
    { eapply sublist_NoDup; [exact Hnd|apply sublist_take]. }
    { intros x Hx. apply Hnew. exact (subseteq_take _ _ x Hx). }
    set (pause := if (a * chunk_size + chunk_size <? size targets)%nat
                  then sleep_uniform 60 120 else ret tt).
    assert (Hp : exists st2, pause st1 = (Ok tt, st2)
                 /\ processed_users st2 = processed_users st1
                 /\ progress_file st2 = progress_file st1).
    { unfold pause. destruct (_ <? _)%nat; eexists; repeat split; reflexivity. }
    destruct Hp as (st2 & H2 & P2 & F2).
    destruct (IH (S a) st2) as (st' & H' & P' & F').
    { intros x Hx. rewrite P2, P1.
      replace (S a * chunk_size)%nat with (a * chunk_size + chunk_size)%nat
        in Hx by lia.
      rewrite <- drop_drop in Hx. fold rest in Hx.
      rewrite not_elem_of_union, elem_of_list_to_set. split.
      - intros Hx'. rewrite <- (take_drop chunk_size rest) in Hnd.
        apply NoDup_app in Hnd as (_ & Hdis & _). exact (Hdis x Hx' Hx).
      - apply Hnew. exact (subseteq_drop _ _ x Hx). }
    exists st'.
    assert (Hdone : handled = (take chunk_size rest
                    ++ take (m * chunk_size)
                         (drop (S a * chunk_size) (elements targets)))%list).
    { unfold handled. change (S m * chunk_size)%nat with (chunk_size + m * chunk_size)%nat.
      rewrite <- take_take_drop. f_equal.
      replace (S a * chunk_size)%nat with (a * chunk_size + chunk_size)%nat
        by lia.
      rewrite <- drop_drop. reflexivity. }
    split; [|split].
    + cbn [seq fmap list_fmap unfollow_chunks]. fold rest.
      rewrite (bind_ok _ _ _ _ _ H1). fold pause.
      rewrite (bind_ok _ _ _ _ _ H2). exact H'.
    + rewrite P', P2, P1, Hdone, list_to_set_app_L.
      rewrite (assoc_L (∪)). f_equal. apply (comm_L (∪)).
    + rewrite F', F2, F1, Hdone, appended_app, string_app_assoc. reflexivity.
Qed.

End Batch.

Section Ledger.

Lemma range_step_seq n :
  range_step n chunk_size
  = (fun k => k * chunk_size)%nat <$> seq 0 ((n + chunk_size - 1) / chunk_size).
Proof. reflexivity. Qed.

Lemma chunks_cover n : (n <= (n + chunk_size - 1) / chunk_size * chunk_size)%nat.
Proof.
  unfold chunk_size.
  pose proof (Nat.div_mod_eq (n + 5 - 1) 5) as H.
  pose proof (Nat.mod_upper_bound (n + 5 - 1) 5) as H'. lia.
Qed.

(** C3, as the code has it: the progress file is written and never read.
    In a run that starts with an empty processed set (as every new bot
    does), once the two listings are collected and while every harvest
    captures headers and every unfollow request is answered 204, the file
    is truncated and then receives each target handle once, on a line of
    its own; its final content is a function of the targets alone,
    whatever the file held before, and the processed set ends as the set
    of targets. *)
Theorem ledger_written_not_read (env : Env) (fuel : nat) (st : state)
    (following followers : list User) (st1 st2 : state) :
  processed_users st = ∅ ->
  get_users env fuel "following" st = (Ok following, st1) ->
  get_users env fuel "followers" st1 = (Ok followers, st2) ->
  (forall l url, exists h,
      env_observe env l url = {| captured := Some h; raised := None |}) ->
  (forall l u, exists r, env_post env l u = PostOk r /\ status r = 204) ->
  exists st',
    find_and_unfollow_nonreciprocal env fuel st = (Ok tt, st')
    /\ progress_file st'
       = appended (elements (users_to_unfollow following followers))
    /\ processed_users st' = users_to_unfollow following followers.
Proof.
  intros Hempty Hg1 Hg2 Hobs Hpost.
  set (targets := users_to_unfollow following followers).
  assert (P2 : processed_users st2 = ∅).
  { destruct (get_users_only_logs env fuel "following" st) as [l1 E1].
    destruct (get_users_only_logs env fuel "followers" st1) as [l2 E2].
    rewrite Hg1 in E1. rewrite Hg2 in E2. simpl in E1, E2. subst st1 st2.
    exact Hempty. }
  set (st3 := set_progress_file EmptyString st2).
  destruct (unfollow_chunks_success env Hobs Hpost targets
              ((size targets + chunk_size - 1) / chunk_size) 0 st3)
    as (st' & H' & P' & F').
  { intros x _. cbn [st3 processed_users set_progress_file]. rewrite P2.
    apply not_elem_of_empty. }
  change (0 * chunk_size)%nat with 0%nat in *. rewrite drop_0 in *.
  rewrite take_ge in * by apply chunks_cover.
  exists st'. split; [|split].
  - unfold find_and_unfollow_nonreciprocal, try_except.
    rewrite (bind_ok _ _ _ _ _ Hg1), (bind_ok _ _ _ _ _ Hg2).
    fold targets. unfold bind at 1. cbn [get]. rewrite P2, elements_empty.
    unfold bind at 1. cbn [write_progress modify PyStr.join]. fold st3.
    rewrite range_step_seq, H'. reflexivity.
  - rewrite F'. reflexivity.
  - rewrite P'. cbn [st3 processed_users set_progress_file]. rewrite P2.
    rewrite list_to_set_elements_L. apply union_empty_r_L.
Qed.

(** The scenario of C3 with valid handles: alice, bob and carol are
    followed, bob follows back, the file holds stale text; the run ends
    with the two lines carol and alice. *)
Lemma ledger_written_not_read_witness :
  exists st',
    find_and_unfollow_nonreciprocal Mock.scenario 3 (init "stale") = (Ok tt, st')
    /\ ledger_lines st' = ["carol"; "alice"]
    /\ elements (processed_users st') = ["carol"; "alice"].
Proof.
  destruct (ledger_written_not_read Mock.scenario 3 (init "stale")
              (as_users {["alice"; "bob"; "carol"]}) (as_users {["bob"]})
              (logged [EvListenerOff; EvSleep 1; EvFetch "following" 1;
                       EvNavigate "https://suno.com/me/following"; EvListenerOn]
                 (init "stale"))
              (logged [EvListenerOff; EvSleep 1; EvFetch "followers" 1;
                       EvNavigate "https://suno.com/me/followers"; EvListenerOn;
                       EvListenerOff; EvSleep 1; EvFetch "following" 1;
                       EvNavigate "https://suno.com/me/following"; EvListenerOn]
                 (init "stale")))
    as (st' & H & F & P).
  - reflexivity.
  - vm_compute. reflexivity.
  - vm_compute. reflexivity.
  - intros l url. exists Mock.bundle. reflexivity.
  - intros l u. eexists. split; reflexivity.
  - exists st'. split; [exact H|]. unfold ledger_lines. rewrite F, P.
    split; vm_compute; reflexivity.
Defined.

(** C3, as the claim words it, fails: a run interrupted after the
    unfollow of carol leaves the line carol in the file; the next run
    starts from an empty processed set, truncates the file and ends with
    the line alice only, so the file does not hold both handles.  When the
    platform still lists carol, the next run sends the unfollow request
    for carol again, although the file named it. *)
Lemma ledger_lost_on_resume :
  let first_run := find_and_unfollow_nonreciprocal Mock.interrupted 3 (init EmptyString) in
  let second_run :=
    find_and_unfollow_nonreciprocal Mock.resumed 3
      (init (progress_file (snd first_run))) in
  let second_run_stale_listing :=
    find_and_unfollow_nonreciprocal Mock.scenario 3
      (init (progress_file (snd first_run))) in
  fst first_run = Raise KeyboardInterrupt
  /\ ledger_lines (snd first_run) = ["carol"]
  /\ fst second_run = Ok tt
  /\ ledger_lines (snd second_run) = ["alice"]
  /\ fst second_run_stale_listing = Ok tt
  /\ filter (fun ev => Mock.is_post ev = true)
       (log (snd second_run_stale_listing))
     = [EvPost "alice"; EvPost "carol"]
  /\ ledger_lines (snd second_run_stale_listing) = ["carol"; "alice"].
Proof. vm_compute. repeat split; reflexivity. Qed.

End Ledger.

(** ** Failed harvests, rate limits and cleanup *)

Section Harvest.

(** C7, as the code has it: when the window passes without a captured
    bundle, the harvest of the unfollow driver raises [SessionError],
    while the initial harvest of the collector raises a plain
    [Exception], which [except SessionError] does not catch. *)
Theorem harvest_timeout_errors (env : Env) (fuel : nat) (page_type : string)
    (st : state) :
  env_observe env (EvListenerOn :: log st) (base_url ++ "/me/following")
    = {| captured := None; raised := None |} ->
  env_observe env (EvListenerOn :: log st) (base_url ++ "/me/" ++ page_type)
    = {| captured := None; raised := None |} ->
  ensure_auth_headers env st
  = (Raise (SessionError "Failed to capture auth headers"),
     logged [EvListenerOff; EvNavigate (base_url ++ "/me/following");
             EvListenerOn] st)
  /\ get_users env fuel page_type st
     = (Raise (Exception "Failed to capture initial authentication headers"),
        logged [EvListenerOff; EvNavigate (base_url ++ "/me/" ++ page_type);
                EvListenerOn] st)
  /\ is_SessionError
       (Exception "Failed to capture initial authentication headers") = false.
Proof.
  intros H1 H2. split; [|split; [|reflexivity]].
  - unfold ensure_auth_headers. unfold bind at 1. cbn [emit modify].
    unfold try_finally.
    rewrite (bind_ok _ _ _ _ _
               (observe_unseen env _ (set_log (EvListenerOn :: log st) st) H1)).
    reflexivity.
  - unfold get_users. unfold bind at 1. unfold try_finally, try_except.
    unfold bind at 1. cbn [emit modify].
    rewrite (bind_ok _ _ _ _ _
               (observe_unseen env _ (set_log (EvListenerOn :: log st) st) H2)).
    reflexivity.
Qed.

(** C7 on a platform where no qualifying response is seen. *)
Lemma harvest_timeout_errors_witness :
  ensure_auth_headers Mock.blind (init EmptyString)
  = (Raise (SessionError "Failed to capture auth headers"),
     logged [EvListenerOff; EvNavigate "https://suno.com/me/following";
             EvListenerOn] (init EmptyString))
  /\ get_users Mock.blind 3 "followers" (init EmptyString)
     = (Raise (Exception "Failed to capture initial authentication headers"),
        logged [EvListenerOff; EvNavigate "https://suno.com/me/followers";
                EvListenerOn] (init EmptyString))
  /\ is_SessionError
       (Exception "Failed to capture initial authentication headers") = false.
Proof.
  apply (harvest_timeout_errors Mock.blind 3 "followers" (init EmptyString)); reflexivity.
Defined.

(** C7, as the claim words it, fails for the collector: on a platform
    where no qualifying response is seen, the error that [get_users]
    raises is not a [SessionError]. *)
Lemma get_users_timeout_not_session_error :
  exists e st',
    get_users Mock.blind 3 "following" (init EmptyString) = (Raise e, st')
    /\ e = Exception "Failed to capture initial authentication headers"
    /\ is_SessionError e = false.
Proof. eexists _, _. vm_compute. repeat split; reflexivity. Qed.

End Harvest.

Section RateLimit.

(** The lookup of [Retry-After], with its capitals, finds nothing among
    names in lower case: the default is what the code reads. *)
Lemma retry_after_header_default r :
  lower_cased (resp_headers r) -> retry_after_header r = "60".
Proof.
  intros H. unfold retry_after_header.
  destruct (resp_headers r !! "Retry-After") as [v|] eqn:E; [|reflexivity].
  specialize (H _ _ E). vm_compute in H. discriminate H.
Qed.

(** An attempt that is answered 429. *)
Lemma unfollow_attempt_rate_limited env username attempt st h r :
  env_observe env (EvListenerOn :: log st) (base_url ++ "/me/following")
    = {| captured := Some h; raised := None |} ->
  env_post env (log (logged harvest_events st)) username = PostOk r ->
  status r = 429 ->
  lower_cased (resp_headers r) ->
  unfollow_attempt env username attempt st
  = (Ok Continue,
     logged (EvSleep 60 :: EvPost username :: harvest_events) st).
Proof.
  intros Hobs Hpost Hstatus Hlower.
  assert (Hh : ensure_auth_headers env st
               = (Ok h, logged harvest_events st)).
  { unfold ensure_auth_headers.
    unfold bind at 1. cbn [emit modify]. unfold try_finally.
    rewrite (bind_ok _ _ _ _ _
               (observe_seen env _ None
                  (set_log (EvListenerOn :: log st) st) h Hobs)).
    reflexivity. }
  unfold unfollow_attempt, try_except.
  rewrite (bind_ok _ _ _ _ _ Hh).
  unfold bind at 1, ask at 1. rewrite Hpost, Hstatus.
  change (429 =? 204) with false. change (429 =? 401) with false.
  change (429 =? 429) with true. cbv iota.
  rewrite (retry_after_header_default r Hlower).
  reflexivity.
Qed.

(** C4 fails in the code: the response of the library has the names of
    its headers in lower case, so [response.headers.get('Retry-After',
    '60')] never finds the header and every attempt that is answered 429
    sleeps 60 seconds and goes on to the next attempt, whatever the
    server asked for: a header that is absent, that is not an integer or
    that asks for less gets the 60 seconds of the claim, a header that
    asks for more than 60 seconds does not get what it asks for.  The
    handle is not marked as processed by such an attempt. *)
Theorem unfollow_attempt_retry_after_ignored (env : Env) (username : string)
    (attempt : Z) (st : state) (h : headers) (r : api_response) :
  env_observe env (EvListenerOn :: log st) (base_url ++ "/me/following")
    = {| captured := Some h; raised := None |} ->
  env_post env (log (logged harvest_events st)) username = PostOk r ->
  status r = 429 ->
  lower_cased (resp_headers r) ->
  retry_after_header r = "60"
  /\ unfollow_attempt env username attempt st
     = (Ok Continue,
        logged (EvSleep 60 :: EvPost username :: harvest_events) st)
  /\ processed_users (snd (unfollow_attempt env username attempt st))
     = processed_users st.
Proof.
  intros Hobs Hpost Hstatus Hlower.
  split; [exact (retry_after_header_default r Hlower)|].
  rewrite (unfollow_attempt_rate_limited env username attempt st h r
             Hobs Hpost Hstatus Hlower).
  split; reflexivity.
Qed.

(** C4 on a platform that answers the first unfollow request with 429
    and [Retry-After: 120]: the driver sleeps 60 seconds, not 120. *)
Lemma unfollow_attempt_retry_after_ignored_witness :
  retry_after_header (Mock.rate_limit_response "120") = "60"
  /\ unfollow_attempt (Mock.rate_limited "120") "bob" 0 (init EmptyString)
     = (Ok Continue,
        logged [EvSleep 60; EvPost "bob"; EvListenerOff;
                EvNavigate "https://suno.com/me/following"; EvListenerOn]
          (init EmptyString))
  /\ processed_users
       (snd (unfollow_attempt (Mock.rate_limited "120") "bob" 0
               (init EmptyString)))
     = ∅.
Proof.
  apply (unfollow_attempt_retry_after_ignored (Mock.rate_limited "120") "bob"
           0 (init EmptyString) Mock.bundle (Mock.rate_limit_response "120")).
  - reflexivity.
  - reflexivity.
  - reflexivity.
  - apply (bool_decide_unpack _). vm_compute. reflexivity.
Defined.

End RateLimit.

Section Cleanup.

(** C10 when [playwright.stop()] raises: the first call of [cleanup]
    returns normally and clears the page, the context and the browser,
    but the driver field keeps its value; the second call calls
    [stop()] again and changes the state. *)
Theorem cleanup_keeps_playwright_when_stop_raises :
  let first := cleanup Mock.stuck_playwright Mock.open_bot in
  let second := cleanup Mock.stuck_playwright (snd first) in
  fst first = Ok tt
  /\ page (snd first) = None
  /\ context (snd first) = None
  /\ browser (snd first) = None
  /\ playwright (snd first) = Some 4%nat
  /\ log (snd first) = [EvStopPlaywright; EvCloseContext; EvClosePage]
  /\ fst second = Ok tt
  /\ log (snd second)
     = [EvStopPlaywright; EvStopPlaywright; EvCloseContext; EvClosePage]
  /\ snd second <> snd first.
Proof.
  vm_compute. repeat split; try reflexivity. intros [=].
Qed.

(** While [playwright.stop()] does not raise and the two [close] calls
    raise at most an [Exception], one call clears the four fields and a
    second call does nothing. *)
Lemma cleanup_twice_when_stop_returns env st :
  (forall l e, env_close_page env l = Some e -> is_Exception e = true) ->
  (forall l e, env_close_context env l = Some e -> is_Exception e = true) ->
  (forall l, env_stop_playwright env l = None) ->
  cleanup env st = (Ok tt, cleaned_up st)
  /\ cleanup env (cleaned_up st) = (Ok tt, cleaned_up st).
Proof.
  intros Hp Hc Hs. split; [|reflexivity].
  destruct st as [[p|] [c|] [b|] [w|] pu pf lg];
    unfold cleanup, cleaned_up, try_except, pass_on_exception, try_except,
      call, bind, get, ask, modify, ret, raise;
    simpl;
    repeat match goal with
      | |- _ => progress simpl
      | |- context [env_stop_playwright env ?l] => rewrite (Hs l)
      | |- context [env_close_page env ?l] =>
          let E := fresh "E" in
          destruct (env_close_page env l) eqn:E; [rewrite (Hp _ _ E)|]
      | |- context [env_close_context env ?l] =>
          let E := fresh "E" in
          destruct (env_close_context env l) eqn:E; [rewrite (Hc _ _ E)|]
      end;
    reflexivity.
Qed.

End Cleanup.

(** ** The properties on concrete runs *)

Section Witnesses.

(** C1 on a platform with 45 profiles on three pages. *)
Lemma get_users_three_pages_witness :
  exists users st',
    get_users Mock.forty_five 3 "following" (init EmptyString) = (Ok users, st')
    /\ ceil_pages 45 = 3
    /\ requested_pages (log st') = [3; 2; 1]
    /\ length users = 45%nat
    /\ NoDup (username <$> users)
    /\ (forall x, x ∈ username <$> users
                  <-> x ∈ UserM.cleaned
                        <$> (Mock.names 1 20 ++ Mock.names 21 20
                             ++ Mock.names 41 5)%list).
Proof.
  apply (get_users_three_pages Mock.forty_five 3 "following" (init EmptyString)
           (Mock.names 1 20) (Mock.names 21 20) (Mock.names 41 5)
           (Some 45) (Some 45) true true true Mock.bundle).
  - lia.
  - reflexivity.
  - intros l. reflexivity.
  - intros l. reflexivity.
  - intros l. reflexivity.
  - reflexivity.
  - reflexivity.
  - reflexivity.
  - apply (bool_decide_unpack _). vm_compute. reflexivity.
  - apply (bool_decide_unpack _). vm_compute. reflexivity.
Defined.

(** C6 on a platform that announces 100 profiles (five pages) and
    repeats the handles of page 1 on page 2: the loop stops at page 2,
    and the whole pass requests the pages 1 and 2 only. *)
Lemma pages_stop_without_new_users_witness :
  pages Mock.repeating "following" 4 (list_to_set (Mock.names 1 20)) 2 (Some 5)
    (Some Mock.bundle) (init EmptyString)
  = (Ok (list_to_set (Mock.names 1 20)),
     logged [EvFetch "following" 2] (init EmptyString))
  /\ requested_pages (log (snd (get_users Mock.repeating 5 "following" (init EmptyString))))
     = [2; 1].
Proof.
  split; [|vm_compute; reflexivity].
  apply (pages_stop_without_new_users Mock.repeating "following" 3
           (list_to_set (Mock.names 1 20)) 2 (Some 5) (Some Mock.bundle)
           (init EmptyString) 0 (Some 100) (profiles_of (Mock.names 1 20)) true
           (Some Mock.bundle)).
  - lia.
  - simpl. lia.
  - reflexivity.
  - vm_compute. reflexivity.
Defined.



(** With 401 on the first request of every page the pass makes one
    refresh per page (and the initial navigation) and collects the 45
    handles. *)
Lemma get_users_one_refresh_per_page :
  let pass := get_users (Mock.expiring 1 Mock.forty_five) 3 "following" (init EmptyString) in
  outcome_map length (fst pass) = Ok 45%nat
  /\ requested_pages (log (snd pass)) = [3; 3; 2; 2; 1; 1]
  /\ navigations (log (snd pass)) = 4%nat.
Proof. vm_compute. repeat split; reflexivity. Qed.

End Witnesses.

(** * Further properties of the code *)

(** ** Cleaning and validating a handle *)

Section CleaningStable.

(** X1: cleaning a handle is idempotent, a cleaned handle holds no [@],
    and the validator gives a string and its cleaned form the same
    answer. *)
Theorem cleaning_stable (s : string) :
  UserM.cleaned (UserM.cleaned s) = UserM.cleaned s
  /\ UserM.validate_username (PyStr (UserM.cleaned s))
     = UserM.validate_username (PyStr s)
  /\ free_of "@" (UserM.cleaned s).
Proof.
  split; [apply cleaned_idem|]. split; [apply validate_username_cleaned_eq|].
  unfold UserM.cleaned, PyStr.strip.
  apply rstrip_free, lstrip_free, remove_char_free.
Qed.

End CleaningStable.

(** ** The events of a collection pass *)

Lemma logged_nil st : logged [] st = st.
Proof. destruct st; reflexivity. Qed.

Lemma logged_app evs1 evs2 st :
  logged evs1 (logged evs2 st) = logged (evs1 ++ evs2) st.
Proof. unfold logged. simpl. rewrite app_assoc. reflexivity. Qed.

Lemma adds_ret {A} P (a : A) : adds P (ret a).
Proof. intros st. exists []. rewrite logged_nil. split; [reflexivity|constructor]. Qed.

Lemma adds_raise {A} P e : adds P (@raise A e).
Proof. intros st. exists []. rewrite logged_nil. split; [reflexivity|constructor]. Qed.

Lemma adds_out_of_fuel {A} P : adds P (@out_of_fuel A).
Proof. intros st. exists []. rewrite logged_nil. split; [reflexivity|constructor]. Qed.

Lemma adds_ask {A} (P : event -> Prop) (q : list event -> A) ev :
  P ev -> adds P (ask q ev).
Proof. intros H st. exists [ev]. split; [reflexivity|by constructor]. Qed.

Lemma adds_emit (P : event -> Prop) ev : P ev -> adds P (emit ev).
Proof. intros H st. exists [ev]. split; [reflexivity|by constructor]. Qed.

Lemma adds_bind {A B} P (m : M A) (f : A -> M B) :
  adds P m -> (forall a, adds P (f a)) -> adds P (bind m f).
Proof.
  intros Hm Hf st. unfold bind. destruct (Hm st) as (evs & Hl & HP).
  destruct (m st) as [[a|e|] s1]; simpl in Hl; subst s1.
  - destruct (Hf a (logged evs st)) as (evs' & Hl' & HP').
    exists (evs' ++ evs)%list. rewrite Hl', logged_app.
    split; [reflexivity|by apply Forall_app].
  - exists evs. auto.
  - exists evs. auto.
Qed.

Lemma adds_try_except {A} P (m : M A) (h : exn -> M A) :
  adds P m -> (forall e, adds P (h e)) -> adds P (try_except m h).
Proof.
  intros Hm Hh st. unfold try_except. destruct (Hm st) as (evs & Hl & HP).
  destruct (m st) as [[a|e|] s1]; simpl in Hl; subst s1.
  - exists evs. auto.
  - destruct (Hh e (logged evs st)) as (evs' & Hl' & HP').
    exists (evs' ++ evs)%list. rewrite Hl', logged_app.
    split; [reflexivity|by apply Forall_app].
  - exists evs. auto.
Qed.

Lemma adds_weaken {A} (P Q : event -> Prop) (m : M A) :
  (forall ev, P ev -> Q ev) -> adds P m -> adds Q m.
Proof.
  intros HPQ Hm st. destruct (Hm st) as (evs & Hl & HP).
  exists evs. split; [exact Hl|]. eapply Forall_impl; eauto.
Qed.

Ltac adds_step :=
  first
    [ assumption
    | progress cbv zeta
    | apply adds_ret
    | apply adds_raise
    | apply adds_out_of_fuel
    | apply adds_ask; cbn; auto; fail
    | apply adds_emit; cbn; auto; fail
    | apply adds_bind; [|intros ?]
    | apply adds_try_except; [|intros ?]
    | match goal with
      | |- adds _ (match ?x with _ => _ end) => destruct x
      end ].

Lemma refresh_retries_adds env page_type from retries auth :
  adds (collector_event page_type from)
    (refresh_retries env page_type retries auth).
Proof.
  revert auth. induction retries as [|r rest IH]; intros auth;
    cbn [refresh_retries]; unfold sleep;
    repeat first [apply IH | adds_step].
Qed.

Lemma refresh_auth_headers_adds env page_type from :
  adds (collector_event page_type from) (refresh_auth_headers env page_type).
Proof. apply refresh_retries_adds. Qed.

Lemma fetch_attempts_adds env page_type current_page remaining count auth :
  adds (collector_event page_type current_page)
    (fetch_attempts env page_type current_page remaining count auth).
Proof.
  revert count auth. induction remaining as [|r IH]; intros count auth;
    cbn [fetch_attempts]; unfold sleep;
    repeat first [apply refresh_auth_headers_adds | apply IH | adds_step].
  apply adds_ask. cbn. split; [reflexivity|lia].
Qed.

Lemma collector_event_from page_type from from' ev :
  from <= from' -> collector_event page_type from' ev ->
  collector_event page_type from ev.
Proof. intros Hle. destruct ev; cbn; try tauto. intros [-> H]. split; [reflexivity|lia]. Qed.

Lemma pages_adds env page_type fuel users current_page total_pages auth :
  adds (collector_event page_type current_page)
    (pages env page_type fuel users current_page total_pages auth).
Proof.
  revert users current_page total_pages auth.
  induction fuel as [|fuel IH]; intros users current_page total_pages auth;
    cbn [pages]; unfold sleep.
  - repeat adds_step.
  - repeat first
      [ apply fetch_attempts_adds
      | apply (adds_weaken (collector_event page_type (current_page + 1)));
        [intros ev; apply collector_event_from; lia|apply IH]
      | adds_step ].
Qed.

(** The events of a collection pass. *)
Lemma get_users_events env fuel page_type st :
  exists evs,
    snd (get_users env fuel page_type st)
    = logged (EvListenerOff :: evs ++ [EvListenerOn]) st
    /\ Forall (collector_event page_type 1) evs.
Proof.
  assert (Hbody : adds (collector_event page_type 1)
            (try_except
               (auth_headers <- observe env (base_url ++ "/me/" ++ page_type) None ;;
                match auth_headers with
                | None =>
                    raise (Exception
                             "Failed to capture initial authentication headers")
                | Some _ => pages env page_type fuel ∅ 1 None auth_headers
                end)
               (fun e => raise e))).
  { unfold observe. repeat first [apply pages_adds | adds_step]. }
  destruct (Hbody (logged [EvListenerOn] st)) as (evs & Hl & HP).
  exists evs. split; [|exact HP].
  unfold get_users. unfold bind at 1. unfold try_finally.
  unfold try_except at 1. unfold bind at 1. cbn [emit modify].
  unfold try_except in Hl.
  change (set_log (EvListenerOn :: log st) st) with (logged [EvListenerOn] st).
  destruct ((auth_headers <- observe env (base_url ++ "/me/" ++ page_type) None ;;
             match auth_headers with
             | None =>
                 raise (Exception
                          "Failed to capture initial authentication headers")
             | Some _ => pages env page_type fuel ∅ 1 None auth_headers
             end) (logged [EvListenerOn] st)) as [[u|e|] s1]; simpl in Hl;
    cbn [raise ret snd]; subst s1;
    unfold logged, set_log; simpl; rewrite <- ?app_assoc; reflexivity.
Qed.

(** ** What the collector returns *)

Section CollectorInvariants.

Lemma ceil_pages_bounds_aux n : 20 * (ceil_pages n - 1) < n <= 20 * ceil_pages n.
Proof.
  unfold ceil_pages.
  pose proof (Z.div_mod (- n) 20 ltac:(lia)) as H.
  pose proof (Z.mod_pos_bound (- n) 20 ltac:(lia)) as H'. lia.
Qed.

Lemma add_profile_tidy users p : tidy users -> tidy (add_profile users p).
Proof.
  intros Ht. unfold add_profile. destruct (handle p) as [h|]; [|exact Ht].
  destruct (UserM.validate_username _) eqn:Hv; [|exact Ht].
  intros x Hx. apply elem_of_union in Hx as [Hx|Hx]; [|exact (Ht x Hx)].
  apply elem_of_singleton in Hx. subst x. split; [exact Hv|apply cleaned_idem].
Qed.

Lemma foldl_add_profile_preserves (Q : gset string -> Prop) ps users :
  (forall u p, Q u -> Q (add_profile u p)) ->
  Q users -> Q (foldl add_profile users ps).
Proof.
  intros HQ. revert users. induction ps as [|p ps IH]; intros users Hu;
    [exact Hu|]. simpl. apply IH, HQ, Hu.
Qed.

(** What a turn of the page loop keeps, the loop keeps. *)
Lemma pages_preserves (Q : gset string -> Prop) env page_type fuel users
    current_page total_pages auth st users' st' :
  (forall u p, Q u -> Q (add_profile u p)) ->
  pages env page_type fuel users current_page total_pages auth st
    = (Ok users', st') ->
  Q users -> Q users'.
Proof.
  intros HQ. revert users current_page total_pages auth st.
  induction fuel as [|fuel IH];
    intros users current_page total_pages auth st; cbn [pages];
    destruct (current_page <=? or_1 total_pages);
    try (intros [= <- <-]; auto; fail); try (intros [=]; fail).
  unfold bind at 1.
  destruct (fetch_attempts _ _ _ _ _ _ _) as [[[[c rd] auth']|e|] st1];
    try (intros [=]; fail).
  destruct (decide (c = MAX_API_RETRIES)); [intros [=]|].
  destruct rd as [[|num_total [ps|] k]|]; try (intros [=]; fail).
  - intros Hrun Hu.
    assert (Hf : Q (foldl add_profile users ps))
      by (apply foldl_add_profile_preserves; assumption).
    destruct num_total as [nt|]; cbv zeta in Hrun;
      (destruct (_ && _);
       [injection Hrun as <- _; exact Hf
       |unfold bind, sleep, emit, modify in Hrun; eapply IH; eassumption]).
  - destruct num_total, k; intros [=].
Qed.

Lemma get_users_from_pages env fuel page_type st users st' :
  get_users env fuel page_type st = (Ok users, st') ->
  exists h st0 found st1,
    pages env page_type fuel ∅ 1 None (Some h) st0 = (Ok found, st1)
    /\ users = as_users found.
Proof.
  unfold get_users. unfold bind at 1. unfold try_finally, try_except.
  unfold bind at 1. cbn [emit modify].
  unfold bind at 1.
  destruct (observe _ _ _ _) as [[[h|]|e|] s0]; cbn [raise];
    try (intros [=]; fail).
  destruct (pages _ _ _ _ _ _ _ _) as [[found|e|] s1] eqn:E;
    cbn [ret]; try (intros [=]; fail).
  intros [= <- _]. eauto 6.
Qed.

(** X2: the users that [get_users] returns have distinct names, and every
    name passes the validator, is its own cleaned form and holds no
    [@]. *)
Theorem get_users_valid_handles (env : Env) (fuel : nat) (page_type : string)
    (st : state) (users : list User) (st' : state) :
  get_users env fuel page_type st = (Ok users, st') ->
  NoDup (username <$> users)
  /\ (forall u, u ∈ users ->
        UserM.validate_username (PyStr (username u)) = true
        /\ UserM.cleaned (username u) = username u
        /\ free_of "@" (username u)).
Proof.
  intros Hrun.
  destruct (get_users_from_pages _ _ _ _ _ _ Hrun) as (h & s0 & found & s1 & Hp & ->).
  assert (Ht : tidy found).
  { eapply (pages_preserves tidy); [apply add_profile_tidy|exact Hp|].
    intros x Hx. exfalso. exact (not_elem_of_empty x Hx). }
  assert (Hid : forall l : list string, username <$> (Build_User <$> l) = l).
  { induction l as [|x l IH]; simpl; [reflexivity|]. f_equal. exact IH. }
  unfold as_users. rewrite Hid. split; [apply NoDup_elements|].
  intros u Hu. apply list_elem_of_fmap in Hu as (x & -> & Hx).
  apply elem_of_elements in Hx. destruct (Ht x Hx) as [Hv Hc]. cbn [username].
  split; [exact Hv|]. split; [exact Hc|].
  rewrite <- Hc. unfold UserM.cleaned, PyStr.strip.
  apply rstrip_free, lstrip_free, remove_char_free.
Qed.

(** X3: the page loop never drops a handle: the set it returns contains
    the set it started from. *)
Theorem pages_keeps_collected (env : Env) (page_type : string) (fuel : nat)
    (users : gset string) (current_page : Z) (total_pages : option Z)
    (auth : option headers) (st : state) (users' : gset string)
    (st' : state) :
  pages env page_type fuel users current_page total_pages auth st
    = (Ok users', st') ->
  users ⊆ users' /\ (size users <= size users')%nat.
Proof.
  intros Hrun.
  assert (H : users ⊆ users').
  { eapply (pages_preserves (fun u => users ⊆ u)); [|exact Hrun|reflexivity].
    intros u p Hu. etransitivity; [exact Hu|apply add_profile_subseteq]. }
  split; [exact H|apply subseteq_size, H].
Qed.

(** X4: [-(-n // 20)] is the ceiling of [n / 20], and the bound of the
    page loop, [total_pages or 1], is that ceiling except when it is 0
    (a count in [(-20, 0]]), where the bound is 1. *)
Theorem page_bound_is_ceiling (n : Z) :
  20 * (ceil_pages n - 1) < n <= 20 * ceil_pages n
  /\ or_1 (Some (ceil_pages n))
     = (if (-20 <? n) && (n <=? 0) then 1 else ceil_pages n).
Proof.
  pose proof (ceil_pages_bounds_aux n) as H. split; [exact H|].
  unfold or_1.
  destruct (ceil_pages n =? 0) eqn:E; destruct (-20 <? n) eqn:E1;
    destruct (n <=? 0) eqn:E2; cbn [andb]; lia.
Qed.

End CollectorInvariants.

(** ** The requests of one page *)

Section Budgets.

Lemma spends_ret {A} w k (a : A) : spends w k (ret a).
Proof. intros st. exists []. rewrite logged_nil. split; [reflexivity|simpl; lia]. Qed.

Lemma spends_raise {A} w k e : spends w k (@raise A e).
Proof. intros st. exists []. rewrite logged_nil. split; [reflexivity|simpl; lia]. Qed.

Lemma spends_out_of_fuel {A} w k : spends w k (@out_of_fuel A).
Proof. intros st. exists []. rewrite logged_nil. split; [reflexivity|simpl; lia]. Qed.

Lemma spends_ask {A} w k (q : list event -> A) ev :
  (w ev <= k)%nat -> spends w k (ask q ev).
Proof. intros H st. exists [ev]. split; [reflexivity|simpl; lia]. Qed.

Lemma spends_emit w k ev : (w ev <= k)%nat -> spends w k (emit ev).
Proof. intros H st. exists [ev]. split; [reflexivity|simpl; lia]. Qed.

Lemma spends_get {A} w k (f : state -> A) : spends w k (get f).
Proof. intros st. exists []. rewrite logged_nil. split; [reflexivity|simpl; lia]. Qed.

Lemma spends_bind {A B} w k1 k2 k (m : M A) (f : A -> M B) :
  (k1 + k2 <= k)%nat ->
  spends w k1 m -> (forall a, spends w k2 (f a)) -> spends w k (bind m f).
Proof.
  intros Hk Hm Hf st. unfold bind. destruct (Hm st) as (evs & Hl & HP).
  destruct (m st) as [[a|e|] s1]; simpl in Hl; subst s1.
  - destruct (Hf a (logged evs st)) as (evs' & Hl' & HP').
    exists (evs' ++ evs)%list. rewrite Hl', logged_app.
    split; [reflexivity|]. rewrite sum_list_with_app. lia.
  - exists evs. split; [reflexivity|lia].
  - exists evs. split; [reflexivity|lia].
Qed.

Lemma spends_try_except {A} w k1 k2 k (m : M A) (h : exn -> M A) :
  (k1 + k2 <= k)%nat ->
  spends w k1 m -> (forall e, spends w k2 (h e)) -> spends w k (try_except m h).
Proof.
  intros Hk Hm Hh st. unfold try_except. destruct (Hm st) as (evs & Hl & HP).
  destruct (m st) as [[a|e|] s1]; simpl in Hl; subst s1.
  - exists evs. split; [reflexivity|lia].
  - destruct (Hh e (logged evs st)) as (evs' & Hl' & HP').
    exists (evs' ++ evs)%list. rewrite Hl', logged_app.
    split; [reflexivity|]. rewrite sum_list_with_app. lia.
  - exists evs. split; [reflexivity|lia].
Qed.

Lemma spends_mono {A} w k k' (m : M A) :
  (k <= k')%nat -> spends w k m -> spends w k' m.
Proof.
  intros Hk Hm st. destruct (Hm st) as (evs & Hl & HP).
  exists evs. split; [exact Hl|lia].
Qed.

(** A refresh makes no listing request. *)
Lemma refresh_retries_no_fetch env page_type retries auth :
  spends fetch_weight 0 (refresh_retries env page_type retries auth).
Proof.
  revert auth. induction retries as [|r rest IH]; intros auth;
    cbn [refresh_retries].
  - apply spends_raise.
  - apply (spends_bind _ 0 0); [lia|apply spends_ask; cbn; lia|].
    intros obs. cbv zeta. destruct (raised obs) as [e|].
    + destruct (is_Exception e); [|apply spends_raise].
      apply (spends_bind _ 0 0); [lia|apply spends_emit; cbn; lia|].
      intros _. apply IH.
    + destruct (captured obs); [apply spends_ret|].
      destruct auth; [apply spends_ret|apply IH].
Qed.

(** A refresh navigates once per retry. *)
Lemma refresh_retries_navigations env page_type retries auth :
  spends navigate_weight (length retries)
    (refresh_retries env page_type retries auth).
Proof.
  revert auth. induction retries as [|r rest IH]; intros auth;
    cbn [refresh_retries length].
  - apply spends_raise.
  - apply (spends_bind _ 1 (length rest)); [lia|apply spends_ask; cbn; lia|].
    intros obs. cbv zeta. destruct (raised obs) as [e|].
    + destruct (is_Exception e); [|apply spends_raise].
      apply (spends_bind _ 0 (length rest)); [lia|apply spends_emit; cbn; lia|].
      intros _. apply IH.
    + destruct (captured obs); [apply spends_ret|].
      destruct auth; [apply spends_ret|apply IH].
Qed.

Lemma fetch_attempts_fetches env page_type current_page remaining count auth :
  spends fetch_weight remaining
    (fetch_attempts env page_type current_page remaining count auth).
Proof.
  revert count auth. induction remaining as [|r IH]; intros count auth;
    cbn [fetch_attempts].
  - apply spends_ret.
  - apply (spends_bind _ 1 r); [lia|apply spends_ask; cbn; lia|].
    intros [d|e]; [apply spends_ret|].
    destruct (is_Exception e); [|apply spends_raise]. cbv zeta.
    destruct (PyStr.contains _ _).
    + apply (spends_bind _ 0 r); [lia|apply spends_emit; cbn; lia|].
      intros _. apply IH.
    + destruct (PyStr.contains _ _); [|apply spends_raise].
      apply (spends_bind _ 0 r); [lia|apply refresh_retries_no_fetch|].
      intros a. apply IH.
Qed.

Lemma fetch_attempts_navigations env page_type current_page remaining count auth :
  spends navigate_weight (3 * remaining)
    (fetch_attempts env page_type current_page remaining count auth).
Proof.
  revert count auth. induction remaining as [|r IH]; intros count auth;
    cbn [fetch_attempts].
  - apply spends_ret.
  - apply (spends_bind _ 0 (3 + 3 * r)); [lia|apply spends_ask; cbn; lia|].
    intros [d|e]; [apply spends_ret|].
    destruct (is_Exception e); [|apply spends_raise]. cbv zeta.
    destruct (PyStr.contains _ _).
    + apply (spends_bind _ 0 (3 * r)); [lia|apply spends_emit; cbn; lia|].
      intros _. apply IH.
    + destruct (PyStr.contains _ _); [|apply spends_raise].
      apply (spends_bind _ 3 (3 * r)); [lia| |intros a; apply IH].
      apply (refresh_retries_navigations env page_type (range 3) None).
Qed.

Lemma refresh_retries_quiet env page_type retries auth :
  adds (fun ev => match ev with
                  | EvNavigate _ | EvSleep _ => True
                  | _ => False
                  end)
    (refresh_retries env page_type retries auth).
Proof.
  revert auth. induction retries as [|r rest IH]; intros auth;
    cbn [refresh_retries]; unfold sleep;
    repeat first [apply IH | adds_step].
Qed.

Lemma fetch_attempts_same_page env page_type current_page remaining count auth :
  adds (fun ev => match ev with
                  | EvFetch t n => t = page_type /\ n = current_page
                  | _ => True
                  end)
    (fetch_attempts env page_type current_page remaining count auth).
Proof.
  revert count auth.
  induction remaining as [|r IH]; intros count auth; cbn [fetch_attempts].
  - apply adds_ret.
  - apply adds_bind; [apply adds_ask; cbn; auto|].
    intros [d|e]; [apply adds_ret|].
    destruct (is_Exception e); [|apply adds_raise]. cbv zeta.
    destruct (PyStr.contains _ _).
    + apply adds_bind; [apply adds_emit; exact I|intros _; apply IH].
    + destruct (PyStr.contains _ _); [|apply adds_raise].
      apply adds_bind; [|intros a; apply IH].
      eapply adds_weaken; [|apply refresh_retries_quiet].
      intros [] H; cbn in *; tauto.
Qed.

(** X5: the retry loop of one page makes at most 3 listing requests, all
    for that page of that listing, and at most 9 attempts to refresh
    the headers (3 per refresh, each one navigation event of the
    model); it changes nothing but the log. *)
Theorem fetch_attempts_bounded (env : Env) (page_type : string)
    (current_page : Z) (count : nat) (auth : option headers) (st : state) :
  exists evs,
    snd (fetch_attempts env page_type current_page MAX_API_RETRIES count auth st)
    = logged evs st
    /\ (fetches evs <= 3)%nat
    /\ (navigations evs <= 9)%nat
    /\ Forall (collector_event page_type current_page) evs
    /\ (forall t n, EvFetch t n ∈ evs -> t = page_type /\ n = current_page).
Proof.
  destruct (fetch_attempts_fetches env page_type current_page MAX_API_RETRIES
              count auth st) as (evs & Hl & Hf).
  destruct (fetch_attempts_navigations env page_type current_page
              MAX_API_RETRIES count auth st) as (evs' & Hl' & Hn).
  destruct (fetch_attempts_adds env page_type current_page MAX_API_RETRIES
              count auth st) as (evs'' & Hl'' & HP).
  assert (E1 : evs' = evs).
  { rewrite Hl in Hl'. apply (f_equal log) in Hl'. simpl in Hl'.
    apply (inj (fun x => x ++ log st)%list) in Hl'. congruence. }
  assert (E2 : evs'' = evs).
  { rewrite Hl in Hl''. apply (f_equal log) in Hl''. simpl in Hl''.
    apply (inj (fun x => x ++ log st)%list) in Hl''. congruence. }
  subst evs' evs''. exists evs. split; [exact Hl|].
  assert (Hcount : forall (p : event -> bool) (l : list event),
            length (filter (fun ev => p ev = true) l)
            = sum_list_with (fun ev => if p ev then 1%nat else 0%nat) l).
  { intros p l. induction l as [|x l IH]; [reflexivity|].
    rewrite filter_cons. simpl. destruct (p x) eqn:E.
    - rewrite decide_True by reflexivity. simpl. rewrite IH. reflexivity.
    - rewrite decide_False by discriminate. exact IH. }
  split; [|split; [|split; [exact HP|]]].
  - unfold fetches. rewrite Hcount. exact Hf.
  - unfold navigations. rewrite Hcount. unfold MAX_API_RETRIES in Hn. exact Hn.
  - intros t n Hin.
    destruct (fetch_attempts_same_page env page_type current_page
                MAX_API_RETRIES count auth st) as (evs2 & Hl2 & HP2).
    rewrite Hl in Hl2. apply (f_equal log) in Hl2. simpl in Hl2.
    apply (inj (fun x => x ++ log st)%list) in Hl2. subst evs2.
    rewrite Forall_forall in HP2. exact (HP2 _ Hin).
Qed.

End Budgets.

(** ** The paths of the collector *)

Section CollectorPaths.

(** X6: a collection pass changes nothing but the log; it registers the
    listener first and removes it last on every path, and in between it
    neither posts, verifies the session nor closes anything, and the
    pages it requests are pages of its own listing, from page 1 on. *)
Theorem get_users_only_reads (env : Env) (fuel : nat) (page_type : string)
    (st : state) :
  exists evs,
    snd (get_users env fuel page_type st)
    = logged (EvListenerOff :: evs ++ [EvListenerOn]) st
    /\ Forall (fun ev => is_write_event ev = false
                         /\ is_listener_event ev = false) evs
    /\ (forall t n, EvFetch t n ∈ evs -> t = page_type /\ 1 <= n).
Proof.
  destruct (get_users_events env fuel page_type st) as (evs & Hl & HP).
  exists evs. split; [exact Hl|]. rewrite Forall_forall in HP. split.
  - apply Forall_forall. intros ev Hev. specialize (HP ev Hev).
    destruct ev; cbn in *; tauto.
  - intros t n Hin. exact (HP _ Hin).
Qed.

Lemma or_1_small num_total :
  match num_total with None => True | Some t => t <= 20 end ->
  or_1 (next_total None num_total) <= 1.
Proof.
  destruct num_total as [t|]; cbn [next_total or_1]; [|lia].
  intros Ht. pose proof (ceil_pages_bounds_aux t).
  destruct (ceil_pages t =? 0) eqn:E; lia.
Qed.

(** X7: when the first response announces at most 20 profiles, or no count
    at all, the collector requests page 1 only and returns the valid
    handles of that page. *)
Theorem get_users_single_page (env : Env) (fuel : nat) (page_type : string)
    (st : state) (h : headers) (num_total : option Z) (ps : list profile)
    (k : bool) :
  let url := base_url ++ "/me/" ++ page_type in
  (1 <= fuel)%nat ->
  env_observe env (EvListenerOn :: log st) url
    = {| captured := Some h; raised := None |} ->
  env_fetch env (EvNavigate url :: EvListenerOn :: log st) page_type 1
    = FetchOk (Dict num_total (Some ps) k) ->
  match num_total with None => True | Some t => t <= 20 end ->
  get_users env fuel page_type st
  = (Ok (as_users (foldl add_profile ∅ ps)),
     logged [EvListenerOff; EvSleep 1; EvFetch page_type 1; EvNavigate url;
             EvListenerOn] st).
Proof.
  intros url Hfuel Hobs Hf Hsmall. destruct fuel as [|fuel]; [lia|].
  rewrite (get_users_pages _ _ _ _ h) by exact Hobs. fold url.
  erewrite pages_turn; [|reflexivity|exact Hf].
  cbv zeta. change (1 >? 1) with false. rewrite andb_false_r.
  rewrite pages_done.
  - reflexivity.
  - apply Z.leb_gt. pose proof (or_1_small num_total Hsmall). lia.
Qed.

(** X8: a response body that is not an object, an empty object or an
    object without [profiles] ends the collection with an [Exception]
    that names the defect; the request is not repeated. *)
Theorem pages_malformed_body (env : Env) (page_type : string) (fuel : nat)
    (users : gset string) (current_page : Z) (total_pages : option Z)
    (auth : option headers) (st : state) (d : response_data) (msg : string) :
  current_page <= or_1 total_pages ->
  env_fetch env (log st) page_type current_page = FetchOk d ->
  body_error d = Some msg ->
  pages env page_type (S fuel) users current_page total_pages auth st
  = (Raise (Exception msg), logged [EvFetch page_type current_page] st).
Proof.
  intros Hc Hf Hd. apply Z.leb_le in Hc. cbn [pages]. rewrite Hc.
  unfold bind at 1. cbn [MAX_API_RETRIES fetch_attempts].
  unfold bind at 1. unfold ask at 1. rewrite Hf. cbn [ret].
  destruct (decide (0%nat = 3%nat)) as [|_]; [discriminate|].
  destruct d as [|[n|] [ps|] [|]]; cbn in Hd; try discriminate;
    injection Hd as <-; reflexivity.
Qed.

(** X9: a failure of the listing request that is not an [Exception], or
    whose message names neither status 502 nor status 401, leaves the
    page loop at once, as it is, after one request. *)
Theorem pages_error_not_retried (env : Env) (page_type : string) (fuel : nat)
    (users : gset string) (current_page : Z) (total_pages : option Z)
    (auth : option headers) (st : state) (e : exn) :
  current_page <= or_1 total_pages ->
  env_fetch env (log st) page_type current_page = FetchRaise e ->
  is_Exception e = false
  \/ (PyStr.contains "HTTP error! status: 502" (str e) = false
      /\ PyStr.contains "HTTP error! status: 401" (str e) = false) ->
  pages env page_type (S fuel) users current_page total_pages auth st
  = (Raise e, logged [EvFetch page_type current_page] st).
Proof.
  intros Hc Hf He. apply Z.leb_le in Hc. cbn [pages]. rewrite Hc.
  unfold bind at 1. cbn [MAX_API_RETRIES fetch_attempts].
  unfold bind at 1. unfold ask at 1. rewrite Hf.
  destruct He as [He|[H502 H401]].
  - rewrite He. reflexivity.
  - rewrite H502, H401. destruct (is_Exception e); reflexivity.
Qed.

(** X10: when every request of a page fails with status 502, the
    collector makes exactly 3 requests, sleeps 5 seconds after each one
    (also after the last) and raises
    [Failed to fetch page <n> after 3 retries]. *)
Theorem pages_three_502 (env : Env) (page_type : string) (fuel : nat)
    (users : gset string) (current_page : Z) (total_pages : option Z)
    (auth : option headers) (st : state) (e : exn) :
  current_page <= or_1 total_pages ->
  (forall l, env_fetch env l page_type current_page = FetchRaise e) ->
  is_Exception e = true ->
  PyStr.contains "HTTP error! status: 502" (str e) = true ->
  pages env page_type (S fuel) users current_page total_pages auth st
  = (Raise (Exception ("Failed to fetch page " ++ pretty current_page
                       ++ " after " ++ pretty MAX_API_RETRIES ++ " retries")),
     logged [EvSleep 5; EvFetch page_type current_page;
             EvSleep 5; EvFetch page_type current_page;
             EvSleep 5; EvFetch page_type current_page] st).
Proof.
  intros Hc Hf He H502. apply Z.leb_le in Hc. cbn [pages]. rewrite Hc.
  unfold bind at 1. cbn [MAX_API_RETRIES fetch_attempts].
  unfold bind, ask, sleep, emit, modify. cbn [log set_log].
  rewrite !Hf, He, H502. cbn [log set_log].
  rewrite !Hf, He, H502. cbn [log set_log].
  rewrite !Hf, He, H502. cbn [log set_log ret].
  reflexivity.
Qed.

Lemma refresh_auth_headers_unseen env page_type st :
  (forall l, env_observe env l (base_url ++ "/me/" ++ page_type)
             = {| captured := None; raised := None |}) ->
  refresh_auth_headers env page_type st
  = (Raise (Exception
              "Failed to refresh authentication headers after 3 attempts"),
     logged [EvNavigate (base_url ++ "/me/" ++ page_type);
             EvNavigate (base_url ++ "/me/" ++ page_type);
             EvNavigate (base_url ++ "/me/" ++ page_type)] st).
Proof.
  intros H. unfold refresh_auth_headers. change (range 3) with [0; 1; 2].
  cbn [refresh_retries]. unfold bind, ask. cbn [log set_log].
  rewrite !H. cbn [captured raised log set_log]. rewrite !H.
  cbn [captured raised log set_log]. rewrite !H. reflexivity.
Qed.

(** X11: when a request fails with status 401 and no qualifying response
    is seen during the refresh, the refresh makes its 3 attempts and the
    collection ends with
    [Failed to refresh authentication headers after 3 attempts], without
    a second request of the page. *)
Theorem pages_refresh_gives_up (env : Env) (page_type : string) (fuel : nat)
    (users : gset string) (current_page : Z) (total_pages : option Z)
    (auth : option headers) (st : state) (e : exn) :
  let url := base_url ++ "/me/" ++ page_type in
  current_page <= or_1 total_pages ->
  env_fetch env (log st) page_type current_page = FetchRaise e ->
  is_Exception e = true ->
  PyStr.contains "HTTP error! status: 502" (str e) = false ->
  PyStr.contains "HTTP error! status: 401" (str e) = true ->
  (forall l, env_observe env l url = {| captured := None; raised := None |}) ->
  pages env page_type (S fuel) users current_page total_pages auth st
  = (Raise (Exception
              "Failed to refresh authentication headers after 3 attempts"),
     logged [EvNavigate url; EvNavigate url; EvNavigate url;
             EvFetch page_type current_page] st).
Proof.
  intros url Hc Hf He H502 H401 Hobs. apply Z.leb_le in Hc.
  cbn [pages]. rewrite Hc.
  unfold bind at 1. cbn [MAX_API_RETRIES fetch_attempts].
  unfold bind at 1. unfold ask at 1. rewrite Hf, He, H502, H401.
  unfold bind at 1.
  rewrite (refresh_auth_headers_unseen env page_type _ Hobs).
  reflexivity.
Qed.

End CollectorPaths.

(** ** The number of turns does not matter *)

Section FuelIndependence.

(** One turn of the page loop. *)
Lemma pages_turn_eq env page_type fuel users current_page total_pages auth :
  pages env page_type (S fuel) users current_page total_pages auth
  = if current_page <=? or_1 total_pages then
      fetched <-
        fetch_attempts env page_type current_page MAX_API_RETRIES 0 auth ;;
      let '(api_retry_count, response_data, auth_headers) := fetched in
      if decide (api_retry_count = MAX_API_RETRIES) then
        raise (Exception ("Failed to fetch page " ++ pretty current_page
                          ++ " after " ++ pretty MAX_API_RETRIES
                          ++ " retries"))
      else
        match response_data with
        | None | Some NotADict | Some (Dict None None false) =>
            raise (Exception "Invalid API response format")
        | Some (Dict num_total_profiles profiles _) =>
            let total_pages :=
              match total_pages, num_total_profiles with
              | None, Some total_profiles => Some (ceil_pages total_profiles)
              | _, _ => total_pages
              end in
            match profiles with
            | None => raise (Exception "No profiles key in response")
            | Some profiles =>
                let previous_count := size users in
                let users := foldl add_profile users profiles in
                let new_users :=
                  Z.of_nat (size users) - Z.of_nat previous_count in
                if (new_users =? 0) && (current_page >? 1) then ret users
                else
                  sleep 1 ;;;
                  pages env page_type fuel users (current_page + 1)
                    total_pages auth_headers
            end
        end
    else ret users.
Proof. reflexivity. Qed.

(** A run of the page loop that has enough turns is not changed by one
    more. *)
Lemma pages_one_more env page_type fuel users current_page total_pages auth st :
  fst (pages env page_type fuel users current_page total_pages auth st)
  <> OutOfFuel ->
  pages env page_type (S fuel) users current_page total_pages auth st
  = pages env page_type fuel users current_page total_pages auth st.
Proof.
  revert users current_page total_pages auth st.
  induction fuel as [|fuel IH];
    intros users current_page total_pages auth st.
  - cbn [pages]. destruct (current_page <=? or_1 total_pages);
      [intros H; destruct H; reflexivity|reflexivity].
  - rewrite (pages_turn_eq env page_type (S fuel) users current_page
               total_pages auth).
    rewrite (pages_turn_eq env page_type fuel users current_page
               total_pages auth).
    destruct (current_page <=? or_1 total_pages); [|reflexivity].
    destruct (fetch_attempts env page_type current_page MAX_API_RETRIES 0
                auth st) as [[[[c rd] auth']|e|] st1] eqn:E.
    + rewrite !(bind_ok _ _ _ _ _ E).
      destruct (decide (c = MAX_API_RETRIES)); [reflexivity|].
      destruct rd as [[|num_total [ps|] k]|]; try reflexivity.
      destruct num_total as [nt|]; cbv zeta;
        (destruct (_ && _); [reflexivity|]);
        unfold bind, sleep, emit, modify; intros H; apply IH; exact H.
    + intros _. unfold bind. rewrite E. reflexivity.
    + intros _. unfold bind. rewrite E. reflexivity.
Qed.

Lemma pages_more_fuel env page_type fuel fuel' users current_page total_pages
    auth st :
  fst (pages env page_type fuel users current_page total_pages auth st)
  <> OutOfFuel ->
  (fuel <= fuel')%nat ->
  pages env page_type fuel' users current_page total_pages auth st
  = pages env page_type fuel users current_page total_pages auth st.
Proof.
  intros H Hle. induction Hle as [|fuel' Hle IH]; [reflexivity|].
  rewrite <- IH. apply pages_one_more. rewrite IH. exact H.
Qed.

Lemma get_users_more_fuel env fuel fuel' page_type st :
  fst (get_users env fuel page_type st) <> OutOfFuel ->
  (fuel <= fuel')%nat ->
  get_users env fuel' page_type st = get_users env fuel page_type st.
Proof.
  intros H Hle.
  assert (Hrun : forall f,
    get_users env f page_type st
    = match observe env (base_url ++ "/me/" ++ page_type) None
              (logged [EvListenerOn] st) with
      | (Ok (Some h), s0) =>
          match pages env page_type f ∅ 1 None (Some h) s0 with
          | (Ok users, s1) => (Ok (as_users users), logged [EvListenerOff] s1)
          | (Raise e, s1) => (Raise e, logged [EvListenerOff] s1)
          | (OutOfFuel, s1) => (OutOfFuel, logged [EvListenerOff] s1)
          end
      | (Ok None, s0) =>
          (Raise (Exception "Failed to capture initial authentication headers"),
           logged [EvListenerOff] s0)
      | (Raise e, s0) => (Raise e, logged [EvListenerOff] s0)
      | (OutOfFuel, s0) => (OutOfFuel, logged [EvListenerOff] s0)
      end).
  { intros f. unfold get_users. unfold bind at 1. unfold try_finally, try_except.
    unfold bind at 1. cbn [emit modify].
    change (set_log (EvListenerOn :: log st) st) with (logged [EvListenerOn] st).
    unfold bind at 1.
    destruct (observe _ _ _ _) as [[[h|]|e|] s0]; try reflexivity.
    destruct (pages _ _ _ _ _ _ _ _) as [[u|e|] s1]; reflexivity. }
  rewrite (Hrun fuel) in H. rewrite (Hrun fuel'), (Hrun fuel).
  destruct (observe _ _ _ _) as [[[h|]|e|] s0]; try reflexivity.
  rewrite (pages_more_fuel env page_type fuel fuel'); [reflexivity| |exact Hle].
  intros E. apply H.
  destruct (pages env page_type fuel ∅ 1 None (Some h) s0) as [[u|e|] s1];
    cbn in E; try discriminate. reflexivity.
Qed.

Lemma get_users_settles env page_type st :
  exists n, forall fuel, (n <= fuel)%nat ->
    fst (get_users env fuel page_type st) <> OutOfFuel
    /\ get_users env fuel page_type st = get_users env n page_type st.
Proof.
  destruct (get_users_enough_fuel env page_type st) as [n Hn].
  exists n. intros fuel Hfuel. split; [apply Hn, Hfuel|].
  apply get_users_more_fuel; [apply Hn; lia|exact Hfuel].
Qed.

(** X12: [get_users] returns or raises: from some number of turns on the
    model does not run out of turns and its result, state included, is
    the same for every larger number. *)
Theorem get_users_fuel_independent (env : Env) (page_type : string)
    (st : state) :
  exists n, forall fuel, (n <= fuel)%nat ->
    fst (get_users env fuel page_type st) <> OutOfFuel
    /\ get_users env fuel page_type st = get_users env n page_type st.
Proof. exact (get_users_settles env page_type st). Qed.

End FuelIndependence.

(** ** What an unfollow does to the state *)

Section DriverEffect.

Ltac break_match :=
  match goal with
  | |- context [match ?x with _ => _ end] =>
      lazymatch x with
      | context [match _ with _ => _ end] => fail
      | _ => destruct x eqn:?
      end
  end.

Ltac new_events l :=
  lazymatch l with
  | log _ => constr:(@nil event)
  | ?x :: ?r => let p := new_events r in constr:(x :: p)
  end.

Ltac give_events :=
  unfold logged, set_log, set_processed_users;
  cbn [page context browser playwright processed_users progress_file log];
  lazymatch goal with
  | |- context [Build_state _ _ _ _ _ _ ?l] =>
      let p := new_events l in exists p
  end.

(** What one attempt does to the state. *)
Lemma unfollow_attempt_effect env username attempt st :
  exists evs,
    (post_count evs <= 1)%nat
    /\ Forall (driver_event username) evs
    /\ contained (fst (unfollow_attempt env username attempt st))
    /\ match fst (unfollow_attempt env username attempt st) with
       | Ok (Return true) =>
           snd (unfollow_attempt env username attempt st)
           = set_processed_users ({[username]} ∪ processed_users st)
               (logged evs st)
       | _ => snd (unfollow_attempt env username attempt st) = logged evs st
       end.
Proof.
  unfold unfollow_attempt, try_except, ensure_auth_headers, try_finally,
    observe, verify_session, bind, ask, emit, modify, sleep, sleep_uniform,
    raise, ret.
  cbn [log set_log emit modify].
  repeat (break_match; cbn [log set_log fst snd contained] in * );
  try discriminate;
  give_events;
  (split; [cbn; lia|split; [repeat constructor; cbn; auto|split]]);
  cbn [contained]; try reflexivity; try assumption.
Qed.

Lemma post_count_app l1 l2 :
  post_count (l1 ++ l2) = (post_count l1 + post_count l2)%nat.
Proof. apply sum_list_with_app. Qed.

(** What the attempts of a handle do to the state. *)
Lemma unfollow_attempts_effect env username attempts st :
  let r := for_each attempts (unfollow_attempt env username) st in
  exists evs,
    (post_count evs <= length attempts)%nat
    /\ Forall (driver_event username) evs
    /\ contained (fst r)
    /\ match fst r with
       | Ok (Some true) =>
           snd r = set_processed_users ({[username]} ∪ processed_users st)
                     (logged evs st)
       | _ => snd r = logged evs st
       end.
Proof.
  cbv zeta.
  revert st. induction attempts as [|a rest IH]; intros st; cbn [for_each].
  - exists []. unfold ret. cbn [fst snd contained length]. rewrite logged_nil.
    split; [cbn; lia|]. split; [constructor|]. split; [exact I|reflexivity].
  - destruct (unfollow_attempt_effect env username a st)
      as (evs1 & Hc1 & Hd1 & Hk1 & Hs1).
    unfold bind.
    destruct (unfollow_attempt env username a st) as [[[|b]|e|] s1];
      cbn [fst snd] in *.
    + subst s1.
      destruct (IH (logged evs1 st)) as (evs2 & Hc2 & Hd2 & Hk2 & Hs2).
      exists (evs2 ++ evs1)%list. cbn [length].
      split; [rewrite post_count_app; lia|].
      split; [by apply Forall_app|]. split; [exact Hk2|].
      destruct (for_each rest _ _) as [[[[|]|]|e|] s2]; cbn [fst snd] in *;
        rewrite Hs2, logged_app; reflexivity.
    + exists evs1. unfold ret. cbn [length fst snd contained].
      split; [lia|]. split; [exact Hd1|]. split; [exact I|].
      destruct b; exact Hs1.
    + exists evs1. cbn [length fst snd].
      split; [lia|]. split; [exact Hd1|]. split; [exact Hk1|exact Hs1].
    + contradiction.
Qed.

Lemma unfollow_user_effect env username st :
  let r := unfollow_user env username st in
  exists evs,
    (post_count evs <= 3)%nat
    /\ Forall (driver_event username) evs
    /\ contained (fst r)
    /\ match fst r with
       | Ok true =>
           snd r = set_processed_users ({[username]} ∪ processed_users st)
                     (logged evs st)
       | _ => snd r = logged evs st
       end.
Proof.
  cbv zeta.
  assert (Hrun : unfollow_user env username st
                 = if decide (username ∈ processed_users st) then (Ok true, st)
                   else (r <- for_each (range MAX_RETRIES)
                                (unfollow_attempt env username) ;;
                         match r with
                         | Some b => ret b
                         | None => ret false
                         end) st).
  { unfold unfollow_user. unfold bind at 1. cbn [get].
    destruct (decide _); reflexivity. }
  rewrite Hrun. clear Hrun.
  destruct (decide (username ∈ processed_users st)) as [Hin|Hnot].
  - exists []. unfold ret. cbn [fst snd contained]. rewrite logged_nil.
    split; [cbn; lia|]. split; [constructor|]. split; [exact I|].
    destruct st as [p c b w pu pf lg].
    unfold set_processed_users. cbn [page context browser playwright
      processed_users progress_file log] in *.
    assert (E : {[username]} ∪ pu = pu)
      by (apply subseteq_union_1_L, singleton_subseteq_l, Hin).
    rewrite E. reflexivity.
  - destruct (unfollow_attempts_effect env username (range MAX_RETRIES) st)
      as (evs & Hc & Hd & Hk & Hs).
    exists evs. change (length (range MAX_RETRIES)) with 3%nat in Hc.
    unfold bind.
    destruct (for_each (range MAX_RETRIES) _ st) as [[[[|]|]|e|] s1];
      unfold ret; cbn [fst snd contained] in *; auto.
Qed.

Lemma unfollow_user_contains_errors_aux env username st :
  contained (fst (unfollow_user env username st)).
Proof.
  destruct (unfollow_user_effect env username st) as (evs & _ & _ & Hk & _).
  exact Hk.
Qed.

(** X13: [unfollow_user] never raises an [Exception]: it returns a
    boolean, and the only thing that escapes it is what
    [except Exception] does not catch. *)
Theorem unfollow_user_contains_errors (env : Env) (username : string)
    (st : state) :
  contained (fst (unfollow_user env username st)).
Proof.
  destruct (unfollow_user_effect env username st) as (evs & _ & _ & Hk & _).
  exact Hk.
Qed.

(** X14: [unfollow_user] adds the handle to [processed_users] exactly
    when it returns [True], and changes neither the rest of that set,
    the progress file nor the browser fields. *)
Theorem unfollow_user_processed_set (env : Env) (username : string)
    (st : state) :
  let r := unfollow_user env username st in
  progress_file (snd r) = progress_file st
  /\ page (snd r) = page st /\ context (snd r) = context st
  /\ browser (snd r) = browser st /\ playwright (snd r) = playwright st
  /\ match fst r with
     | Ok true =>
         processed_users (snd r) = {[username]} ∪ processed_users st
     | _ => processed_users (snd r) = processed_users st
     end.
Proof.
  destruct (unfollow_user_effect env username st) as (evs & _ & _ & _ & Hs).
  cbv zeta.
  destruct (unfollow_user env username st) as [[[|]|e|] s1];
    cbn [fst snd] in *; subst s1; repeat split; reflexivity.
Qed.

(** X15: one call of [unfollow_user] sends at most 3 unfollow requests,
    all for the handle it was given, makes no listing request and closes
    nothing. *)
Theorem unfollow_user_requests (env : Env) (username : string) (st : state) :
  exists evs,
    log (snd (unfollow_user env username st)) = (evs ++ log st)%list
    /\ (post_count evs <= 3)%nat
    /\ Forall (driver_event username) evs.
Proof.
  destruct (unfollow_user_effect env username st) as (evs & Hc & Hd & _ & Hs).
  exists evs. split; [|split; assumption].
  destruct (unfollow_user env username st) as [[[|]|e|] s1];
    cbn [fst snd] in *; subst s1; reflexivity.
Qed.

End DriverEffect.

(** ** The paths of the unfollow driver *)

Section DriverPaths.

Variable env : Env.

Hypothesis observe_seen_always :
  forall l url, exists h,
    env_observe env l url = {| captured := Some h; raised := None |}.



(** X17: when every unfollow request is answered 429, [unfollow_user]
    tries 3 times, sleeps 60 seconds after each answer, the last one
    included, whatever the [Retry-After] header of the answers says (the
    library gives the names of the headers in lower case), and returns
    [False]. *)
Theorem unfollow_user_rate_limited (username : string) (st : state) :
  username ∉ processed_users st ->
  (forall l, exists r,
      env_post env l username = PostOk r /\ status r = 429
      /\ lower_cased (resp_headers r)) ->
  unfollow_user env username st
  = (Ok false,
     logged (EvSleep 60 :: EvPost username :: harvest_events
             ++ EvSleep 60 :: EvPost username :: harvest_events
             ++ EvSleep 60 :: EvPost username :: harvest_events) st).
Proof.
  intros Hnot Hpost.
  assert (Hattempt : forall attempt s,
            unfollow_attempt env username attempt s
            = (Ok Continue,
               logged (EvSleep 60 :: EvPost username :: harvest_events) s)).
  { intros attempt s.
    destruct (Hpost (log (logged harvest_events s))) as (r & Hr & Hs & Hl).
    destruct (observe_seen_always (EvListenerOn :: log s)
                (base_url ++ "/me/following")) as [h Hh].
    exact (unfollow_attempt_rate_limited env username attempt s h r
             Hh Hr Hs Hl). }
  unfold unfollow_user. unfold bind at 1. cbn [get].
  destruct (decide (username ∈ processed_users st)) as [|_]; [contradiction|].
  change (range MAX_RETRIES) with [0; 1; 2]. cbn [for_each].
  unfold bind. rewrite Hattempt. cbv beta iota. rewrite Hattempt. cbv beta iota.
  rewrite Hattempt. cbv beta iota. unfold ret. rewrite !logged_app. reflexivity.
Qed.

End DriverPaths.

(** ** The batches *)

Section Batches.

Lemma chunks_concat (l : list string) m a :
  concat ((fun i => take chunk_size (drop i l))
            <$> ((fun k => k * chunk_size)%nat <$> seq a m))
  = take (m * chunk_size) (drop (a * chunk_size) l).
Proof.
  revert a. induction m as [|m IH]; intros a; [reflexivity|].
  cbn [seq fmap list_fmap concat]. rewrite IH.
  replace (S m * chunk_size)%nat with (chunk_size + m * chunk_size)%nat by lia.
  rewrite <- take_take_drop. f_equal.
  replace (S a * chunk_size)%nat with (a * chunk_size + chunk_size)%nat by lia.
  rewrite drop_drop. reflexivity.
Qed.

Lemma range_step_lookup n j i :
  range_step n chunk_size !! j = Some i ->
  i = (j * chunk_size)%nat /\ (j < (n + chunk_size - 1) / chunk_size)%nat.
Proof.
  unfold range_step. rewrite list_lookup_fmap.
  destruct (seq 0 _ !! j) as [k|] eqn:E; [|discriminate].
  apply lookup_seq in E as [-> Hlt]. cbn. intros [= <-]. split; [lia|exact Hlt].
Qed.

(** X18: the slices [list(users_to_unfollow)[i:i + 5]] for
    [i in range(0, len, 5)] concatenate to the whole list, each holds
    between 1 and 5 handles, and the pause of 60 to 120 seconds follows
    every slice but the last. *)
Theorem chunks_partition_targets (l : list string) :
  let starts := range_step (length l) chunk_size in
  concat ((fun i => take chunk_size (drop i l)) <$> starts) = l
  /\ Forall (fun i =>
               (1 <= length (take chunk_size (drop i l)) <= chunk_size)%nat)
       starts
  /\ (forall j i, starts !! j = Some i ->
        (i + chunk_size <? length l)%nat = true <-> (S j < length starts)%nat).
Proof.
  cbv zeta.
  assert (Hlen : length (range_step (length l) chunk_size)
                 = ((length l + chunk_size - 1) / chunk_size)%nat).
  { unfold range_step. rewrite length_fmap, length_seq. reflexivity. }
  pose proof (chunks_cover (length l)) as Hcover.
  assert (Htight : ((length l + chunk_size - 1) / chunk_size * chunk_size
                    < length l + chunk_size)%nat).
  { unfold chunk_size.
    pose proof (Nat.div_mod_eq (length l + 5 - 1) 5).
    pose proof (Nat.mod_upper_bound (length l + 5 - 1) 5). lia. }
  split; [|split].
  - rewrite range_step_seq, chunks_concat.
    change (0 * chunk_size)%nat with 0%nat. rewrite drop_0.
    apply take_ge, chunks_cover.
  - apply Forall_lookup. intros j i Hj.
    apply range_step_lookup in Hj as [-> Hj].
    rewrite length_take, length_drop. unfold chunk_size in *. nia.
  - intros j i Hj. rewrite Hlen.
    apply range_step_lookup in Hj as [-> Hj].
    rewrite Nat.ltb_lt. unfold chunk_size in *. split; intros H; nia.
Qed.

Lemma contained_bind {A B} (m : M A) (f : A -> M B) st :
  contained (fst (m st)) ->
  (forall a s, contained (fst (f a s))) ->
  contained (fst (bind m f st)).
Proof.
  intros Hm Hf. unfold bind. destruct (m st) as [[a|e|] s1]; cbn in *; auto.
Qed.

Lemma unfollow_chunk_contained env chunk st :
  contained (fst (unfollow_chunk env chunk st)).
Proof.
  revert st. induction chunk as [|u chunk IH]; intros st; cbn [unfollow_chunk];
    [exact I|].
  apply contained_bind; [apply unfollow_user_contains_errors_aux|].
  intros ok s. apply contained_bind; [destruct ok; exact I|].
  intros _ s'. apply IH.
Qed.

Lemma unfollow_chunks_contained env targets starts st :
  contained (fst (unfollow_chunks env targets starts st)).
Proof.
  revert st. induction starts as [|i rest IH]; intros st;
    cbn [unfollow_chunks]; [exact I|].
  apply contained_bind; [apply unfollow_chunk_contained|].
  intros _ s. apply contained_bind; [destruct (_ <? _)%nat; exact I|].
  intros _ s'. apply IH.
Qed.

(** X19: the batch loop never raises an [Exception], whatever the
    platform answers: a handle that fails does not stop the handles
    after it. *)
Theorem unfollow_chunks_never_aborted (env : Env) (targets : gset string)
    (starts : list nat) (st : state) :
  contained (fst (unfollow_chunks env targets starts st)).
Proof. apply unfollow_chunks_contained. Qed.

End Batches.

(** ** The progress file and the processed set *)

Section LedgerInvariant.

Lemma unfollow_chunk_cons env u chunk st :
  unfollow_chunk env (u :: chunk) st
  = match unfollow_user env u st with
    | (Ok true, s1) =>
        unfollow_chunk env chunk
          (set_progress_file (progress_file s1 ++ (nl ++ u)) s1)
    | (Ok false, s1) => unfollow_chunk env chunk s1
    | (Raise e, s1) => (Raise e, s1)
    | (OutOfFuel, s1) => (OutOfFuel, s1)
    end.
Proof.
  cbn [unfollow_chunk]. unfold bind at 1.
  destruct (unfollow_user env u st) as [[[|]|e|] s1]; reflexivity.
Qed.

(** What a chunk appends to the progress file, whatever the platform
    answers. *)
Lemma unfollow_chunk_ledger env chunk st :
  exists kept,
    progress_file (snd (unfollow_chunk env chunk st))
    = progress_file st ++ appended kept
    /\ kept ⊆ chunk
    /\ (forall h, h ∈ kept ->
          h ∈ processed_users (snd (unfollow_chunk env chunk st)))
    /\ processed_users st ⊆ processed_users (snd (unfollow_chunk env chunk st)).
Proof.
  revert st. induction chunk as [|u chunk IH]; intros st.
  - exists []. cbn [unfollow_chunk appended]. unfold ret. cbn [snd].
    rewrite string_app_nil_r. repeat split; try reflexivity.
    intros h Hh. inversion Hh.
  - rewrite unfollow_chunk_cons.
    destruct (unfollow_user_effect env u st) as (evs & _ & _ & _ & Hs).
    destruct (unfollow_user env u st) as [[[|]|e|] s1]; cbn [fst snd] in *;
      subst s1.
    + set (s2 := set_progress_file _ _).
      destruct (IH s2) as (kept & Hf & Hsub & Hin & Hmono).
      exists (u :: kept). split; [|split; [|split]].
      { rewrite Hf. unfold s2. cbn [progress_file set_progress_file
          set_processed_users logged set_log appended].
        rewrite !string_app_assoc. reflexivity. }
      { intros x Hx. apply elem_of_cons in Hx as [->|Hx];
          [left|right; apply Hsub, Hx]. }
      { intros h Hh. apply elem_of_cons in Hh as [->|Hh]; [|apply Hin, Hh].
        apply Hmono. unfold s2. cbn [processed_users set_progress_file
          set_processed_users logged set_log].
        apply elem_of_union_l, elem_of_singleton. reflexivity. }
      { etransitivity; [|exact Hmono]. unfold s2.
        cbn [processed_users set_progress_file set_processed_users logged
             set_log]. apply union_subseteq_r. }
    + destruct (IH (logged evs st)) as (kept & Hf & Hsub & Hin & Hmono).
      exists kept. split; [exact Hf|]. split; [|split; [exact Hin|exact Hmono]].
      intros x Hx. right. apply Hsub, Hx.
    + exists []. cbn [appended]. rewrite string_app_nil_r.
      repeat split; try reflexivity; intros h Hh; inversion Hh.
    + exists []. cbn [appended]. rewrite string_app_nil_r.
      repeat split; try reflexivity; intros h Hh; inversion Hh.
Qed.

Lemma unfollow_chunks_cons env targets i rest st :
  unfollow_chunks env targets (i :: rest) st
  = match unfollow_chunk env
            (take chunk_size (drop i (elements targets))) st with
    | (Ok _, s1) =>
        unfollow_chunks env targets rest
          (if (i + chunk_size <? size targets)%nat
           then logged [EvSleepUniform 60 120] s1 else s1)
    | (Raise e, s1) => (Raise e, s1)
    | (OutOfFuel, s1) => (OutOfFuel, s1)
    end.
Proof.
  cbn [unfollow_chunks]. unfold bind at 1.
  destruct (unfollow_chunk env _ st) as [[[]|e|] s1]; try reflexivity.
  unfold bind at 1. destruct (_ <? _)%nat; reflexivity.
Qed.

Lemma unfollow_chunks_ledger env targets starts st :
  exists kept,
    progress_file (snd (unfollow_chunks env targets starts st))
    = progress_file st ++ appended kept
    /\ (forall h, h ∈ kept ->
          h ∈ targets
          /\ h ∈ processed_users (snd (unfollow_chunks env targets starts st)))
    /\ processed_users st
       ⊆ processed_users (snd (unfollow_chunks env targets starts st)).
Proof.
  revert st. induction starts as [|i rest IH]; intros st.
  - exists []. cbn [unfollow_chunks appended]. unfold ret. cbn [snd].
    rewrite string_app_nil_r. repeat split; try reflexivity;
      inversion H.
  - rewrite unfollow_chunks_cons.
    set (chunk := take chunk_size (drop i (elements targets))).
    destruct (unfollow_chunk_ledger env chunk st)
      as (kept1 & Hf1 & Hsub1 & Hin1 & Hmono1).
    assert (Hchunk : forall h, h ∈ chunk -> h ∈ targets).
    { intros h Hh. apply elem_of_elements.
      apply (subseteq_drop i), (subseteq_take chunk_size), Hh. }
    destruct (unfollow_chunk env chunk st) as [[[]|e|] s1]; cbn [snd] in *.
    + set (s2 := if (i + chunk_size <? size targets)%nat
                 then logged [EvSleepUniform 60 120] s1 else s1).
      assert (Hs2 : progress_file s2 = progress_file s1
                    /\ processed_users s2 = processed_users s1).
      { unfold s2. destruct (_ <? _)%nat; split; reflexivity. }
      destruct Hs2 as [F2 P2].
      destruct (IH s2) as (kept2 & Hf2 & Hin2 & Hmono2).
      exists (kept1 ++ kept2)%list. split; [|split].
      * rewrite Hf2, F2, Hf1, appended_app, string_app_assoc. reflexivity.
      * intros h Hh. apply elem_of_app in Hh as [Hh|Hh].
        -- split; [apply Hchunk, Hsub1, Hh|].
           apply Hmono2. rewrite P2. apply Hin1, Hh.
        -- exact (Hin2 h Hh).
      * etransitivity; [exact Hmono1|]. rewrite <- P2. exact Hmono2.
    + exists kept1. split; [exact Hf1|]. split; [|exact Hmono1].
      intros h Hh. split; [apply Hchunk, Hsub1, Hh|apply Hin1, Hh].
    + exists kept1. split; [exact Hf1|]. split; [|exact Hmono1].
      intros h Hh. split; [apply Hchunk, Hsub1, Hh|apply Hin1, Hh].
Qed.

Lemma find_and_unfollow_nonreciprocal_run env fuel st :
  find_and_unfollow_nonreciprocal env fuel st
  = match get_users env fuel "following" st with
    | (Ok following, s1) =>
        match get_users env fuel "followers" s1 with
        | (Ok followers, s2) =>
            let targets := users_to_unfollow following followers in
            unfollow_chunks env targets (range_step (size targets) chunk_size)
              (set_progress_file
                 (PyStr.join nl (elements (processed_users s2))) s2)
        | (Raise e, s2) => (Raise e, s2)
        | (OutOfFuel, s2) => (OutOfFuel, s2)
        end
    | (Raise e, s1) => (Raise e, s1)
    | (OutOfFuel, s1) => (OutOfFuel, s1)
    end.
Proof.
  unfold find_and_unfollow_nonreciprocal, try_except. unfold bind at 1.
  destruct (get_users env fuel "following" st) as [[following|e|] s1];
    try reflexivity.
  unfold bind at 1.
  destruct (get_users env fuel "followers" s1) as [[followers|e|] s2];
    try reflexivity.
  cbv zeta. unfold bind at 1. cbn [get]. unfold bind at 1.
  cbn [write_progress modify].
  destruct (unfollow_chunks _ _ _ _) as [[[]|e|] s3]; reflexivity.
Qed.

(** X20: [find_and_unfollow_nonreciprocal] never removes a handle from
    [processed_users]; either it leaves the progress file and the set as
    they are (a listing failed), or the file is the old set joined by
    newlines followed by one line per handle it appended, and every
    appended handle is in the set. *)
Theorem ledger_holds_processed_targets (env : Env) (fuel : nat) (st : state) :
  let st' := snd (find_and_unfollow_nonreciprocal env fuel st) in
  processed_users st ⊆ processed_users st'
  /\ (progress_file st' = progress_file st
      /\ processed_users st' = processed_users st
      \/ exists kept,
           progress_file st'
           = PyStr.join nl (elements (processed_users st)) ++ appended kept
           /\ forall h, h ∈ kept -> h ∈ processed_users st').
Proof.
  cbv zeta. rewrite find_and_unfollow_nonreciprocal_run.
  destruct (get_users_only_logs env fuel "following" st) as [l1 E1].
  destruct (get_users env fuel "following" st) as [[following|e|] s1];
    cbn [snd] in *; subst s1;
    try (split; [reflexivity|left; split; reflexivity]).
  destruct (get_users_only_logs env fuel "followers" (set_log l1 st))
    as [l2 E2].
  destruct (get_users env fuel "followers" (set_log l1 st))
    as [[followers|e|] s2];
    cbn [snd] in *; subst s2;
    try (split; [reflexivity|left; split; reflexivity]).
  cbv zeta. set (targets := users_to_unfollow following followers).
  set (s3 := set_progress_file _ _).
  destruct (unfollow_chunks_ledger env targets
              (range_step (size targets) chunk_size) s3)
    as (kept & Hf & Hin & Hmono).
  split; [exact Hmono|]. right. exists kept. split; [exact Hf|].
  intros h Hh. apply Hin, Hh.
Qed.

(** X21: when every followed account follows back, the run of
    [find_and_unfollow_nonreciprocal] rewrites the progress file from
    the processed set and does nothing else: no unfollow request, no
    pause. *)
Theorem nobody_to_unfollow (env : Env) (fuel : nat) (st : state)
    (following followers : list User) (st1 st2 : state) :
  get_users env fuel "following" st = (Ok following, st1) ->
  get_users env fuel "followers" st1 = (Ok followers, st2) ->
  (forall u, u ∈ following -> username u ∈ username <$> followers) ->
  find_and_unfollow_nonreciprocal env fuel st
  = (Ok tt,
     set_progress_file (PyStr.join nl (elements (processed_users st2))) st2).
Proof.
  intros Hg1 Hg2 Hall.
  assert (Hempty : users_to_unfollow following followers = ∅).
  { unfold users_to_unfollow. apply set_eq. intros x.
    rewrite elem_of_difference, !elem_of_list_to_set. split.
    - intros [Hx Hnx]. exfalso. apply Hnx.
      apply list_elem_of_fmap in Hx as (u & -> & Hu). apply Hall, Hu.
    - intros Hx. exfalso. exact (not_elem_of_empty x Hx). }
  rewrite find_and_unfollow_nonreciprocal_run, Hg1, Hg2. cbv zeta.
  rewrite Hempty. reflexivity.
Qed.

End LedgerInvariant.

(** ** Rate limits and cleanup on every path *)

Section CleanupAlways.

(** X22: for a response as the library gives it, with the names of its
    headers in lower case, [handle_rate_limit] sleeps 60 seconds and then
    raises [RateLimitError] with
    [Rate limited. Retry after 60 seconds], whatever the [Retry-After]
    header says: the lookup with capitals finds nothing. *)
Theorem handle_rate_limit_always_raises (response : api_response)
    (st : state) :
  lower_cased (resp_headers response) ->
  handle_rate_limit response st
  = (Raise (RateLimitError "Rate limited. Retry after 60 seconds"),
     logged [EvSleep 60] st).
Proof.
  intros Hlower. unfold handle_rate_limit.
  rewrite (retry_after_header_default response Hlower). reflexivity.
Qed.

Lemma cleanup_effect env st :
  let r := cleanup env st in
  contained (fst r)
  /\ processed_users (snd r) = processed_users st
  /\ progress_file (snd r) = progress_file st
  /\ match fst r with
     | Ok _ =>
         page (snd r) = None /\ context (snd r) = None
         /\ browser (snd r) = None
     | _ => True
     end.
Proof.
  cbv zeta.
  destruct st as [[p|] [c|] [b|] [w|] pu pf lg];
    unfold cleanup, try_except, pass_on_exception, try_except,
      call, bind, get, ask, modify, ret, raise;
    simpl;
    repeat match goal with
      | |- _ => progress simpl
      | |- context [env_stop_playwright env ?l] =>
          destruct (env_stop_playwright env l) as [[]|]
      | |- context [env_close_page env ?l] =>
          destruct (env_close_page env l) as [[]|]
      | |- context [env_close_context env ?l] =>
          destruct (env_close_context env l) as [[]|]
      end;
    repeat split.
Qed.

(** X23: [cleanup] never raises an [Exception] and touches neither the
    processed set nor the progress file; when it returns, the page, the
    context and the browser fields are [None]. *)
Theorem cleanup_contains_errors (env : Env) (st : state) :
  let r := cleanup env st in
  contained (fst r)
  /\ processed_users (snd r) = processed_users st
  /\ progress_file (snd r) = progress_file st
  /\ match fst r with
     | Ok _ =>
         page (snd r) = None /\ context (snd r) = None
         /\ browser (snd r) = None
     | _ => True
     end.
Proof. exact (cleanup_effect env st). Qed.

(** X24: while [playwright.stop()] does not raise and the two [close]
    calls raise at most an [Exception], [cleanup] returns with the four
    fields [None], and calling it twice in a row is the same as calling
    it once. *)
Theorem cleanup_idempotent (env : Env) (st : state) :
  (forall l e, env_close_page env l = Some e -> is_Exception e = true) ->
  (forall l e, env_close_context env l = Some e -> is_Exception e = true) ->
  (forall l, env_stop_playwright env l = None) ->
  (cleanup env ;;; cleanup env) st = cleanup env st
  /\ fst (cleanup env st) = Ok tt
  /\ page (snd (cleanup env st)) = None
  /\ context (snd (cleanup env st)) = None
  /\ browser (snd (cleanup env st)) = None
  /\ playwright (snd (cleanup env st)) = None.
Proof.
  intros Hp Hc Hs.
  destruct (cleanup_twice_when_stop_returns env st Hp Hc Hs) as [H1 H2].
  unfold bind. rewrite H1, H2. repeat split.
Qed.

End CleanupAlways.

(** ** The session check *)

Section SessionChecks.

Import Session.

(** One pass over the selectors never raises and leaves the state as it
    is; it finds the login exactly when some selector gives an element. *)
Lemma poll_selectors_run lib selectors st :
  exists found,
    poll_selectors lib selectors st = (Ok found, st)
    /\ (found = true <->
        exists selector, selector ∈ selectors
          /\ lib_wait_for_selector lib (log st) selector 10000 = Element true).
Proof.
  induction selectors as [|selector rest IH]; cbn [poll_selectors].
  - exists false. split; [reflexivity|]. split; [discriminate|].
    intros (s & Hs & _). inversion Hs.
  - destruct IH as (found & Hrun & Hiff).
    unfold bind, consult, get.
    destruct (lib_wait_for_selector lib (log st) selector 10000)
      as [[|]|e] eqn:E.
    + exists true. split; [reflexivity|]. split; [|reflexivity].
      intros _. exists selector. split; [left|exact E].
    + exists found. split; [exact Hrun|]. rewrite Hiff. split.
      * intros (s & Hs & H). exists s. split; [right; exact Hs|exact H].
      * intros (s & Hs & H). apply elem_of_cons in Hs as [->|Hs].
        -- rewrite E in H. discriminate.
        -- exists s. split; assumption.
    + exists found. split; [exact Hrun|]. rewrite Hiff. split.
      * intros (s & Hs & H). exists s. split; [right; exact Hs|exact H].
      * intros (s & Hs & H). apply elem_of_cons in Hs as [->|Hs].
        -- rewrite E in H. discriminate.
        -- exists s. split; assumption.
Qed.

(** The rounds of polling never raise; they add one sleep of 2 seconds
    per round that found nothing. *)
Lemma poll_rounds_run lib rounds st :
  exists found k,
    poll_rounds lib rounds st = (Ok found, logged (replicate k (EvSleep 2)) st)
    /\ (k <= length rounds)%nat
    /\ (found = false -> k = length rounds).
Proof.
  revert st. induction rounds as [|r rest IH]; intros st; cbn [poll_rounds].
  - exists false, 0%nat. cbn [replicate]. rewrite logged_nil.
    split; [reflexivity|]. split; [cbn; lia|reflexivity].
  - destruct (poll_selectors_run lib login_selectors st) as (found & Hrun & _).
    unfold bind at 1. rewrite Hrun. destruct found.
    + exists true, 0%nat. cbn [replicate]. rewrite logged_nil.
      split; [reflexivity|]. split; [cbn; lia|discriminate].
    + unfold bind, sleep, emit, modify.
      change (set_log (EvSleep 2 :: log st) st) with (logged [EvSleep 2] st).
      destruct (IH (logged [EvSleep 2] st)) as (found & k & Hr & Hk & Hf).
      exists found, (S k). rewrite Hr, logged_app.
      replace (replicate k (EvSleep 2) ++ [EvSleep 2])%list
        with (replicate (S k) (EvSleep 2))
        by (rewrite replicate_S_end; reflexivity).
      split; [reflexivity|]. split; [cbn; lia|].
      intros H. cbn. f_equal. exact (Hf H).
Qed.

(** When no selector ever gives an element, the three rounds find
    nothing, whatever the waits raise. *)
Lemma poll_rounds_nothing lib rounds st :
  (forall l selector,
      lib_wait_for_selector lib l selector 10000 <> Element true) ->
  poll_rounds lib rounds st
  = (Ok false, logged (replicate (length rounds) (EvSleep 2)) st).
Proof.
  intros Hnone. revert st.
  induction rounds as [|r rest IH]; intros st; cbn [poll_rounds].
  - cbn [length replicate]. rewrite logged_nil. reflexivity.
  - destruct (poll_selectors_run lib login_selectors st)
      as (found & Hrun & Hiff).
    unfold bind at 1. rewrite Hrun. destruct found.
    + destruct Hiff as [Hiff _].
      destruct (Hiff eq_refl) as (s & _ & H). destruct (Hnone _ _ H).
    + unfold bind, sleep, emit, modify.
      change (set_log (EvSleep 2 :: log st) st) with (logged [EvSleep 2] st).
      rewrite IH, logged_app. cbn [length].
      rewrite replicate_S_end. reflexivity.
Qed.

Lemma verify_session_outcomes_aux lib st :
  let r := verify_session lib st in
  (fst r = Ok true
   \/ (exists msg, fst r = Raise (SessionError msg))
   \/ (exists e, fst r = Raise e /\ is_Exception e = false))
  /\ exists evs, snd r = logged evs st /\ Forall session_event evs.
Proof.
  cbv zeta. destruct (verify_session lib st) as [r s'] eqn:E.
  cbn [fst snd]. revert E.
  unfold verify_session, try_except at 1.
  unfold bind at 1. unfold call, bind at 1, ask.
  change (set_log (EvNavigate (base_url ++ "/me") :: log st) st)
    with (logged [EvNavigate (base_url ++ "/me")] st).
  set (s1 := logged [EvNavigate (base_url ++ "/me")] st).
  destruct (lib_goto lib (log st) (base_url ++ "/me")) as [e|].
  - cbn [raise]. intros E.
    assert (Hs : s' = s1) by (destruct e; injection E as _ <-; reflexivity).
    subst s'. split.
    + destruct e; cbn in E; injection E as <-; eauto.
    + exists [EvNavigate (base_url ++ "/me")].
      split; [reflexivity|repeat constructor].
  - cbn [ret]. unfold bind at 1, sleep, emit, modify.
    change (set_log (EvSleep 2 :: log s1) s1) with (logged [EvSleep 2] s1).
    unfold s1. rewrite logged_app. cbn [app].
    set (s2 := logged _ st).
    destruct (poll_rounds_run lib (range 3) s2) as (found & k & Hr & _ & _).
    unfold bind at 1. rewrite Hr. unfold s2. rewrite logged_app.
    set (evs := (replicate k (EvSleep 2) ++ _)%list).
    assert (Hevs : Forall session_event evs).
    { unfold evs. apply Forall_app. split.
      - apply Forall_forall. intros ev Hev.
        apply elem_of_replicate in Hev as [-> _]. reflexivity.
      - repeat constructor. }
    destruct found.
    + cbn [ret]. intros [= <- <-]. split; [left; reflexivity|eauto].
    + unfold try_except, bind, consult, get, ret, raise.
      destruct (lib_wait_for_selector lib _ _ 300000) as [b|e].
      * intros [= <- <-]. split; [left; reflexivity|eauto].
      * destruct e; cbn [is_Exception is_SessionError];
          try destruct (_ || _); cbn [is_Exception is_SessionError];
          intros [= <- <-]; (split; [eauto|eauto]).
Qed.

End SessionChecks.

(** ** Computations that settle *)

Section Settling.

Lemma fuelled_get {A} (f : state -> A) : fuelled (get f).
Proof. intros st. discriminate. Qed.

Lemma fuelled_modify f : fuelled (modify f).
Proof. intros st. discriminate. Qed.

Lemma fuelled_try_except {A} (m : M A) (h : exn -> M A) :
  fuelled m -> (forall e, fuelled (h e)) -> fuelled (try_except m h).
Proof.
  intros Hm Hh st. unfold try_except. specialize (Hm st).
  destruct (m st) as [[a|e|] s1]; cbn in *; [discriminate|apply Hh|exact Hm].
Qed.

Lemma fuelled_try_finally {A} (m : M A) (f : M unit) :
  fuelled m -> fuelled f -> fuelled (try_finally m f).
Proof.
  intros Hm Hf st. unfold try_finally. specialize (Hm st).
  destruct (m st) as [r s1]. specialize (Hf s1).
  destruct (f s1) as [[[]|e|] s2]; cbn in *;
    [exact Hm|discriminate|destruct (Hf eq_refl)].
Qed.

Lemma fuelled_contained {A} (m : M A) :
  (forall st, contained (fst (m st))) -> fuelled m.
Proof.
  intros H st E. specialize (H st). rewrite E in H. exact H.
Qed.

Lemma settles_fuelled {A} (m : M A) : fuelled m -> settles (fun _ => m).
Proof. intros H st. exists 0%nat. intros fuel _. split; [apply H|reflexivity]. Qed.

Lemma settles_bind {A B} (m : nat -> M A) (f : A -> nat -> M B) :
  settles m -> (forall a, settles (f a)) ->
  settles (fun fuel => bind (m fuel) (fun a => f a fuel)).
Proof.
  intros Hm Hf st. destruct (Hm st) as [n1 H1].
  destruct (m n1 st) as [[a|e|] s1] eqn:E.
  - destruct (Hf a s1) as [n2 H2]. exists (n1 `max` n2)%nat.
    assert (Hrun : forall fuel, (n1 `max` n2 <= fuel)%nat ->
              bind (m fuel) (fun a => f a fuel) st = f a n2 s1).
    { intros fuel Hfuel. unfold bind.
      destruct (H1 fuel ltac:(lia)) as [_ ->]. try rewrite E.
      apply H2. lia. }
    intros fuel Hfuel. rewrite (Hrun fuel Hfuel), (Hrun _ (le_n _)).
    split; [|reflexivity]. apply (H2 n2 (le_n _)).
  - exists n1. intros fuel Hfuel. unfold bind.
    destruct (H1 fuel Hfuel) as [_ ->]. try rewrite E.
    split; [discriminate|reflexivity].
  - destruct (H1 n1 (le_n _)) as [H _]. rewrite E in H. contradiction.
Qed.

Lemma settles_try_except {A} (m : nat -> M A) (h : exn -> nat -> M A) :
  settles m -> (forall e, settles (h e)) ->
  settles (fun fuel => try_except (m fuel) (fun e => h e fuel)).
Proof.
  intros Hm Hh st. destruct (Hm st) as [n1 H1].
  destruct (m n1 st) as [[a|e|] s1] eqn:E.
  - exists n1. intros fuel Hfuel. unfold try_except.
    destruct (H1 fuel Hfuel) as [_ ->]. try rewrite E.
    split; [discriminate|reflexivity].
  - destruct (Hh e s1) as [n2 H2]. exists (n1 `max` n2)%nat.
    assert (Hrun : forall fuel, (n1 `max` n2 <= fuel)%nat ->
              try_except (m fuel) (fun e => h e fuel) st = h e n2 s1).
    { intros fuel Hfuel. unfold try_except.
      destruct (H1 fuel ltac:(lia)) as [_ ->]. try rewrite E.
      apply H2. lia. }
    intros fuel Hfuel. rewrite (Hrun fuel Hfuel), (Hrun _ (le_n _)).
    split; [|reflexivity]. apply (H2 n2 (le_n _)).
  - destruct (H1 n1 (le_n _)) as [H _]. rewrite E in H. contradiction.
Qed.

Lemma settles_try_finally {A} (m : nat -> M A) (f : M unit) :
  settles m -> fuelled f -> settles (fun fuel => try_finally (m fuel) f).
Proof.
  intros Hm Hf st. destruct (Hm st) as [n1 H1]. exists n1.
  intros fuel Hfuel. unfold try_finally.
  destruct (H1 fuel Hfuel) as [_ ->].
  destruct (H1 n1 (le_n _)) as [Hn _].
  destruct (m n1 st) as [r s1]. specialize (Hf s1).
  destruct (f s1) as [[[]|e|] s2]; cbn in *;
    (split; [first [exact Hn | discriminate | destruct (Hf eq_refl)]|reflexivity]).
Qed.

Lemma get_users_settles_aux env page_type :
  settles (fun fuel => get_users env fuel page_type).
Proof. intros st. apply get_users_settles. Qed.

End Settling.

(** ** The frame of a run *)

Section SessionFrame.

Import Session.

(** The state after [initialize_browser]. *)
Lemma initialize_browser_effect lib st :
  let r := initialize_browser lib st in
  log (snd r) = log st /\ page (snd r) = page st
  /\ processed_users (snd r) = processed_users st
  /\ progress_file (snd r) = progress_file st
  /\ match fst r with
     | Ok _ => playwright (snd r) <> None /\ context (snd r) <> None
     | Raise _ => True
     | OutOfFuel => False
     end.
Proof.
  cbv zeta. destruct st as [p [c|] [b|] [w|] pu pf lg];
    unfold initialize_browser, try_except, bind, consult, get, modify, raise,
      ret;
    cbn [page context browser playwright processed_users progress_file log
         set_playwright set_context set_browser];
    repeat match goal with
      | |- context [lib_start lib ?l] => destruct (lib_start lib l)
      | |- context [lib_launch lib ?l] =>
          destruct (lib_launch lib l) as [?|? [?|] ?]
      | |- _ => progress cbn [page context browser playwright processed_users
                              progress_file log set_playwright set_context
                              set_browser fst snd]
      end;
    repeat split; discriminate.
Qed.

Lemma initialize_browser_fuelled lib : fuelled (initialize_browser lib).
Proof.
  intros st E. pose proof (initialize_browser_effect lib st) as H.
  cbv zeta in H. rewrite E in H. tauto.
Qed.

Lemma verify_session_fuelled lib : fuelled (verify_session lib).
Proof.
  intros st E.
  destruct (verify_session_outcomes_aux lib st) as [[H|[[m H]|[e [H _]]]] _];
    rewrite E in H; discriminate.
Qed.

Lemma fuelled_consult {A} (q : list event -> A) : fuelled (consult q).
Proof. intros st. discriminate. Qed.

Lemma fuelled_call q ev : fuelled (call q ev).
Proof. intros st. unfold call, bind, ask. destruct (q (log st)); discriminate. Qed.

Lemma fuelled_call_silent q : fuelled (call_silent q).
Proof.
  intros st. unfold call_silent, bind, consult, get.
  destruct (q (log st)); discriminate.
Qed.

Lemma fuelled_pass_on_exception m : fuelled m -> fuelled (pass_on_exception m).
Proof.
  intros H. apply fuelled_try_except; [exact H|].
  intros e. destruct (is_Exception e); [apply fuelled_ret|apply fuelled_raise].
Qed.

(** [browser_context] once the context is there and the page was made:
    the page is closed after the block, however the block ends. *)
Lemma browser_context_run {A} env lib (body : nat -> M A) st c p :
  context st = Some c ->
  lib_new_page lib (log st) = Made p ->
  browser_context env lib body st
  = let '(r, s1) :=
      (call_silent (lib_route lib) ;;; _ <- verify_session lib ;; body p) st in
    (match env_close_page env (log s1) with
     | Some e => if is_Exception e then r else Raise e
     | None => r
     end,
     logged [EvClosePage] s1).
Proof.
  intros Hc Hp. unfold browser_context, try_except at 1.
  unfold bind at 1. unfold bind at 1. cbn [get]. rewrite Hc. cbn [ret].
  unfold bind at 1. unfold consult at 1. cbn [get]. rewrite Hp.
  unfold try_finally.
  destruct ((call_silent (lib_route lib) ;;; _ <- verify_session lib ;; body p)
              st) as [r s1].
  unfold pass_on_exception, try_except, call, bind, ask.
  change (set_log (EvClosePage :: log s1) s1) with (logged [EvClosePage] s1).
  destruct (env_close_page env (log s1)) as [e|]; cbn [ret raise].
  - destruct (is_Exception e); cbn [ret raise]; destruct r; reflexivity.
  - destruct r; reflexivity.
Qed.

Lemma run_handler_contained e st :
  contained (fst (run_handler e st)).
Proof.
  unfold run_handler.
  destruct e; cbn [is_SessionError is_RateLimitError is_Exception];
    try destruct (negb _); cbn; auto.
Qed.

Lemma try_finally_cleanup {A} env (m : M A) st :
  let r := try_finally m (cleanup env) st in
  (fst r = fst (m st)
   /\ page (snd r) = None /\ context (snd r) = None /\ browser (snd r) = None)
  \/ (exists e, fst r = Raise e /\ is_Exception e = false).
Proof.
  cbv zeta. unfold try_finally. destruct (m st) as [r1 s1].
  pose proof (cleanup_effect env s1) as H. cbv zeta in H.
  destruct (cleanup env s1) as [[[]|e|] s2]; cbn [fst snd contained] in *.
  - left. tauto.
  - right. exists e. tauto.
  - tauto.
Qed.

Lemma run_outcome env lib fuel st :
  let r := run env lib fuel st in
  (fst r = OutOfFuel \/ contained (fst r))
  /\ match fst r with
     | Ok _ =>
         page (snd r) = None /\ context (snd r) = None
         /\ browser (snd r) = None
     | _ => True
     end.
Proof.
  cbv zeta. unfold run.
  set (block := try_except _ _).
  assert (Hblock : fst (block st) = OutOfFuel \/ contained (fst (block st))).
  { unfold block, try_except.
    destruct ((initialize_browser lib;;;
               browser_context env lib
                 (fun _ => find_and_unfollow_nonreciprocal env fuel)) st)
      as [[[]|e|] s1]; cbn [fst contained]; auto.
    right. apply run_handler_contained. }
  destruct (try_finally_cleanup env block st) as [(E & Hp & Hc & Hb)|(e & E & He)];
    cbv zeta in *.
  - rewrite E. split; [exact Hblock|].
    destruct (fst (block st)); auto.
  - rewrite E. cbn [contained]. split; [right; exact He|exact I].
Qed.

End SessionFrame.

Section RunSettles.

Import Session.

Ltac settles_step :=
  lazymatch goal with
  | |- settles (fun _ => ?m) => apply settles_fuelled
  | |- settles (fun fuel => bind (@?m fuel) (fun a => @?f a fuel)) =>
      apply (settles_bind m f); [|intros ?]
  | |- settles (fun fuel => try_except (@?m fuel) (fun e => @?h e fuel)) =>
      apply (settles_try_except m h); [|intros ?]
  | |- settles (fun fuel => try_finally (@?m fuel) ?f) =>
      apply (settles_try_finally m f)
  | |- settles (fun fuel => match ?x with _ => _ end) => destruct x
  end.

Ltac fuelled_leaf :=
  repeat first
    [ apply fuelled_ret | apply fuelled_raise | apply fuelled_get
    | apply fuelled_modify | apply fuelled_emit | apply fuelled_consult
    | apply fuelled_call | apply fuelled_call_silent
    | apply initialize_browser_fuelled | apply verify_session_fuelled
    | apply fuelled_pass_on_exception
    | apply fuelled_bind; [|intros ?]
    | match goal with
      | |- fuelled (match ?x with _ => _ end) => destruct x
      end ].

Lemma unfollow_chunks_fuelled env targets starts :
  fuelled (unfollow_chunks env targets starts).
Proof. apply fuelled_contained. intros st. apply unfollow_chunks_contained. Qed.

Lemma find_and_unfollow_nonreciprocal_settles env :
  settles (find_and_unfollow_nonreciprocal env).
Proof.
  unfold find_and_unfollow_nonreciprocal.
  settles_step; [|settles_step; apply fuelled_raise].
  settles_step; [apply get_users_settles_aux|].
  settles_step; [apply get_users_settles_aux|].
  cbv zeta. settles_step. unfold write_progress.
  fuelled_leaf. apply unfollow_chunks_fuelled.
Qed.

Lemma browser_context_settles {A} env lib (body : nat -> nat -> M A) :
  (forall p, settles (body p)) ->
  settles (fun fuel => browser_context env lib (fun p => body p fuel)).
Proof.
  intros Hbody. unfold browser_context.
  repeat first [apply Hbody | settles_step]; fuelled_leaf.
Qed.

Lemma run_settles env lib : settles (run env lib).
Proof.
  unfold run.
  settles_step; [|apply fuelled_contained; intros st; apply cleanup_effect].
  apply (settles_try_except
           (fun fuel =>
              initialize_browser lib ;;;
              browser_context env lib
                (fun _ => find_and_unfollow_nonreciprocal env fuel))
           (fun e _ => run_handler e)).
  - settles_step; [settles_step; fuelled_leaf|].
    apply (browser_context_settles env lib
             (fun _ fuel => find_and_unfollow_nonreciprocal env fuel)).
    intros _. apply find_and_unfollow_nonreciprocal_settles.
  - intros e. apply settles_fuelled, fuelled_contained. intros st.
    apply run_handler_contained.
Qed.

End RunSettles.

(** ** The session layer *)

Section SessionProperties.

Import Session.

(** X25: [verify_session] returns [True] or raises; it never returns
    [False], the only [Exception] it raises is a [SessionError], and it
    changes nothing but the log; of the events that the model logs it
    adds the navigation to [/me] and sleeps of 2 seconds only. *)
Theorem verify_session_outcomes (lib : Library) (st : state) :
  let r := verify_session lib st in
  (fst r = Ok true
   \/ (exists msg, fst r = Raise (SessionError msg))
   \/ (exists e, fst r = Raise e /\ is_Exception e = false))
  /\ exists evs, snd r = logged evs st /\ Forall session_event evs.
Proof. exact (verify_session_outcomes_aux lib st). Qed.

(** X26: when no selector gives an element in the three rounds of
    polling (whatever the waits raise, every exception of the polling is
    swallowed) and the wait for the manual login raises an [Exception],
    the address of the page decides: on [/me] or [/profile] the session
    counts as logged in, otherwise [SessionError] with
    [Login timeout - please try again] is raised.  Either way the check
    has slept 4 times 2 seconds. *)
Theorem verify_session_login_timeout (lib : Library) (st : state) (e : exn) :
  let url := base_url ++ "/me" in
  let st' := logged [EvSleep 2; EvSleep 2; EvSleep 2; EvSleep 2;
                     EvNavigate url] st in
  lib_goto lib (log st) url = None ->
  (forall l selector,
      lib_wait_for_selector lib l selector 10000 <> Element true) ->
  lib_wait_for_selector lib (log st') (PyStr.join " ," login_selectors) 300000
  = WaitRaise e ->
  is_Exception e = true ->
  verify_session lib st
  = (if PyStr.contains "/me" (lib_url lib (log st'))
        || PyStr.contains "/profile" (lib_url lib (log st'))
     then Ok true
     else Raise (SessionError "Login timeout - please try again"),
     st').
Proof.
  intros url st' Hgoto Hnone Hwait He.
  unfold verify_session, try_except at 1.
  unfold bind at 1. unfold call, bind at 1, ask. fold url. rewrite Hgoto.
  cbn [ret]. unfold bind at 1, sleep, emit, modify.
  unfold bind at 1. rewrite (poll_rounds_nothing lib (range 3) _ Hnone).
  change (length (range 3)) with 3%nat. cbn [replicate].
  unfold logged at 1. cbn [log set_log app].
  change (set_log _ (set_log _ (set_log _ st))) with st'.
  unfold try_except, bind, consult, get. rewrite Hwait.
  cbv beta iota. unfold raise at 1. cbv beta iota. rewrite He.
  destruct (_ || _); reflexivity.
Qed.

(** X27: [initialize_browser] never leaves the driver or the context
    unset when it returns; it touches neither the page, the processed
    set nor the progress file and adds no event to the log (it navigates
    nowhere, requests and closes nothing). *)
Theorem initialize_browser_ready (lib : Library) (st : state) :
  let r := initialize_browser lib st in
  log (snd r) = log st /\ page (snd r) = page st
  /\ processed_users (snd r) = processed_users st
  /\ progress_file (snd r) = progress_file st
  /\ match fst r with
     | Ok _ => playwright (snd r) <> None /\ context (snd r) <> None
     | Raise _ => True
     | OutOfFuel => False
     end.
Proof. exact (initialize_browser_effect lib st). Qed.

(** X28: once [browser_context] has opened its page, closing that page
    is the last thing it does, on every path: whether the route, the
    session check or the block returns or raises, also for what
    [except Exception] does not catch.  An [Exception] of [close] is
    swallowed and the outcome of the block kept. *)
Theorem browser_context_closes_page {A} (env : Env) (lib : Library)
    (body : nat -> M A) (st : state) (c p : nat) :
  context st = Some c ->
  lib_new_page lib (log st) = Made p ->
  let inner :=
    (call_silent (lib_route lib) ;;; _ <- verify_session lib ;; body p) st in
  browser_context env lib body st
  = (match env_close_page env (log (snd inner)) with
     | Some e => if is_Exception e then fst inner else Raise e
     | None => fst inner
     end,
     logged [EvClosePage] (snd inner)).
Proof.
  intros Hc Hp inner. rewrite (browser_context_run env lib body st c p Hc Hp).
  unfold inner.
  destruct ((call_silent (lib_route lib) ;;; _ <- verify_session lib ;; body p)
              st) as [r s1].
  reflexivity.
Qed.

(** X29: [run] returns or raises (from some number of turns on its result
    no longer depends on the number), no [Exception] escapes it, and
    when it returns the page, the context and the browser fields are
    [None]. *)
Theorem run_contains_errors (env : Env) (lib : Library) (st : state) :
  exists n, forall fuel, (n <= fuel)%nat ->
    let r := run env lib fuel st in
    contained (fst r)
    /\ r = run env lib n st
    /\ match fst r with
       | Ok _ =>
           page (snd r) = None /\ context (snd r) = None
           /\ browser (snd r) = None
       | _ => True
       end.
Proof.
  destruct (run_settles env lib st) as [n Hn]. exists n.
  intros fuel Hfuel. cbv zeta. destruct (Hn fuel Hfuel) as [Hfu Heq].
  pose proof (run_outcome env lib fuel st) as Ho. cbv zeta in Ho.
  destruct Ho as [[H|H] Hfields]; [contradiction|].
  split; [exact H|]. split; [exact Heq|exact Hfields].
Qed.

End SessionProperties.

Section RunPaths.

Import Session.

(** X30: on a new bot whose browser starts, when the session check
    raises a [SessionError], [run] closes the page, sleeps 5 seconds
    unless the lower-cased message contains [timeout], cleans up and
    returns; no listing is requested, nobody is unfollowed and the
    progress file is not touched. *)
Theorem run_session_error (env : Env) (lib : Library) (fuel : nat)
    (file : string) (w ctx p : nat) (b : option nat) (msg : string)
    (s1 : state) :
  let s0 := set_browser b
              (set_context (Some ctx)
                 (set_playwright (Some w) (init file))) in
  lib_start lib [] = Made w ->
  lib_launch lib [] = Launched ctx None b ->
  lib_new_page lib [] = Made p ->
  lib_route lib [] = None ->
  verify_session lib s0 = (Raise (SessionError msg), s1) ->
  (forall l, env_close_page env l = None) ->
  (forall l, env_close_context env l = None) ->
  (forall l, env_stop_playwright env l = None) ->
  run env lib fuel (init file)
  = (Ok tt,
     cleaned_up
       (logged ((if PyStr.contains "timeout" (PyStr.lower msg)
                 then [] else [EvSleep 5]) ++ [EvClosePage]) s1)).
Proof.
  intros s0 Hstart Hlaunch Hpage Hroute Hverify Hcp Hcc Hsp.
  assert (Hinit : initialize_browser lib (init file) = (Ok tt, s0)).
  { unfold initialize_browser, try_except, bind, consult, get, modify, ret.
    simpl. rewrite Hstart. simpl. rewrite Hlaunch. reflexivity. }
  assert (Hblock :
    (initialize_browser lib ;;;
     browser_context env lib
       (fun _ => find_and_unfollow_nonreciprocal env fuel)) (init file)
    = (Raise (SessionError msg), logged [EvClosePage] s1)).
  { rewrite (bind_ok _ _ _ _ _ Hinit).
    rewrite (browser_context_run env lib _ s0 ctx p); [|reflexivity|exact Hpage].
    unfold bind at 1. unfold call_silent, bind at 1, consult, get.
    change (log s0) with (@nil event). rewrite Hroute. cbn [ret].
    unfold bind at 1. rewrite Hverify. rewrite Hcp. reflexivity. }
  unfold run, try_finally, try_except. rewrite Hblock.
  unfold run_handler. cbn [is_SessionError str].
  set (s2 := logged _ s1).
  assert (Hclean : forall s, cleanup env s = (Ok tt, cleaned_up s)).
  { intros s. apply (cleanup_twice_when_stop_returns env s).
    - intros l e H. rewrite Hcp in H. discriminate.
    - intros l e H. rewrite Hcc in H. discriminate.
    - exact Hsp. }
  destruct (PyStr.contains "timeout" (PyStr.lower msg)); cbn [negb app].
  - unfold ret. rewrite Hclean. reflexivity.
  - unfold sleep, emit, modify. rewrite Hclean. unfold s2.
    unfold logged. cbn [log set_log app]. reflexivity.
Qed.

End RunPaths.

(** ** The further properties on concrete runs *)

Section FurtherWitnesses.

Import Session.

(** X2 on the scenario of alice, bob and carol. *)
Lemma get_users_valid_handles_witness :
  let users := as_users {["alice"; "bob"; "carol"]} in
  NoDup (username <$> users)
  /\ (forall u, u ∈ users ->
        UserM.validate_username (PyStr (username u)) = true
        /\ UserM.cleaned (username u) = username u
        /\ free_of "@" (username u)).
Proof.
  apply (get_users_valid_handles Mock.scenario 1 "following" (init EmptyString)
           (as_users {["alice"; "bob"; "carol"]})
           (logged [EvListenerOff; EvSleep 1; EvFetch "following" 1;
                    EvNavigate "https://suno.com/me/following"; EvListenerOn]
              (init EmptyString))).
  vm_compute. reflexivity.
Defined.

(** X3 on the scenario, starting from a set that holds dave. *)
Lemma pages_keeps_collected_witness :
  let users : gset string := {["dave"]} in
  let users' : gset string := {["alice"; "bob"; "carol"; "dave"]} in
  users ⊆ users' /\ (size users <= size users')%nat.
Proof.
  apply (pages_keeps_collected Mock.scenario "following" 1 {["dave"]} 1 None
           (Some Mock.bundle) (init EmptyString)
           {["alice"; "bob"; "carol"; "dave"]}
           (logged [EvSleep 1; EvFetch "following" 1] (init EmptyString))).
  vm_compute. reflexivity.
Defined.

(** X7 on the scenario, whose listing has 3 profiles. *)
Lemma get_users_single_page_witness :
  get_users Mock.scenario 1 "following" (init EmptyString)
  = (Ok (as_users
           (foldl add_profile ∅ (profiles_of ["alice"; "bob"; "carol"]))),
     logged [EvListenerOff; EvSleep 1; EvFetch "following" 1;
             EvNavigate "https://suno.com/me/following"; EvListenerOn]
       (init EmptyString)).
Proof.
  apply (get_users_single_page Mock.scenario 1 "following" (init EmptyString)
           Mock.bundle (Some 3) (profiles_of ["alice"; "bob"; "carol"]) true).
  - lia.
  - reflexivity.
  - reflexivity.
  - lia.
Defined.

(** X8 on a platform whose listing answers with a body that is not an
    object. *)
Lemma pages_malformed_body_witness :
  pages (Mock.with_fetch (fun _ _ _ => FetchOk NotADict) (Mock.platform [] []))
    "following" 1 ∅ 1 None (Some Mock.bundle) (init EmptyString)
  = (Raise (Exception "Invalid API response format"),
     logged [EvFetch "following" 1] (init EmptyString)).
Proof.
  apply (pages_malformed_body
           (Mock.with_fetch (fun _ _ _ => FetchOk NotADict) (Mock.platform [] []))
           "following" 0 ∅ 1 None (Some Mock.bundle) (init EmptyString)
           NotADict "Invalid API response format").
  - cbn. lia.
  - reflexivity.
  - reflexivity.
Defined.

(** X9 on a platform whose listing answers with status 500. *)
Lemma pages_error_not_retried_witness :
  pages (Mock.with_fetch (fun _ _ _ => Mock.http_error "500")
           (Mock.platform [] []))
    "following" 1 ∅ 1 None (Some Mock.bundle) (init EmptyString)
  = (Raise (Exception "Error: HTTP error! status: 500"),
     logged [EvFetch "following" 1] (init EmptyString)).
Proof.
  apply (pages_error_not_retried
           (Mock.with_fetch (fun _ _ _ => Mock.http_error "500")
              (Mock.platform [] []))
           "following" 0 ∅ 1 None (Some Mock.bundle) (init EmptyString)
           (Exception "Error: HTTP error! status: 500")).
  - cbn. lia.
  - reflexivity.
  - right. split; reflexivity.
Defined.

(** X10 on a platform whose listing always answers with status 502. *)
Lemma pages_three_502_witness :
  pages (Mock.with_fetch (fun _ _ _ => Mock.http_error "502")
           (Mock.platform [] []))
    "following" 1 ∅ 1 None (Some Mock.bundle) (init EmptyString)
  = (Raise (Exception "Failed to fetch page 1 after 3 retries"),
     logged [EvSleep 5; EvFetch "following" 1;
             EvSleep 5; EvFetch "following" 1;
             EvSleep 5; EvFetch "following" 1] (init EmptyString)).
Proof.
  apply (pages_three_502
           (Mock.with_fetch (fun _ _ _ => Mock.http_error "502")
              (Mock.platform [] []))
           "following" 0 ∅ 1 None (Some Mock.bundle) (init EmptyString)
           (Exception "Error: HTTP error! status: 502")).
  - cbn. lia.
  - intros l. reflexivity.
  - reflexivity.
  - reflexivity.
Defined.

(** X11 on a platform whose listing answers with status 401 and on which
    no qualifying response is seen. *)
Lemma pages_refresh_gives_up_witness :
  pages (Mock.with_fetch (fun _ _ _ => Mock.http_error "401") Mock.blind)
    "following" 1 ∅ 1 None (Some Mock.bundle) (init EmptyString)
  = (Raise (Exception
              "Failed to refresh authentication headers after 3 attempts"),
     logged [EvNavigate "https://suno.com/me/following";
             EvNavigate "https://suno.com/me/following";
             EvNavigate "https://suno.com/me/following";
             EvFetch "following" 1] (init EmptyString)).
Proof.
  apply (pages_refresh_gives_up
           (Mock.with_fetch (fun _ _ _ => Mock.http_error "401") Mock.blind)
           "following" 0 ∅ 1 None (Some Mock.bundle) (init EmptyString)
           (Exception "Error: HTTP error! status: 401")).
  - cbn. lia.
  - reflexivity.
  - reflexivity.
  - reflexivity.
  - reflexivity.
  - intros l. reflexivity.
Defined.


(** X17 on a platform that answers every unfollow request with status
    429 and [Retry-After: 7]: the driver sleeps 60 seconds each time. *)
Lemma unfollow_user_rate_limited_witness :
  unfollow_user
    (Mock.with_post (fun _ _ => PostOk (Mock.rate_limit_response "7"))
       (Mock.platform [] []))
    "bob" (init EmptyString)
  = (Ok false,
     logged (EvSleep 60 :: EvPost "bob" :: harvest_events
             ++ EvSleep 60 :: EvPost "bob" :: harvest_events
             ++ EvSleep 60 :: EvPost "bob" :: harvest_events)
       (init EmptyString)).
Proof.
  apply (unfollow_user_rate_limited
           (Mock.with_post (fun _ _ => PostOk (Mock.rate_limit_response "7"))
              (Mock.platform [] []))
           (fun l url => ex_intro _ Mock.bundle eq_refl)
           "bob" (init EmptyString)).
  - apply not_elem_of_empty.
  - intros l. eexists. split; [reflexivity|]. split; [reflexivity|].
    apply (bool_decide_unpack _). vm_compute. reflexivity.
Defined.

(** X22 on a response with [Retry-After: 120]. *)
Lemma handle_rate_limit_always_raises_witness :
  handle_rate_limit (Mock.rate_limit_response "120") (init EmptyString)
  = (Raise (RateLimitError "Rate limited. Retry after 60 seconds"),
     logged [EvSleep 60] (init EmptyString)).
Proof.
  apply (handle_rate_limit_always_raises (Mock.rate_limit_response "120")
           (init EmptyString)).
  apply (bool_decide_unpack _). vm_compute. reflexivity.
Defined.

(** X21 when alice and bob are followed and both follow back: the stale
    progress file is emptied and no request is sent. *)
Lemma nobody_to_unfollow_witness :
  exists st2,
    find_and_unfollow_nonreciprocal
      (Mock.platform [["alice"; "bob"]] [["carol"; "bob"; "alice"]]) 1
      (init "stale")
    = (Ok tt, st2)
    /\ progress_file st2 = EmptyString
    /\ Mock.posts (log st2) = 0%nat.
Proof.
  eexists. split.
  - apply (nobody_to_unfollow
             (Mock.platform [["alice"; "bob"]] [["carol"; "bob"; "alice"]]) 1
             (init "stale")
             (as_users {["alice"; "bob"]})
             (as_users {["alice"; "bob"; "carol"]})
             (logged [EvListenerOff; EvSleep 1; EvFetch "following" 1;
                      EvNavigate "https://suno.com/me/following"; EvListenerOn]
                (init "stale"))
             (logged [EvListenerOff; EvSleep 1; EvFetch "followers" 1;
                      EvNavigate "https://suno.com/me/followers"; EvListenerOn;
                      EvListenerOff; EvSleep 1; EvFetch "following" 1;
                      EvNavigate "https://suno.com/me/following"; EvListenerOn]
                (init "stale"))).
    + vm_compute. reflexivity.
    + vm_compute. reflexivity.
    + apply Forall_forall. apply (bool_decide_unpack _). vm_compute.
      reflexivity.
  - split; reflexivity.
Defined.

(** X24 on a bot that holds a page, a context, a browser and the
    driver. *)
Lemma cleanup_idempotent_witness :
  (cleanup (Mock.platform [] []) ;;; cleanup (Mock.platform [] []))
    Mock.open_bot
  = cleanup (Mock.platform [] []) Mock.open_bot
  /\ fst (cleanup (Mock.platform [] []) Mock.open_bot) = Ok tt
  /\ page (snd (cleanup (Mock.platform [] []) Mock.open_bot)) = None
  /\ context (snd (cleanup (Mock.platform [] []) Mock.open_bot)) = None
  /\ browser (snd (cleanup (Mock.platform [] []) Mock.open_bot)) = None
  /\ playwright (snd (cleanup (Mock.platform [] []) Mock.open_bot)) = None.
Proof.
  apply (cleanup_idempotent (Mock.platform [] []) Mock.open_bot).
  - intros l e H. discriminate H.
  - intros l e H. discriminate H.
  - intros l. reflexivity.
Defined.

(** X26 on a browser that stays on the login page: the waits of the
    polling raise, the long wait times out. *)
Lemma verify_session_login_timeout_witness :
  verify_session (logged_out "https://suno.com/login") (init EmptyString)
  = (Raise (SessionError "Login timeout - please try again"),
     logged [EvSleep 2; EvSleep 2; EvSleep 2; EvSleep 2;
             EvNavigate "https://suno.com/me"] (init EmptyString)).
Proof.
  apply (verify_session_login_timeout (logged_out "https://suno.com/login")
           (init EmptyString) (Exception "Timeout 300000ms exceeded")).
  - reflexivity.
  - intros l selector. discriminate.
  - reflexivity.
  - reflexivity.
Defined.

(** X28 with a block that is interrupted. *)
Lemma browser_context_closes_page_witness :
  browser_context (Mock.platform [] []) working
    (fun _ : nat => @raise unit KeyboardInterrupt) Mock.open_bot
  = (Raise KeyboardInterrupt,
     logged [EvClosePage; EvSleep 2; EvNavigate "https://suno.com/me"]
       Mock.open_bot).
Proof.
  apply (browser_context_closes_page (Mock.platform [] []) working
           (fun _ : nat => @raise unit KeyboardInterrupt) Mock.open_bot
           2%nat 1%nat).
  - reflexivity.
  - reflexivity.
Defined.

(** X30 on a browser that stays on the login page: the message of the
    error contains [timeout], so the run does not sleep. *)
Lemma run_session_error_witness :
  run (Mock.platform [] []) (logged_out "https://suno.com/login") 0
    (init "stale")
  = (Ok tt,
     {| page := None; context := None; browser := None; playwright := None;
        processed_users := ∅; progress_file := "stale";
        log := [EvStopPlaywright; EvCloseContext; EvClosePage;
                EvSleep 2; EvSleep 2; EvSleep 2; EvSleep 2;
                EvNavigate "https://suno.com/me"] |}).
Proof.
  apply (run_session_error (Mock.platform [] [])
           (logged_out "https://suno.com/login") 0 "stale" 4%nat 2%nat 1%nat
           None "Login timeout - please try again"
           (logged [EvSleep 2; EvSleep 2; EvSleep 2; EvSleep 2;
                    EvNavigate "https://suno.com/me"]
              (set_browser None
                 (set_context (Some 2%nat)
                    (set_playwright (Some 4%nat) (init "stale")))))).
  - reflexivity.
  - reflexivity.
  - reflexivity.
  - reflexivity.
  - vm_compute. reflexivity.
  - intros l. reflexivity.
  - intros l. reflexivity.
  - intros l. reflexivity.
Defined.

End FurtherWitnesses.
